(* ===== verification/_CoqProject ===== *)
-Q . S2P
Prelude.v
PyStr.v
Scalar.v
Tensor.v
PyFloat.v
PyFloatSpec.v
FloatValid.v
Json.v
JsonDecode.v
JsonFloat.v
Process.v
Main.v
