(* ===== verification/Prelude.v ===== *)
(** * Verification of [scripts/clip2_process.py] (dream-ai)

    The program is a one-shot command line tool: [clip2_process.py <image_path>]
    imports an inference library, computes an L2-normalised CLIP image embedding
    and prints one JSON document [{"caption": ..., "embedding": [...]}] on
    standard output.  Everything the script itself decides is modelled here: the
    import phase, the three branches of [process_image], the normalisation
    arithmetic, the JSON text that [json.dumps] produces for the documents the
    script builds (down to the digits of every float), and the command line
    entry point with its streams and exit status.  The neural network, the
    image decoder and the file system are outside the script; they appear as
    an oracle whose answers are arbitrary.

    ** Files, in dependency order

    - [Prelude] (this file): the [result] type of fallible calls with its bind
      notation (scope [res_scope]), the [traced] computations that record the
      external calls they make (scope [traced_scope]), Python's [sep.join],
      the tactic [case_result], the hint database [clip] and the rewrite
      database [clip_rw] shared by the other files.
    - [PyStr]: Python [str] values as lists of Unicode code points, string
      literals ([py]), the character classes used by the JSON theorems, and
      raised exceptions ([exn]) with their position in the class hierarchy.
    - [Scalar]: the arithmetic interface [Scalar] of a tensor element type
      (zero, addition, multiplication, division, square root) and the
      interface [PyNum] of the conversion to Python floats, with two
      instances: the real numbers (the arithmetic the specification talks
      about) and IEEE-754 binary32 with widening to binary64 (the arithmetic
      torch performs), built on the standard library's [SpecFloat] and
      executable.
    - [Tensor]: the expression of line 44,
      [image_features / image_features.norm(dim=-1, keepdim=True)], and the
      [image_features[0].tolist()] of line 45, over any [Scalar].
    - [PyFloat]: the interface [FloatRepr] the JSON encoder needs from a
      float type, and [float.__repr__] for binary64: shortest round-trip
      digits computed on exact integers, and the layout of format code ['r'].
    - [PyFloatSpec]: the meaning of those integers in the real numbers, the
      interval of reals that round to a binary64 value ([rounds_to]), and the
      proof that the digits found denote a real inside it.
    - [FloatValid]: the floats a machine holds ([valid_binary]: a canonical
      mantissa, an exponent in range), that the operations of lines 44 and
      45 stay inside them and that the widening is exact, and the binary32
      values whose squares underflow ([tiny]).
    - [Json]: the Python values the script serialises, and [json.dumps] with
      its default options ([ensure_ascii=True], [allow_nan=True], separators
      [", "] and [": "]) for them.
    - [JsonDecode]: the consumer of standard output, a reference decoder
      ([loads]) for the JSON grammar of RFC 8259, and what it makes of the
      text of [dumps].
    - [JsonFloat]: the four layouts of [float.__repr__] part by part, the
      decimal a number token denotes ([number_value]), and the round trip
      theorems of [dumps] and [loads].
    - [Process]: [process_image] (lines 19-59) over an oracle for the six
      library calls of the [try] block, as a [traced] computation.
    - [Main]: the import phase (lines 7-17) and the [__main__] block
      (lines 61-68): from [sys.argv] and the oracles to the text written on
      each stream, the calls made and the exit status; the contract of the
      specification and the refinement theorem.

    ** Correspondence with the code

    - [Main.import_phase] is lines 9-17: [import torch] and
      [from PIL import Image] are unguarded, so a failure there ends the
      process; only the [transformers] import is inside [try/except
      ImportError] and sets [HAS_CLIP].
    - [Process.process_image] is lines 19-59.  The [try] block is
      [Process.try_body]; each external call is one [tcall] on a field of the
      oracle record [Process.Libs] and appends one [event] to the trace.
      [Process.except_Exception] is the handler of line 55: an exception is a
      value of [PyStr.exn] carrying its class ([except Exception] does not
      catch [KeyboardInterrupt] or [SystemExit]) and its [str(e)].
    - [Tensor.normalize] is line 44 ([Tensor.norm] and [Tensor.div] composed
      as in the source) and [Tensor.getitem0], [Tensor.tolist] line 45.
      [Tensor.div] is torch's [/] on two-dimensional tensors: the sizes are
      compared from the last dimension to the first ([check_dim]), the
      error carries torch's message, and a dimension of size 1 is expanded
      ([expand]); that the script's operands always broadcast is a theorem
      ([normalize_ok]), not a part of the definition.
    - [Json.dumps] is the call of lines 63 and 68, modelled from CPython's
      [json.encoder]: [encode_basestring_ascii] with [ESCAPE_ASCII],
      [ESCAPE_DCT] and [replace], [floatstr], and the list and dictionary
      layout.  [PyFloat.b64_repr] is the [float.__repr__] it calls.
    - [Main.main] is lines 61-68 and [Main.run] the whole script.

    ** What the theorems show

    - [Process]: the documents [process_image] can return are characterised
      branch by branch (placeholder, success, caught exception), and so are
      the exceptions that leave it; it returns whenever the libraries raise
      only [Exception]s; the embedding has 512 entries on every branch when
      the model's feature rows have; the library calls happen in program
      order, none on the fallback branch; over the reals the embedding has
      norm 1.
    - [Tensor]: line 44 never raises and divides each row by its norm; on
      rectangular batches [div] raises exactly when the widths or the
      heights cannot be broadcast; over the reals (exact arithmetic, which
      the float32 program only approximates) a non-zero row is mapped to a
      row of Euclidean norm 1 with entries in [-1, 1], normalisation is
      idempotent and invariant under positive scaling; in binary32 a row of
      zeros and any row holding a NaN are mapped to rows of NaNs, and
      [tolist] keeps them.
    - [PyFloat], [Json]: the text produced by [dumps] consists of printable
      ASCII only, whatever the strings and floats are (hence it holds no
      line break and is encodable on any output stream); sample values of
      [float.__repr__] agree with CPython's output.
    - [PyFloatSpec]: the integer comparison [cmp_scaled] compares the real
      values; [decpt_of] finds the decimal point position of every positive
      value; the nearest decimal of seventeen digits lies strictly inside
      the rounding interval of a value of at most 53 bits, hence
      [shortest_decimal] is read back as the value it was computed from;
      no decimal with fewer digits lies in the interval, and among those
      with as few digits [shortest_decimal] is one nearest to the value:
      the three properties that define [float.__repr__].
    - [FloatValid]: rounding a mantissa that has enough digits gives a valid
      float; division, square root and the widening of [tolist()] give
      valid floats whatever their arguments, multiplication and addition
      for valid arguments; the widening of a valid binary32 value keeps its
      sign and real value; every entry of the normalised row and of the
      list of Python floats is valid; the square of a binary32 value below
      [2^-75] rounds to zero, so the norm of a row of such values is zero
      and no entry of its quotient is finite.
    - [JsonDecode], [JsonFloat]: for a value whose strings hold valid code
      points, [loads (dumps v)] is the value itself when its floats are
      finite (strings exactly when they hold no surrogate pair written as two
      code points, with the pair merged otherwise) and a refusal when a
      float is a NaN or an infinity; every finite binary64 value is written
      as a JSON number, and the decimal that number denotes has the sign of
      the value and lies in its rounding interval, so a reader that rounds
      to nearest, ties to even, gets the float back; no decimal with fewer
      significant digits does, and none with as few is nearer.
    - [Main]: [run] refines the contract of the specification under three
      assumptions (the unguarded imports succeed, the libraries raise only
      [Exception]s, the features have width 512); standard output is always
      empty or one printable line; the exact text printed without the
      library and for a zero feature vector; the usage error; what happens
      where the assumptions fail (a missing [torch], an exception that is
      not an [Exception], NaN in the output); what a JSON decoder reads from
      standard output on the placeholder, the error and the success branch,
      that on the success branch each number of the embedding reads back
      as the float [tolist()] made ([run_success_numbers]), and that the
      reader refuses the line whenever the norm comes out as zero
      ([run_zero_norm_not_json]), which happens when the features are all
      zero or so small that their squares underflow
      ([run_underflow_not_json]).

    ** Bounds, fuel and assumptions

    - [PyFloat]: [shortest] tries 1 to 17 significant digits, and
      [PyFloatSpec.seventeen_digits] proves that the seventeenth attempt
      succeeds for every mantissa below [2^53]; [strip_zeros] removes at most
      17 trailing zeros; [find_decpt] takes 8 steps from an estimate by the
      binary logarithm, and, if that fails its validation [decpt_ok],
      [log2 m + 2 |e| + 2] steps from [- |e|], which
      [PyFloatSpec.decpt_of_spec] proves enough for every value.
    - [JsonDecode]: the fuel of [parse_value] bounds the nesting; [loads]
      passes the length of the text, and [strings_valid_decodes] shows that
      the length of the text of a value is fuel enough to read it.  The
      string and number scanners are structurally recursive.
    - The theorems on the text of a float hold for every finite [spec_float];
      the round trip of its value assumes a mantissa below [2^53], which
      every binary64 value has.
    - The sum of squares inside [norm] is a left-to-right fold in the
      element type.  Over the reals the order is irrelevant; for binary32,
      torch's reduction order is an implementation detail, and the binary32
      theorems proved here (NaN propagation, zero rows, underflow) do not
      depend on it.  The theorems on underflow do depend on the squares
      being computed in float32, which is torch's accumulation type for a
      float32 tensor; with a wider accumulator the squares of small
      features would not vanish.
    - A batch is a list of rows, so the width of a batch of height 0 is not
      represented and [Tensor.div] cannot report a mismatch of widths
      there.  The script divides a batch by its own norms.
    - The consumer [JsonDecode.loads] follows RFC 8259 and refuses the
      words [NaN] and [Infinity]; the [json.loads] of Python accepts them,
      a strict decoder (or one in another language) does not.
    - An oracle answer is a function of the call's arguments: each call is
      made at most once per run, so no generality is lost.
    - [get_image_features] answers with a two-dimensional tensor (a batch
      of rows), as the model does; [str(e)] of a caught exception is a
      string (an exception whose [__str__] raises is outside the model),
      and the class of an exception is kept only as far as the two
      handlers tell classes apart.

    ** Not modelled

    - The CLIP network, image decoding and the pretrained weights: library
      code the script only calls.
    - The traceback text of an uncaught exception, and writing to a closed
      or broken stream.

    ** Planned extensions

    - The real value of the binary32 operations (that [b32_div] and
      [b32_sqrt] round the exact quotient and root), to bound the norm of
      the printed embedding. *)

From Stdlib Require Import ZArith NArith Lia.
From stdpp Require Import base tactics option list.

(** ** Fallible computations *)

(** The class of a raised Python exception, as far as the script's handlers
    distinguish them: [except ImportError] (line 15) catches [ImportError];
    [except Exception] (line 55) catches everything but the exceptions that
    derive from [BaseException] only. *)
Inductive exn_class : Type :=
  | ImportError
  | OtherException
  | BaseOnly.

#[export] Instance exn_class_eq_dec : EqDecision exn_class.
Proof. solve_decision. Defined.

Inductive result (E A : Type) : Type :=
  | Ok (a : A)
  | Err (e : E).
Arguments Ok {E A} a.
Arguments Err {E A} e.

Definition result_bind {E A B} (r : result E A) (k : A -> result E B) : result E B :=
  match r with
  | Ok a => k a
  | Err e => Err e
  end.

Definition result_map {E A B} (f : A -> B) (r : result E A) : result E B :=
  result_bind r (fun a => Ok (f a)).

Definition is_ok {E A} (r : result E A) : bool :=
  match r with Ok _ => true | Err _ => false end.

Declare Scope res_scope.
Delimit Scope res_scope with res.
Notation "x <- r ;; k" := (result_bind r (fun x => k))
  (at level 100, r at next level, right associativity) : res_scope.

(** ** Computations that record the external calls they make

    A computation yields the list of events it caused, in order, and either
    a value or the exception that ended it. *)

Definition traced (Ev E A : Type) : Type := list Ev * result E A.

Definition tret {Ev E A} (a : A) : traced Ev E A := ([], Ok a).

Definition tbind {Ev E A B} (m : traced Ev E A) (k : A -> traced Ev E B) : traced Ev E B :=
  match m with
  | (t, Ok a) => (t ++ (k a).1, (k a).2)
  | (t, Err e) => (t, Err e)
  end.

(** An external call: one event and the call's outcome. *)
Definition tcall {Ev E A} (ev : Ev) (r : result E A) : traced Ev E A := ([ev], r).

(** A computation of the script itself: no event. *)
Definition tlift {Ev E A} (r : result E A) : traced Ev E A := ([], r).

Declare Scope traced_scope.
Delimit Scope traced_scope with traced.
Notation "x <- m ;; k" := (tbind m (fun x => k))
  (at level 100, m at next level, right associativity) : traced_scope.

(** ** [sep.join(items)] *)

Fixpoint join {A} (sep : list A) (items : list (list A)) : list A :=
  match items with
  | [] => []
  | [x] => x
  | x :: rest => x ++ sep ++ join sep rest
  end.

(** ** Tactics *)

(** Case analysis on the [result] scrutinised by the goal. *)
Ltac case_result :=
  match goal with
  | |- context [result_bind ?r _] =>
      let E := fresh "E" in destruct r eqn:E; simpl
  | |- context [match ?r with Ok _ => _ | Err _ => _ end] =>
      let E := fresh "E" in destruct r eqn:E; simpl
  end.

Create HintDb clip discriminated.
Create Rewrite HintDb clip_rw.

(** ** Lemmas on [result] *)

Lemma result_bind_ok {E A B} (r : result E A) (k : A -> result E B) b :
  result_bind r k = Ok b <-> exists a, r = Ok a /\ k a = Ok b.
Proof.
  destruct r as [a|e']; simpl; split.
  - eauto.
  - by intros (? & [= <-] & ?).
  - done.
  - by intros (? & ? & ?).
Qed.

Lemma result_bind_err {E A B} (r : result E A) (k : A -> result E B) e :
  result_bind r k = Err e <-> r = Err e \/ exists a, r = Ok a /\ k a = Err e.
Proof.
  destruct r as [a|e']; simpl; split.
  - eauto.
  - by intros [?|(? & [= <-] & ?)].
  - intros [= ->]; by left.
  - intros [?|(? & ? & ?)]; congruence.
Qed.

Lemma result_bind_assoc {E A B C} (r : result E A)
    (k : A -> result E B) (h : B -> result E C) :
  result_bind (result_bind r k) h = result_bind r (fun a => result_bind (k a) h).
Proof. by destruct r. Qed.

Lemma result_bind_ret {E A} (r : result E A) : result_bind r Ok = r.
Proof. by destruct r. Qed.

(** ** Lemmas on [traced] *)

Lemma tbind_ret_l {Ev E A B} (a : A) (k : A -> traced Ev E B) :
  tbind (tret a) k = k a.
Proof. unfold tbind, tret. simpl. by destruct (k a). Qed.

Lemma tbind_lift_ok {Ev E A B} (a : A) (k : A -> traced Ev E B) :
  tbind (tlift (Ok a)) k = k a.
Proof. apply tbind_ret_l. Qed.

Lemma tbind_call_ok {Ev E A B} (ev : Ev) (a : A) (k : A -> traced Ev E B) :
  tbind (tcall ev (Ok a)) k = (ev :: (k a).1, (k a).2).
Proof. reflexivity. Qed.

Lemma tbind_call_err {Ev E A B} (ev : Ev) (e : E) (k : A -> traced Ev E B) :
  tbind (tcall ev (Err e : result E A)) k = ([ev], Err e).
Proof. reflexivity. Qed.

Lemma tbind_lift_err {Ev E A B} (e : E) (k : A -> traced Ev E B) :
  tbind (tlift (Err e : result E A)) k = ([], Err e).
Proof. reflexivity. Qed.

Lemma tbind_assoc {Ev E A B C} (m : traced Ev E A)
    (k : A -> traced Ev E B) (h : B -> traced Ev E C) :
  tbind (tbind m k) h = tbind m (fun a => tbind (k a) h).
Proof.
  destruct m as [t [a|e]]; simpl; [|done].
  destruct (k a) as [t' [b|e]]; simpl; [|done].
  by rewrite app_assoc.
Qed.

(** ** Lemmas on [join] *)

(** A boolean test on a list, together with a property that follows from
    the test elementwise. *)
Lemma forallb_Forall_and {A} (f : A -> bool) (Q : A -> Prop) l :
  forallb f l = true -> Forall (fun x => f x = true -> Q x) l ->
  Forall (fun x => f x = true /\ Q x) l.
Proof.
  induction l as [|x l IH]; [constructor|]. cbn [forallb].
  intros [Hx Hl]%andb_true_iff [HQ HQl]%Forall_cons_1. constructor; auto.
Qed.

Lemma forallb_fmap {A B} (f : B -> bool) (g : A -> B) l :
  forallb f (g <$> l) = forallb (fun x => f (g x)) l.
Proof. induction l as [|x l IH]; [done|]. cbn. by rewrite IH. Qed.

Lemma join_cons {A} (sep x : list A) y rest :
  join sep (x :: y :: rest) = x ++ sep ++ join sep (y :: rest).
Proof. reflexivity. Qed.

Lemma Forall_join {A} (P : A -> Prop) (sep : list A) items :
  Forall P sep -> Forall (Forall P) items -> Forall P (join sep items).
Proof.
  intros Hsep. induction 1 as [|x [|y rest] Hx Hrest IH]; simpl; auto.
  rewrite !Forall_app. auto.
Qed.

Lemma join_replicate_length {A} (sep x : list A) n :
  length (join sep (replicate (S n) x)) = (S n * length x + n * length sep)%nat.
Proof.
  induction n as [|n IH]; [simpl; lia|].
  change (replicate (S (S n)) x) with (x :: x :: replicate n x).
  rewrite join_cons, !length_app.
  change (x :: replicate n x) with (replicate (S n) x). rewrite IH. lia.
Qed.

#[export] Hint Resolve Forall_join : clip.
#[export] Hint Rewrite @result_bind_assoc @result_bind_ret : clip_rw.
#[export] Hint Rewrite @tbind_ret_l @tbind_lift_ok @tbind_call_ok @tbind_call_err
  @tbind_lift_err : clip_rw.
