(* ===== verification/PyStr.v ===== *)
(** * Python [str] values and exceptions

    A Python [str] is a sequence of Unicode code points; it is modelled as a
    list of [N].  The values the script handles are string literals, the
    command line argument, [str(e)] of a caught exception, and their
    concatenations by f-strings.  The file also holds the model of a raised
    exception and the character classes the JSON encoder distinguishes. *)

From Stdlib Require Import NArith String Ascii Lia DecimalString.
From stdpp Require Import base tactics list.
From S2P Require Import Prelude.

Local Open Scope N_scope.

(** ** Strings *)

Definition codepoint : Type := N.
Definition pystr : Type := list codepoint.

(** A string literal of the source, given as a Rocq string of ASCII
    characters. *)
Definition py (s : string) : pystr := N_of_ascii <$> list_ascii_of_string s.
Arguments py s%_string.

(** [str(n)] for a natural number: its decimal digits. *)
Definition nat_str (n : nat) : pystr := py (NilEmpty.string_of_uint (Nat.to_uint n)).

(** [sys.maxunicode + 1] *)
Definition cp_limit : N := 0x110000.

Definition valid_cp (c : codepoint) : Prop := c < cp_limit.
Definition valid_str (s : pystr) : Prop := Forall valid_cp s.

#[export] Instance valid_cp_dec c : Decision (valid_cp c).
Proof. unfold valid_cp. apply _. Defined.

(** ** Character classes *)

(** The class [[ -~]] of the encoder's regular expression: the characters
    that are written as they are unless they are a quote or a backslash. *)
Definition printable (c : codepoint) : bool := (0x20 <=? c) && (c <=? 0x7e).

Definition is_ascii (c : codepoint) : bool := c <? 0x80.

(** The decimal digits [0] to [9]. *)
Definition is_digit (c : codepoint) : bool := (48 <=? c) && (c <=? 57).

Definition newline : codepoint := 0x0a.

(** Surrogate code points: a Python [str] may hold them unpaired (a command
    line argument that is not valid UTF-8 is decoded with [surrogateescape]
    into low surrogates). *)
Definition high_surrogate (c : codepoint) : bool := (0xd800 <=? c) && (c <=? 0xdbff).
Definition low_surrogate (c : codepoint) : bool := (0xdc00 <=? c) && (c <=? 0xdfff).

Definition printable_str (s : pystr) : Prop := Forall (fun c => printable c = true) s.

#[export] Instance printable_str_dec s : Decision (printable_str s).
Proof. unfold printable_str. apply _. Defined.

(** ** Exceptions *)

(** A raised exception: its class as far as the handlers of the script tell
    classes apart, and the text [str(e)] yields. *)
Record exn : Type := Exn {
  exn_cls : exn_class;
  exn_str : pystr;
}.

(** [isinstance(e, Exception)]: what [except Exception] (line 55) catches. *)
Definition is_Exception (e : exn) : bool :=
  match exn_cls e with
  | BaseOnly => false
  | _ => true
  end.

(** [isinstance(e, ImportError)]: what [except ImportError] (line 15) catches. *)
Definition is_ImportError (e : exn) : bool :=
  match exn_cls e with
  | ImportError => true
  | _ => false
  end.

(** The result of a call that may raise. *)
Abbreviation pyresult := (result exn).

(** ** Lemmas *)

Lemma py_app (s1 s2 : string) : py (String.append s1 s2) = py s1 ++ py s2.
Proof.
  unfold py. induction s1 as [|a s1 IH]; simpl; [done|].
  f_equal. exact IH.
Qed.

Lemma py_length s : length (py s) = String.length s.
Proof. unfold py. induction s; simpl; auto. Qed.

Lemma N_of_ascii_lt_256 a : N_of_ascii a < 256.
Proof. apply N_ascii_bounded. Qed.

Lemma py_valid s : valid_str (py s).
Proof.
  unfold valid_str, py. induction s as [|a s IH]; simpl; constructor; auto.
  unfold valid_cp, cp_limit. pose proof (N_of_ascii_lt_256 a). lia.
Qed.

(** A literal holds no surrogate. *)
Lemma py_no_high s : Forall (fun c => high_surrogate c = false) (py s).
Proof.
  unfold py. induction s as [|a s IH]; simpl; constructor; auto.
  unfold high_surrogate. pose proof (N_of_ascii_lt_256 a).
  apply andb_false_iff. left. apply N.leb_gt. lia.
Qed.

Lemma printable_spec c : printable c = true <-> 0x20 <= c <= 0x7e.
Proof. unfold printable. rewrite andb_true_iff, !N.leb_le. done. Qed.

Lemma printable_is_ascii c : printable c = true -> is_ascii c = true.
Proof. rewrite printable_spec. unfold is_ascii. rewrite N.ltb_lt. lia. Qed.

Lemma printable_not_newline c : printable c = true -> c <> newline.
Proof. rewrite printable_spec. unfold newline. lia. Qed.

Lemma printable_valid c : printable c = true -> valid_cp c.
Proof. rewrite printable_spec. unfold valid_cp, cp_limit. lia. Qed.

Lemma printable_str_app s1 s2 :
  printable_str (s1 ++ s2) <-> printable_str s1 /\ printable_str s2.
Proof. apply Forall_app. Qed.

Lemma printable_str_no_newline s : printable_str s -> newline ∉ s.
Proof.
  unfold printable_str. rewrite Forall_forall. intros H Hin.
  by apply (printable_not_newline _ (H _ Hin)).
Qed.

Lemma is_Exception_ImportError e : is_ImportError e = true -> is_Exception e = true.
Proof. unfold is_ImportError, is_Exception. by destruct (exn_cls e). Qed.

#[export] Hint Resolve py_valid printable_valid printable_is_ascii : clip.
#[export] Hint Rewrite py_app py_length : clip_rw.
