(* ===== verification/Scalar.v ===== *)
(** * Element types of tensors and Python floats

    [Scalar] is the arithmetic a tensor element type offers to line 44 of the
    script: the sum, product, quotient and square root that
    [image_features / image_features.norm(dim=-1, keepdim=True)] performs.
    Two instances are given: the real numbers, in which the specification's
    "divide by its Euclidean norm" is exact, and IEEE-754 binary32, torch's
    default element type, taken from the standard library's executable
    [SpecFloat].  [PyNum] relates an element type to the type of the Python
    floats [tolist()] produces and names the literal [0.0] of lines 25
    and 58. *)

From Stdlib Require Import Reals ZArith Lia Lra.
From Stdlib Require Import Floats.SpecFloat.
From stdpp Require Import base tactics.
From S2P Require Import Prelude.

(** ** The interface *)

Class Scalar (F : Type) : Type := {
  fzero : F;
  fadd : F -> F -> F;
  fmul : F -> F -> F;
  fdiv : F -> F -> F;
  fsqrt : F -> F;
}.

(** [item] is the conversion of one tensor element to a Python float
    ([Tensor.tolist]); [zero_float] is the Python literal [0.0]. *)
Class PyNum (F P : Type) : Type := {
  item : F -> P;
  zero_float : P;
}.

(** ** The real numbers *)

#[export] Instance R_scalar : Scalar R := {|
  fzero := 0%R;
  fadd := Rplus;
  fmul := Rmult;
  fdiv := Rdiv;
  fsqrt := sqrt;
|}.

#[export] Instance R_pynum : PyNum R R := {|
  item := fun x => x;
  zero_float := 0%R;
|}.

(** ** IEEE-754 binary32 and binary64 *)

(** A binary32 value: 24 bits of precision, infinities at exponent 128. *)
Definition binary32 : Type := spec_float.
(** A Python float is a binary64 value: 53 bits of precision, infinities at
    exponent 1024. *)
Definition binary64 : Type := spec_float.

Definition prec32 : Z := 24.
Definition emax32 : Z := 128.
Definition prec64 : Z := 53.
Definition emax64 : Z := 1024.

Definition b32_zero : binary32 := S754_zero false.
Definition b32_add : binary32 -> binary32 -> binary32 := SFadd prec32 emax32.
Definition b32_mul : binary32 -> binary32 -> binary32 := SFmul prec32 emax32.
Definition b32_div : binary32 -> binary32 -> binary32 := SFdiv prec32 emax32.
Definition b32_sqrt : binary32 -> binary32 := SFsqrt prec32 emax32.

(** The binary32 value of an integer, rounded to nearest even. *)
Definition b32_of_Z (z : Z) : binary32 := binary_normalize prec32 emax32 z 0 false.

(** Widening conversion binary32 -> binary64, as performed by [tolist()]:
    every binary32 value is a binary64 value, so no rounding happens; only
    the mantissa is brought to the canonical width. *)
Definition b32_to_b64 (x : binary32) : binary64 :=
  match x with
  | S754_finite s m e => binary_round prec64 emax64 s m e
  | _ => x
  end.

Definition b64_zero : binary64 := S754_zero false.

#[export] Instance binary32_scalar : Scalar binary32 := {|
  fzero := b32_zero;
  fadd := b32_add;
  fmul := b32_mul;
  fdiv := b32_div;
  fsqrt := b32_sqrt;
|}.

#[export] Instance binary32_pynum : PyNum binary32 binary64 := {|
  item := b32_to_b64;
  zero_float := b64_zero;
|}.

Definition is_nan (x : spec_float) : bool :=
  match x with S754_nan => true | _ => false end.

Definition is_zero (x : spec_float) : bool :=
  match x with S754_zero _ => true | _ => false end.

Definition is_finite (x : spec_float) : bool :=
  match x with S754_zero _ | S754_finite _ _ _ => true | _ => false end.

(** ** Facts about the real instance *)

Lemma R_sqrt_sqr_pos (x : R) : (0 < x)%R -> (sqrt x * sqrt x = x)%R.
Proof. intros Hx. apply sqrt_sqrt. lra. Qed.

Lemma R_sqrt_pos (x : R) : (0 < x)%R -> (0 < sqrt x)%R.
Proof. apply sqrt_lt_R0. Qed.

(** ** Facts about the binary32 instance: NaN is absorbing *)

Lemma b32_add_nan_l y : b32_add S754_nan y = S754_nan.
Proof. reflexivity. Qed.

Lemma b32_add_nan_r x : b32_add x S754_nan = S754_nan.
Proof. by destruct x. Qed.

Lemma b32_mul_nan_l y : b32_mul S754_nan y = S754_nan.
Proof. reflexivity. Qed.

Lemma b32_mul_nan_r x : b32_mul x S754_nan = S754_nan.
Proof. by destruct x. Qed.

Lemma b32_div_nan_r x : b32_div x S754_nan = S754_nan.
Proof. by destruct x. Qed.

Lemma b32_div_nan_l y : b32_div S754_nan y = S754_nan.
Proof. reflexivity. Qed.

Lemma b32_sqrt_nan : b32_sqrt S754_nan = S754_nan.
Proof. reflexivity. Qed.

(** [0.0 / 0.0] and [-0.0 / 0.0] are NaN. *)
Lemma b32_div_zero_zero s s' : b32_div (S754_zero s) (S754_zero s') = S754_nan.
Proof. reflexivity. Qed.

Lemma b32_mul_zero_zero s s' : b32_mul (S754_zero s) (S754_zero s') = S754_zero (xorb s s').
Proof. reflexivity. Qed.

Lemma b32_add_pzero_zero s : b32_add (S754_zero false) (S754_zero s) = S754_zero false.
Proof. by destruct s. Qed.

Lemma b32_sqrt_zero s : b32_sqrt (S754_zero s) = S754_zero s.
Proof. reflexivity. Qed.

(** *** Rounding a non-negative mantissa never yields a NaN *)

Section Rounding.
Variables prec emax : Z.

Lemma shr_1_nonneg mrs : (0 <= shr_m mrs)%Z -> (0 <= shr_m (shr_1 mrs))%Z.
Proof. destruct mrs as [[|[p|p|]|p] r s]; simpl; lia. Qed.

Lemma iter_pos_preserves {A} (P : A -> Prop) (f : A -> A) :
  (forall x, P x -> P (f x)) -> forall n x, P x -> P (iter_pos f n x).
Proof. intros Hf. induction n; simpl; auto. Qed.

Lemma shr_nonneg mrs e n :
  (0 <= shr_m mrs)%Z -> (0 <= shr_m (fst (shr mrs e n)))%Z.
Proof.
  intros H. destruct n; simpl; auto.
  by apply (iter_pos_preserves (fun r => 0 <= shr_m r)%Z), H; apply shr_1_nonneg.
Qed.

Lemma shr_record_of_loc_m m l : shr_m (shr_record_of_loc m l) = m.
Proof. by destruct l as [|[]]. Qed.

Lemma shr_fexp_nonneg m e l :
  (0 <= m)%Z -> (0 <= shr_m (fst (shr_fexp prec emax m e l)))%Z.
Proof. intros H. apply shr_nonneg. by rewrite shr_record_of_loc_m. Qed.

Lemma round_nearest_even_nonneg m l :
  (0 <= m)%Z -> (0 <= round_nearest_even m l)%Z.
Proof. destruct l as [|[]]; simpl; try destruct (Z.even m); lia. Qed.

Lemma binary_round_aux_not_nan s m e l :
  (0 <= m)%Z -> is_nan (binary_round_aux prec emax s m e l) = false.
Proof.
  intros Hm. unfold binary_round_aux.
  pose proof (shr_fexp_nonneg m e l Hm) as H1.
  destruct (shr_fexp prec emax m e l) as [mrs' e']; simpl in H1.
  pose proof (shr_fexp_nonneg _ e' loc_Exact
    (round_nearest_even_nonneg _ (loc_of_shr_record mrs') H1)) as H2.
  destruct (shr_fexp prec emax _ e' loc_Exact) as [mrs'' e'']; simpl in H2.
  destruct (shr_m mrs''); [done| |lia].
  by destruct (_ <=? _)%Z.
Qed.

Lemma binary_round_not_nan s m e : is_nan (binary_round prec emax s m e) = false.
Proof.
  unfold binary_round. destruct (shl_align _ _ _) as [mz ez].
  by apply binary_round_aux_not_nan.
Qed.
End Rounding.

(** Widening keeps NaNs and creates none. *)
Lemma b32_to_b64_nan x : is_nan (b32_to_b64 x) = is_nan x.
Proof. destruct x; try reflexivity. apply binary_round_not_nan. Qed.

#[export] Hint Rewrite b32_add_nan_l b32_add_nan_r b32_mul_nan_l b32_mul_nan_r
  b32_div_nan_l b32_div_nan_r b32_sqrt_nan b32_div_zero_zero b32_mul_zero_zero
  b32_add_pzero_zero b32_sqrt_zero : clip_rw.
