(* ===== verification/Tensor.v ===== *)
(** * Tensor operations of lines 44-45

    A two-dimensional tensor (a batch of rows) is a list of lists of elements
    of a [Scalar].  The file defines [norm] (the call
    [image_features.norm(dim=-1, keepdim=True)]), [div] (the operator [/]
    with torch's broadcasting: sizes are compared from the last dimension to
    the first, and a dimension of size 1 is expanded), their composition
    [normalize] (line 44), and [getitem0] and [tolist] (line 45), with the
    theorems on shapes, on the exact arithmetic of the reals and on the
    special values of binary32.  The width of a batch of height 0 is not
    represented, so [div] cannot see a mismatch of widths there; the script
    divides a batch by its own norms, which have its height and width 1. *)

From Stdlib Require Import Reals Lra Lia ZArith.
From Stdlib Require Import Floats.SpecFloat.
From Stdlib Require Import String.
From stdpp Require Import base tactics list.
From S2P Require Import Prelude PyStr Scalar.

(** ** Definitions *)

Section TensorOps.
Context {F : Type} `{Scalar F}.

Definition tensor : Type := list (list F).

(** All rows have width [d]. *)
Definition rect (d : nat) (t : tensor) : Prop := Forall (fun r => length r = d) t.

(** Sum of a row, accumulated from the left starting at zero. *)
Definition sum_row (v : list F) : F := foldl fadd fzero v.

Definition square (x : F) : F := fmul x x.

Definition sumsq (v : list F) : F := sum_row (square <$> v).

(** The 2-norm of one row: the square root of the sum of squares. *)
Definition norm_row (v : list F) : F := fsqrt (sumsq v).

(** [t.norm(dim=-1, keepdim=True)]: one norm per row, kept as a row of
    width 1. *)
Definition norm (t : tensor) : tensor := (fun r => [norm_row r]) <$> t.

Definition div_row (r : list F) (c : F) : list F := (fun x => fdiv x c) <$> r.

(** Raised by torch when the operands of [/] cannot be broadcast: sizes [a]
    and [b] differ at dimension [dim] and neither is 1. *)
Definition shape_error (a b dim : nat) : exn :=
  Exn OtherException
    (py "The size of tensor a (" ++ nat_str a ++
     py ") must match the size of tensor b (" ++ nat_str b ++
     py ") at non-singleton dimension " ++ nat_str dim).

(** Two sizes can be broadcast when they are equal or one of them is 1; the
    size of the result is the one that is not 1. *)
Definition broadcastable (a b : nat) : bool := (a =? b) || (a =? 1) || (b =? 1).
Definition bsize (a b : nat) : nat := if a =? 1 then b else a.

(** A dimension of size 1 is repeated to size [k]; another size is kept. *)
Definition expand {A : Type} (k : nat) (l : list A) : list A :=
  match l with
  | [x] => replicate k x
  | _ => l
  end.

(** The width of a batch is that of its first row; a batch of height 0 has
    none in this representation. *)
Definition width (t : tensor) : option nat := length <$> head t.

Definition check_dim (dim : nat) (a b : option nat) : pyresult unit :=
  match a, b with
  | Some a, Some b => if broadcastable a b then Ok tt else Err (shape_error a b dim)
  | _, _ => Ok tt
  end.

(** Two rows divided element by element after broadcasting. *)
Definition div_rows (r c : list F) : list F :=
  let k := bsize (length r) (length c) in zip_with fdiv (expand k r) (expand k c).

(** [t / n] with torch's broadcasting: the sizes are compared from the last
    dimension to the first, and each operand is expanded along the
    dimensions in which it has size 1. *)
Definition div (t n : tensor) : pyresult tensor :=
  (_ <- check_dim 1 (width t) (width n) ;;
   _ <- check_dim 0 (Some (length t)) (Some (length n)) ;;
   let h := bsize (length t) (length n) in
   Ok (zip_with div_rows (expand h t) (expand h n)))%res.

(** Line 44: [image_features / image_features.norm(dim=-1, keepdim=True)]. *)
Definition normalize (t : tensor) : pyresult tensor := div t (norm t).

(** One row divided by its own norm. *)
Definition normalize_row (r : list F) : list F := div_row r (norm_row r).

Definition index_error : exn :=
  Exn OtherException (py "index 0 is out of bounds for dimension 0 with size 0").

(** [t[0]] *)
Definition getitem0 (t : tensor) : pyresult (list F) :=
  match t with
  | [] => Err index_error
  | r :: _ => Ok r
  end.

(** [row.tolist()] *)
Definition tolist {P : Type} `{PyNum F P} (r : list F) : list P := item <$> r.

(** Multiplication of a row by a constant; used to state scale invariance. *)
Definition scale (c : F) (v : list F) : list F := fmul c <$> v.

End TensorOps.

Arguments tensor F : clear implicits.

(** ** Shapes: theorems for every element type *)

Section Shapes.
Context {F : Type} `{Scalar F}.

Lemma norm_length (t : tensor F) : length (norm t) = length t.
Proof. unfold norm. by rewrite length_fmap. Qed.

Lemma div_row_length (r : list F) c : length (div_row r c) = length r.
Proof. unfold div_row. by rewrite length_fmap. Qed.

Lemma normalize_row_length (r : list F) : length (normalize_row r) = length r.
Proof. apply div_row_length. Qed.

Lemma broadcastable_refl a : broadcastable a a = true.
Proof. unfold broadcastable. by rewrite Nat.eqb_refl. Qed.

Lemma broadcastable_1_r a : broadcastable a 1 = true.
Proof. unfold broadcastable. by rewrite orb_true_r. Qed.

Lemma bsize_refl a : bsize a a = a.
Proof. unfold bsize. by case_match. Qed.

Lemma bsize_1_r a : bsize a 1 = a.
Proof. unfold bsize. destruct (Nat.eqb_spec a 1); congruence. Qed.

(** Expanding to its own size leaves a list as it is. *)
Lemma expand_length {A} k (l : list A) : length l = k -> expand k l = l.
Proof. intros <-. by destruct l as [|x [|y l]]. Qed.

(** A row divided by a row of width 1 is divided by its entry. *)
Lemma div_rows_1 (r : list F) c : div_rows r [c] = div_row r c.
Proof.
  unfold div_rows, div_row. cbn [length]. rewrite bsize_1_r, expand_length by done.
  cbn [expand]. by rewrite zip_with_replicate_r_eq.
Qed.

Lemma zip_with_diag_fmap {A B C} (f : A -> B -> C) (g : A -> B) (l : list A) :
  zip_with f l (g <$> l) = (fun x => f x (g x)) <$> l.
Proof. induction l as [|x l IH]; [done|]. cbn. by rewrite IH. Qed.

Lemma div_norm (t : tensor F) : div t (norm t) = Ok (normalize_row <$> t).
Proof.
  unfold div. rewrite norm_length.
  assert (check_dim 1 (width t) (width (norm t)) = Ok tt) as ->.
  { destruct t as [|r t]; [done|]. cbn. by rewrite broadcastable_1_r. }
  cbn [result_bind check_dim]. rewrite broadcastable_refl, bsize_refl.
  cbn [result_bind].
  rewrite !expand_length by (by rewrite ?norm_length).
  f_equal. unfold norm. rewrite zip_with_diag_fmap.
  apply list_fmap_ext. intros _ r _. apply div_rows_1.
Qed.

(** On rectangular batches of positive height the division raises exactly
    when the widths or the heights cannot be broadcast, the width first. *)
Lemma div_rect w v (t n : tensor F) :
  t <> [] -> n <> [] -> rect w t -> rect v n ->
  div t n =
    if broadcastable w v then
      if broadcastable (length t) (length n) then
        Ok (zip_with div_rows (expand (bsize (length t) (length n)) t)
                              (expand (bsize (length t) (length n)) n))
      else Err (shape_error (length t) (length n) 0)
    else Err (shape_error w v 1).
Proof.
  intros Ht Hn Hw Hv. destruct t as [|r t]; [done|]. destruct n as [|c n]; [done|].
  apply Forall_cons_1 in Hw as [<- _]. apply Forall_cons_1 in Hv as [<- _].
  unfold div. cbn [width head fmap option_fmap option_map check_dim].
  destruct (broadcastable (length r) (length c)); [|done]. cbn [result_bind].
  by destruct (broadcastable _ _).
Qed.

Lemma normalize_rows (t : tensor F) : normalize t = Ok (normalize_row <$> t).
Proof. apply div_norm. Qed.

(** C20: line 44 never raises, whatever the shape and the values of the
    batch are, and its result is the batch in which every element is divided
    by the norm of its own row. *)
Theorem normalize_ok (t : list (list F)) :
  normalize t =
  Ok ((fun r : list F => (fun x => fdiv x (fsqrt (sum_row (square <$> r)))) <$> r) <$> t).
Proof. apply normalize_rows. Qed.

Lemma normalize_rows_rect d (t : tensor F) : rect d t -> rect d (normalize_row <$> t).
Proof.
  unfold rect. rewrite Forall_fmap. intros Ht.
  eapply Forall_impl; [exact Ht|]. intros r. simpl.
  by rewrite normalize_row_length.
Qed.

Lemma getitem0_fmap {G} (f : list F -> list G) (t : tensor F) :
  getitem0 (f <$> t) = result_map f (getitem0 t).
Proof. by destruct t. Qed.

Lemma tolist_length {P} `{PyNum F P} (r : list F) : length (tolist r) = length r.
Proof. unfold tolist. by rewrite length_fmap. Qed.

End Shapes.

(** ** The real model: exact arithmetic *)

Section RealModel.
Local Open Scope R_scope.
Implicit Types (v : list R) (x c : R).

Lemma R_foldl_add a v : foldl Rplus a v = a + sum_row v.
Proof.
  unfold sum_row. simpl. revert a. induction v as [|x v IH]; intros a; simpl; [lra|].
  rewrite (IH (a + x)), (IH (0 + x)). lra.
Qed.

Lemma R_sum_cons x v : sum_row (x :: v) = x + sum_row v.
Proof. unfold sum_row at 1. simpl. rewrite R_foldl_add. lra. Qed.

Lemma R_sum_nil : sum_row (@nil R) = 0.
Proof. reflexivity. Qed.

Lemma sumsq_nil : sumsq (@nil R) = 0.
Proof. reflexivity. Qed.

Lemma sumsq_cons x v : sumsq (x :: v) = x * x + sumsq v.
Proof. unfold sumsq. rewrite fmap_cons, R_sum_cons. reflexivity. Qed.

Lemma sumsq_nonneg v : 0 <= sumsq v.
Proof.
  induction v as [|x v IH]; [rewrite sumsq_nil; lra|].
  rewrite sumsq_cons. nra.
Qed.

Lemma sumsq_pos v : Exists (fun x => x <> 0) v -> 0 < sumsq v.
Proof.
  induction 1 as [x v Hx|x v _ IH]; rewrite sumsq_cons.
  - pose proof (sumsq_nonneg v). nra.
  - nra.
Qed.

Lemma sumsq_div_row v c : c <> 0 -> sumsq (div_row v c) = sumsq v / (c * c).
Proof.
  intros Hc. induction v as [|x v IH].
  - change (div_row [] c) with (@nil R). rewrite sumsq_nil. field. done.
  - change (div_row (x :: v) c) with (x / c :: div_row v c).
    rewrite !sumsq_cons, IH. field. done.
Qed.

Lemma norm_row_sqr v : norm_row v * norm_row v = sumsq v.
Proof. apply sqrt_sqrt, sumsq_nonneg. Qed.

Lemma norm_row_pos v : Exists (fun x => x <> 0) v -> 0 < norm_row v.
Proof. intros Hv. apply sqrt_lt_R0. by apply sumsq_pos. Qed.

Lemma norm_normalize_row v :
  Exists (fun x => x <> 0) v -> norm_row (normalize_row v) = 1.
Proof.
  intros Hv. pose proof (norm_row_pos v Hv) as Hn.
  unfold norm_row at 1.
  unfold normalize_row. rewrite sumsq_div_row by lra.
  rewrite norm_row_sqr.
  replace (sumsq v / sumsq v) with 1; [apply sqrt_1|].
  pose proof (sumsq_pos v Hv). field. lra.
Qed.

Lemma div_row_1 v : div_row v 1 = v.
Proof.
  unfold div_row. induction v as [|x v IH]; simpl; [done|].
  f_equal; [lra|exact IH].
Qed.

(** C5: over the reals, a row with a non-zero entry divided by its norm
    has Euclidean norm exactly 1. *)
Theorem normalize_row_unit v :
  Exists (fun x => x <> 0) v ->
  sqrt (sum_row (square <$> normalize_row v)) = 1.
Proof. apply norm_normalize_row. Qed.

(** C34: normalising twice is normalising once. *)
Theorem normalize_row_idem v :
  Exists (fun x => x <> 0) v -> normalize_row (normalize_row v) = normalize_row v.
Proof.
  intros Hv. unfold normalize_row at 1.
  rewrite norm_normalize_row by done. apply div_row_1.
Qed.


Lemma sumsq_scale c v : sumsq (scale c v) = c * c * sumsq v.
Proof.
  induction v as [|x v IH]; [change (scale c []) with (@nil R); rewrite sumsq_nil; lra|].
  change (scale c (x :: v)) with (c * x :: scale c v).
  rewrite !sumsq_cons, IH. lra.
Qed.

Lemma norm_row_scale c v : 0 <= c -> norm_row (scale c v) = c * norm_row v.
Proof.
  intros Hc. unfold norm_row.
  rewrite sumsq_scale, sqrt_mult_alt by (apply Rmult_le_pos; lra).
  by rewrite sqrt_square.
Qed.

(** C35: the normalised row does not depend on the length of the feature
    vector: multiplying the row by a positive constant leaves it unchanged. *)
Theorem normalize_row_scale c v :
  0 < c -> Exists (fun x => x <> 0) v ->
  normalize_row (scale c v) = normalize_row v.
Proof.
  intros Hc Hv. pose proof (norm_row_pos v Hv) as Hn.
  unfold normalize_row. rewrite norm_row_scale by lra.
  unfold div_row, scale. rewrite <- list_fmap_compose.
  apply list_fmap_ext. intros _ x _. unfold norm_row in *. simpl in *. field. lra.
Qed.

Lemma elem_sq_le_sumsq v x : x ∈ v -> x * x <= sumsq v.
Proof.
  induction 1 as [x w|x y w _ IH]; rewrite sumsq_cons.
  - pose proof (sumsq_nonneg w). lra.
  - nra.
Qed.

(** C36: every entry of a normalised row lies between -1 and 1. *)
Theorem normalize_row_bounded v x :
  Exists (fun x => x <> 0) v -> x ∈ normalize_row v -> -1 <= x <= 1.
Proof.
  intros Hv Hx%elem_sq_le_sumsq.
  rewrite <- norm_row_sqr, norm_normalize_row in Hx by done. nra.
Qed.
End RealModel.

(** ** The binary32 model: special values *)

Section Binary32Model.
Implicit Types (v : list binary32) (x : binary32).

Lemma b32_foldl_nan v : foldl b32_add S754_nan v = S754_nan.
Proof. induction v as [|x v IH]; simpl; [done|]. exact IH. Qed.

Lemma b32_foldl_add_nan a v : S754_nan ∈ v -> foldl b32_add a v = S754_nan.
Proof.
  revert a. induction v as [|x v IH]; intros a Hin; [by apply elem_of_nil in Hin|].
  cbn [foldl]. apply elem_of_cons in Hin as [<-|Hin]; [|by apply IH].
  rewrite b32_add_nan_r. apply b32_foldl_nan.
Qed.

Lemma b32_sumsq_nan v : S754_nan ∈ v -> sumsq v = S754_nan.
Proof.
  intros Hin. apply b32_foldl_add_nan.
  change S754_nan with (square (F:=binary32) S754_nan). by apply list_elem_of_fmap_2.
Qed.

Lemma b32_div_row_nan v : div_row v S754_nan = replicate (length v) S754_nan.
Proof.
  induction v as [|x v IH]; [done|].
  cbn [length replicate]. rewrite <- IH. unfold div_row. cbn [fmap list_fmap].
  f_equal. apply b32_div_nan_r.
Qed.

(** C23: in binary32, one NaN among the features turns the whole normalised
    row into NaNs. *)
Theorem b32_normalize_row_nan v :
  S754_nan ∈ v -> normalize_row v = replicate (length v) S754_nan.
Proof.
  intros Hin. unfold normalize_row, norm_row. rewrite b32_sumsq_nan by done.
  apply b32_div_row_nan.
Qed.

Lemma b32_foldl_zero v :
  Forall (fun x => is_zero x = true) v -> foldl b32_add (S754_zero false) (square <$> v) = S754_zero false.
Proof.
  induction 1 as [|x v Hx _ IH]; [done|].
  destruct x as [s| | |]; try done. cbn [fmap list_fmap foldl].
  change (square (S754_zero s)) with (b32_mul (S754_zero s) (S754_zero s)).
  rewrite b32_mul_zero_zero, xorb_nilpotent, b32_add_pzero_zero. exact IH.
Qed.

Lemma b32_div_row_zero v :
  Forall (fun x => is_zero x = true) v ->
  div_row v (S754_zero false) = replicate (length v) S754_nan.
Proof.
  induction 1 as [|x v Hx _ IH]; simpl; [done|].
  destruct x; try done. f_equal. exact IH.
Qed.

Lemma normalize_row_zeros v :
  Forall (fun x => is_zero x = true) v ->
  normalize_row v = replicate (length v) S754_nan.
Proof.
  intros Hz. unfold normalize_row, norm_row, sumsq, sum_row.
  change fzero with (S754_zero false).
  rewrite b32_foldl_zero by done. by apply b32_div_row_zero.
Qed.

(** C22: in binary32, a row of zeros (of either sign) is normalised to a
    row of NaNs: the norm is 0.0 and 0.0 / 0.0 is NaN. *)
Theorem b32_normalize_row_zero v :
  Forall (fun x => is_zero x = true) v ->
  normalize_row v = replicate (length v) S754_nan.
Proof. apply normalize_row_zeros. Qed.

(** C40: [tolist()] on a binary32 row keeps NaNs and creates none: entry
    [i] of the list is a NaN exactly when entry [i] of the row is. *)
Theorem tolist_nan (r : list binary32) :
  is_nan <$> (tolist r : list binary64) = is_nan <$> r.
Proof.
  unfold tolist. rewrite <- list_fmap_compose. apply list_fmap_ext.
  intros _ x _. apply b32_to_b64_nan.
Qed.

(** [/] broadcasts: a column of divisors, equal shapes, a single divisor
    row; and it raises on widths 3 and 2. *)
Example div_column :
  div [[b32_of_Z 6; b32_of_Z 8]; [b32_of_Z 9; b32_of_Z 3]] [[b32_of_Z 2]; [b32_of_Z 3]]
  = Ok [[b32_of_Z 3; b32_of_Z 4]; [b32_of_Z 3; b32_of_Z 1]].
Proof. reflexivity. Qed.

Example div_elementwise :
  div [[b32_of_Z 6; b32_of_Z 8]] [[b32_of_Z 2; b32_of_Z 4]]
  = Ok [[b32_of_Z 3; b32_of_Z 2]].
Proof. reflexivity. Qed.

Example div_row_broadcast :
  div [[b32_of_Z 6]; [b32_of_Z 8]] [[b32_of_Z 2; b32_of_Z 4]]
  = Ok [[b32_of_Z 3; S754_finite false 12582912 (-23)]; [b32_of_Z 4; b32_of_Z 2]].
Proof. reflexivity. Qed.

Example div_width_mismatch :
  div [[b32_of_Z 1; b32_of_Z 2; b32_of_Z 3]] [[b32_of_Z 1; b32_of_Z 2]]
  = Err (Exn OtherException
      (py "The size of tensor a (3) must match the size of tensor b (2) at non-singleton dimension 1")).
Proof. reflexivity. Qed.

Example b32_normalize_3_4 :
  normalize_row [b32_of_Z 3; b32_of_Z 4]
  = [S754_finite false 10066330 (-24); S754_finite false 13421773 (-24)].
Proof. vm_compute. reflexivity. Qed.
End Binary32Model.

(** ** Witnesses *)

Lemma normalize_row_unit_witness :
  sqrt (sum_row (square <$> normalize_row [3; 4]%R)) = 1%R.
Proof. apply normalize_row_unit. left. lra. Defined.

Lemma normalize_row_idem_witness :
  normalize_row (normalize_row [3; 4]%R) = normalize_row [3; 4]%R.
Proof. apply normalize_row_idem. left. lra. Defined.

Lemma normalize_row_scale_witness :
  normalize_row (scale 2%R [3; 4]%R) = normalize_row [3; 4]%R.
Proof. apply normalize_row_scale; [lra|left; lra]. Defined.

Lemma normalize_row_bounded_witness :
  (-1 <= 3 / norm_row [3; 4]%R <= 1)%R.
Proof. apply (normalize_row_bounded [3; 4]%R); [left; lra|]. by left. Defined.

Lemma b32_normalize_row_nan_witness :
  normalize_row [b32_of_Z 1; S754_nan; b32_of_Z 2] = replicate 3 S754_nan.
Proof. apply (b32_normalize_row_nan [_; _; _]). right. left. Defined.

Lemma b32_normalize_row_zero_witness :
  normalize_row [S754_zero false; S754_zero true] = replicate 2 S754_nan.
Proof. apply (b32_normalize_row_zero [_; _]). by repeat constructor. Defined.


#[export] Hint Rewrite @norm_length @div_row_length @normalize_row_length
  @tolist_length : clip_rw.
