(* ===== verification/PyFloat.v ===== *)
(** * Python floats and [float.__repr__]

    [json.dumps] writes a finite float with [float.__repr__]: the shortest
    decimal string that a round-to-nearest-even reader maps back to the same
    binary64 value, formatted by CPython's format code ['r'] (exponent
    notation when the decimal point position is at most -4 or above 16, a
    [.0] appended to integral values otherwise).  [FloatRepr] is the
    interface the JSON encoder needs from a float type; [b64_float_repr] is
    its instance for binary64, executable by [vm_compute].

    The digit generation works on exact integers: a value [m * 2^e] and a
    decimal [d * 10^q] are compared after cross-multiplication
    ([cmp_scaled]).  The fuel constants are: 16 further digit counts after
    the first in [shortest] (17 significant digits always identify a
    binary64 value), 17 trailing zeros in [strip_zeros], 8 steps from the
    logarithmic estimate in [find_decpt], and, should the estimate fail,
    [log2 m + 2 |e| + 2] steps from [- |e|], which reach every possible
    position. *)

From Stdlib Require Import ZArith NArith Lia.
From Stdlib Require Import Floats.SpecFloat.
From Stdlib Require Import String.
From stdpp Require Import base tactics list.
From S2P Require Import Prelude PyStr Scalar.

Local Open Scope Z_scope.

(** ** The interface *)

(** What [json.encoder.floatstr] asks of a float [o]: the tests [o != o],
    [o == inf], [o == -inf], and [float.__repr__(o)]. *)
Class FloatRepr (P : Type) : Type := {
  float_is_nan : P -> bool;
  float_is_posinf : P -> bool;
  float_is_neginf : P -> bool;
  float_repr : P -> pystr;
}.

(** ** Digits *)

Definition digit_char (d : N) : codepoint := (48 + d)%N.

Fixpoint uint_digits (u : Decimal.uint) : pystr :=
  match u with
  | Decimal.Nil => []
  | Decimal.D0 u => digit_char 0 :: uint_digits u
  | Decimal.D1 u => digit_char 1 :: uint_digits u
  | Decimal.D2 u => digit_char 2 :: uint_digits u
  | Decimal.D3 u => digit_char 3 :: uint_digits u
  | Decimal.D4 u => digit_char 4 :: uint_digits u
  | Decimal.D5 u => digit_char 5 :: uint_digits u
  | Decimal.D6 u => digit_char 6 :: uint_digits u
  | Decimal.D7 u => digit_char 7 :: uint_digits u
  | Decimal.D8 u => digit_char 8 :: uint_digits u
  | Decimal.D9 u => digit_char 9 :: uint_digits u
  end.

(** Decimal digits of a non-negative integer, most significant first. *)
Definition Z_digits (z : Z) : pystr := uint_digits (N.to_uint (Z.to_N z)).

(** Comparison of [d * 10^q] with [k * 2^e]. *)
Definition cmp_scaled (d q k e : Z) : comparison :=
  (d * 10 ^ Z.max q 0 * 2 ^ Z.max (- e) 0) ?= (k * 2 ^ Z.max e 0 * 10 ^ Z.max (- q) 0).

(** The least [p >= p0] with [m * 2^e < 10^p]. *)
Fixpoint find_decpt (fuel : nat) (m e p : Z) : Z :=
  match fuel with
  | O => p
  | S fuel' =>
      match cmp_scaled 1 p m e with
      | Gt => p
      | _ => find_decpt fuel' m e (p + 1)
      end
  end.

(** [10^(p-1) <= m * 2^e < 10^p] *)
Definition decpt_ok (m e p : Z) : bool :=
  match cmp_scaled 1 (p - 1) m e, cmp_scaled 1 p m e with
  | (Lt | Eq), Gt => true
  | _, _ => false
  end.

(** The position of the decimal point: the [p] with
    [10^(p-1) <= m * 2^e < 10^p].  The search starts just below an estimate
    from the binary logarithm.  Where the estimate is too far off (it never
    is in the binary64 range) the search starts again from [- |e|], below
    which the position cannot lie, with fuel for every position up to the
    number of binary digits of the value. *)
Definition decpt_of (m e : Z) : Z :=
  let est := (Z.log2 m + e) * 30103 / 100000 in
  let p := find_decpt 8 m e (est - 1) in
  if decpt_ok m e p then p
  else find_decpt (Z.to_nat (Z.log2 m + 2 * Z.abs e + 2)) m e (- Z.abs e).

(** [floor (m * 2^e / 10^q)] *)
Definition floor_scaled (m e q : Z) : Z :=
  (m * 2 ^ Z.max e 0 * 10 ^ Z.max (- q) 0) / (2 ^ Z.max (- e) 0 * 10 ^ Z.max q 0).

(** Is [d * 10^q] rounded to [m * 2^e] by a round-to-nearest-even reader? *)
Definition in_interval (m e : Z) (boundary : bool) (d q : Z) : bool :=
  let lo := if boundary then 4 * m - 1 else 4 * m - 2 in
  let hi := 4 * m + 2 in
  match cmp_scaled d q lo (e - 2) with
  | Gt => true | Eq => Z.even m | Lt => false
  end &&
  match cmp_scaled d q hi (e - 2) with
  | Lt => true | Eq => Z.even m | Gt => false
  end.

(** Of the two [n]-digit neighbours of the value, the one nearer to it. *)
Definition nearest (m e lo q : Z) : Z :=
  match cmp_scaled (2 * lo + 1) q (2 * m) e with
  | Gt => lo
  | Lt => lo + 1
  | Eq => if Z.even lo then lo else lo + 1
  end.

Definition candidate (m e : Z) (boundary : bool) (p n : Z) : option Z :=
  let q := p - n in
  let lo := floor_scaled m e q in
  match in_interval m e boundary lo q, in_interval m e boundary (lo + 1) q with
  | true, true => Some (nearest m e lo q)
  | true, false => Some lo
  | false, true => Some (lo + 1)
  | false, false => None
  end.

Fixpoint shortest (fuel : nat) (m e : Z) (boundary : bool) (p n : Z) : Z * Z :=
  match fuel with
  | O => (nearest m e (floor_scaled m e (p - n)) (p - n), p - n)
  | S fuel' =>
      match candidate m e boundary p n with
      | Some d => (d, p - n)
      | None => shortest fuel' m e boundary p (n + 1)
      end
  end.

Fixpoint strip_zeros (fuel : nat) (d q : Z) : Z * Z :=
  match fuel with
  | O => (d, q)
  | S fuel' => if (d mod 10 =? 0) && (0 <? d) then strip_zeros fuel' (d / 10) (q + 1) else (d, q)
  end.

(** Is the lower neighbour of [m * 2^e] twice as near as the upper one?  It
    is for the least mantissa of a binade, except in the lowest one. *)
Definition boundary_of (m e : Z) : bool := (m =? 2 ^ 52) && (-1074 <? e).

(** The shortest decimal [d * 10^q] that is read back as [m * 2^e], without
    trailing zeros in [d]. *)
Definition shortest_decimal (m e : Z) : Z * Z :=
  let '(d, q) := shortest 16 m e (boundary_of m e) (decpt_of m e) 1 in
  strip_zeros 17 d q.

(** Shortest digits and decimal point position of [m * 2^e]. *)
Definition dtoa (m : positive) (e : Z) : pystr * Z :=
  let '(d, q) := shortest_decimal (Zpos m) e in
  let ds := Z_digits d in
  (ds, Z.of_nat (length ds) + q).

Definition zeros (n : Z) : pystr := replicate (Z.to_nat n) (digit_char 0).

Definition exp_digits (x : Z) : pystr :=
  let ds := Z_digits (Z.abs x) in
  (if x <? 0 then py "-" else py "+") ++ (if Z.abs x <? 10 then digit_char 0 :: ds else ds).

Definition format_repr (ds : pystr) (decpt : Z) : pystr :=
  let n := Z.of_nat (length ds) in
  if (decpt <=? -4) || (16 <? decpt) then
    take 1 ds ++ (if 1 <? n then py "." ++ drop 1 ds else []) ++ py "e" ++ exp_digits (decpt - 1)
  else if decpt <=? 0 then
    py "0." ++ zeros (- decpt) ++ ds
  else if n <=? decpt then
    ds ++ zeros (decpt - n) ++ py ".0"
  else
    take (Z.to_nat decpt) ds ++ py "." ++ drop (Z.to_nat decpt) ds.

Definition sign_str (s : bool) : pystr := if s then py "-" else [].

Definition b64_repr (x : binary64) : pystr :=
  match x with
  | S754_nan => py "nan"
  | S754_infinity s => sign_str s ++ py "inf"
  | S754_zero s => sign_str s ++ py "0.0"
  | S754_finite s m e => let '(ds, decpt) := dtoa m e in sign_str s ++ format_repr ds decpt
  end.


#[export] Instance b64_float_repr : FloatRepr binary64 := {|
  float_is_nan := is_nan;
  float_is_posinf := fun x => match x with S754_infinity false => true | _ => false end;
  float_is_neginf := fun x => match x with S754_infinity true => true | _ => false end;
  float_repr := b64_repr;
|}.

(** The text of a float, as a Rocq string (for examples). *)
Definition show (x : binary64) : String.string :=
  String.string_of_list_ascii (Ascii.ascii_of_N <$> b64_repr x).

(** Values for examples. *)
Definition b64_of_Z (z : Z) : binary64 := binary_normalize prec64 emax64 z 0 false.
Definition b64_div (x y : binary64) : binary64 := SFdiv prec64 emax64 x y.

(** The law the JSON encoder relies on: the text is printable ASCII. *)
Class FloatReprLaws (P : Type) `{FloatRepr P} : Prop := {
  float_repr_printable : forall x : P, printable_str (float_repr x);
}.

(** ** Examples, checked against CPython's output *)

Example repr_zero : show (S754_zero false) = "0.0"%string.
Proof. reflexivity. Qed.

Example repr_neg_zero : show (S754_zero true) = "-0.0"%string.
Proof. reflexivity. Qed.

Example repr_tenth : show (b64_div (b64_of_Z 1) (b64_of_Z 10)) = "0.1"%string.
Proof. vm_compute. reflexivity. Qed.

Example repr_third : show (b64_div (b64_of_Z 1) (b64_of_Z 3)) = "0.3333333333333333"%string.
Proof. vm_compute. reflexivity. Qed.

Example repr_1e16 : show (b64_of_Z 10000000000000000) = "1e+16"%string.
Proof. vm_compute. reflexivity. Qed.

Example repr_1e15 : show (b64_of_Z 1000000000000000) = "1000000000000000.0"%string.
Proof. vm_compute. reflexivity. Qed.

Example repr_1e_05 : show (b64_div (b64_of_Z 1) (b64_of_Z 100000)) = "1e-05"%string.
Proof. vm_compute. reflexivity. Qed.

Example repr_1e_04 : show (b64_div (b64_of_Z 1) (b64_of_Z 10000)) = "0.0001"%string.
Proof. vm_compute. reflexivity. Qed.

Example repr_min_subnormal : show (S754_finite false 1 (-1074)) = "5e-324"%string.
Proof. vm_compute. reflexivity. Qed.

Example repr_max : show (S754_finite true 9007199254740991 971) = "-1.7976931348623157e+308"%string.
Proof. vm_compute. reflexivity. Qed.

Example repr_min_normal :
  show (S754_finite false 4503599627370496 (-1074)) = "2.2250738585072014e-308"%string.
Proof. vm_compute. reflexivity. Qed.

(** The binary32 value nearest to 0.6, widened by [tolist()]. *)
Example repr_b32_06 :
  show (b32_to_b64 (S754_finite false 10066330 (-24))) = "0.6000000238418579"%string.
Proof. vm_compute. reflexivity. Qed.

(** ** The text of a float is printable ASCII *)

Lemma digit_char_printable d : (d <= 9)%N -> printable (digit_char d) = true.
Proof. intros Hd. apply printable_spec. unfold digit_char. lia. Qed.

Lemma uint_digits_printable u : printable_str (uint_digits u).
Proof.
  unfold printable_str.
  induction u; simpl; constructor; auto; by apply digit_char_printable.
Qed.

Lemma Z_digits_printable z : printable_str (Z_digits z).
Proof. apply uint_digits_printable. Qed.

Lemma zeros_printable n : printable_str (zeros n).
Proof. apply Forall_replicate. by apply digit_char_printable. Qed.

(** A closed [printable_str] goal, by evaluation. *)
Ltac printable_literal := apply (bool_decide_unpack _); vm_compute; exact I.

Lemma sign_str_printable s : printable_str (sign_str s).
Proof. destruct s; printable_literal. Qed.

Lemma exp_digits_printable x : printable_str (exp_digits x).
Proof.
  unfold exp_digits. apply printable_str_app. split.
  - destruct (x <? 0); printable_literal.
  - destruct (Z.abs x <? 10); [constructor; [by apply digit_char_printable|]|];
      apply Z_digits_printable.
Qed.

Lemma printable_take n s : printable_str s -> printable_str (take n s).
Proof. apply Forall_take. Qed.

Lemma printable_drop n s : printable_str s -> printable_str (drop n s).
Proof. apply Forall_drop. Qed.

#[export] Hint Resolve Z_digits_printable zeros_printable sign_str_printable
  exp_digits_printable printable_take printable_drop : clip.

(** Close a [printable_str] goal built from appends, literals and the
    pieces registered in [clip]. *)
Ltac solve_printable :=
  lazymatch goal with
  | |- printable_str (_ ++ _) => apply printable_str_app; split; solve_printable
  | |- printable_str (py _) => printable_literal
  | |- printable_str [] => constructor
  | |- printable_str (if _ then _ else _) => case_match; solve_printable
  | |- _ => by auto with clip
  end.

Lemma format_repr_printable ds decpt :
  printable_str ds -> printable_str (format_repr ds decpt).
Proof.
  intros Hds. unfold format_repr. solve_printable.
Qed.

Lemma dtoa_printable m e : printable_str (dtoa m e).1.
Proof.
  unfold dtoa. destruct (shortest_decimal _ _) as [d q]. apply Z_digits_printable.
Qed.

Lemma b64_repr_chars x : printable_str (b64_repr x).
Proof.
  destruct x as [s|s| |s m e]; unfold b64_repr; [solve_printable..|].
  pose proof (dtoa_printable m e) as Hd.
  destruct (dtoa m e) as [ds decpt].
  apply printable_str_app; split; [apply sign_str_printable|].
  by apply format_repr_printable.
Qed.

#[export] Instance b64_float_repr_laws : FloatReprLaws binary64.
Proof. constructor. apply b64_repr_chars. Qed.

(** [float.__repr__] writes printable ASCII characters only, for every
    binary64 value including the infinities and NaN. *)
Theorem b64_repr_printable (x : binary64) :
  Forall (fun c => (0x20 <= c <= 0x7e)%N) (b64_repr x).
Proof.
  eapply Forall_impl; [apply b64_repr_chars|]. intros c. apply printable_spec.
Qed.
