(* ===== verification/PyFloatSpec.v ===== *)
(** * What [float.__repr__] promises

    The digit generation of [PyFloat] works on integers; this file gives it
    its meaning in the real numbers and proves it right.  [dval d q] is the
    decimal [d * 10^q] and [bval m e] the binary [m * 2^e]; [rounds_to] is
    the interval of reals that a round-to-nearest-even reader maps to a
    binary64 value.  The theorems: [cmp_scaled] compares values, [decpt_of]
    finds the decimal point for every positive mantissa and every exponent,
    [shortest_decimal] is positive, and for a mantissa of at most 53 bits it
    is read back as the value it was computed from, because the nearest
    decimal of seventeen digits always lies inside the interval
    ([seventeen_digits]); no decimal with fewer digits lies in the interval
    ([shortest_decimal_minimal]) and among those with as few digits it is
    one nearest to the value ([shortest_decimal_nearest]); and the digit
    string starts with a digit other than zero. *)

From Stdlib Require Import Reals ZArith NArith Lia Lra DecimalFacts DecimalPos DecimalN.
From Stdlib Require Import Floats.SpecFloat.
From stdpp Require Import base tactics list.
From S2P Require Import Prelude PyStr Scalar PyFloat.

Local Open Scope R_scope.

(** ** Values *)

(** [b ^ z] for an integer base and any integer exponent. *)
Definition pw (b z : Z) : R := powerRZ (IZR b) z.

(** The value of the decimal [d * 10^q] and of the binary [k * 2^e]. *)
Definition dval (d q : Z) : R := IZR d * pw 10 q.
Definition bval (k e : Z) : R := IZR k * pw 2 e.

(** The bounds of the interval of reals that round to [m * 2^e]: half way to
    the neighbours, the lower neighbour being twice as near when [m] is the
    least mantissa of its binade. *)
Definition lower (m e : Z) (boundary : bool) : R :=
  bval (if boundary then 4 * m - 1 else 4 * m - 2) (e - 2).
Definition upper (m e : Z) : R := bval (4 * m + 2) (e - 2).

(** A round-to-nearest-even reader maps [x] to [m * 2^e]. *)
Definition rounds_to (m e : Z) (boundary : bool) (x : R) : Prop :=
  if Z.even m then lower m e boundary <= x <= upper m e
  else lower m e boundary < x < upper m e.

(** A non-empty string of digits that does not start with a zero. *)
Definition digit_string (ds : pystr) : Prop :=
  Forall (fun c => is_digit c = true) ds /\
  exists c t, ds = c :: t /\ c <> 48%N.

(** ** Powers *)

Lemma pw_pos b z : (0 < b)%Z -> 0 < pw b z.
Proof. intros Hb. apply powerRZ_lt, IZR_lt, Hb. Qed.

Lemma pw_add b x y : (0 < b)%Z -> pw b (x + y) = pw b x * pw b y.
Proof.
  intros Hb. apply powerRZ_add. apply Rgt_not_eq, IZR_lt, Hb.
Qed.

Lemma pw_0 b : pw b 0 = 1.
Proof. reflexivity. Qed.

Lemma pw_IZR b z : (0 <= z)%Z -> pw b z = IZR (b ^ z).
Proof.
  intros Hz. unfold pw. rewrite <- (Z2Nat.id z Hz), <- pow_powerRZ, pow_IZR. reflexivity.
Qed.

Lemma pw_sub b x y : (0 < b)%Z -> pw b (x - y) * pw b y = pw b x.
Proof. intros Hb. rewrite <- pw_add by done. f_equal. lia. Qed.

Lemma pw_ge_1 b z : (0 < b)%Z -> (0 <= z)%Z -> 1 <= pw b z.
Proof.
  intros Hb Hz. rewrite pw_IZR by done. apply IZR_le.
  pose proof (Z.pow_pos_nonneg b z Hb Hz). lia.
Qed.

Lemma pw_le b x y : (0 < b)%Z -> (x <= y)%Z -> pw b x <= pw b y.
Proof.
  intros Hb Hxy. rewrite <- (pw_sub b y x) by done.
  pose proof (pw_pos b x Hb). pose proof (pw_ge_1 b (y - x) Hb ltac:(lia)). nra.
Qed.

Lemma pw_lt b x y : (1 < b)%Z -> (x < y)%Z -> pw b x < pw b y.
Proof.
  intros Hb Hxy. rewrite <- (pw_sub b y x) by lia.
  pose proof (pw_pos b x ltac:(lia)).
  assert (1 < pw b (y - x)); [|nra].
  rewrite pw_IZR by lia. apply IZR_lt.
  pose proof (Z.pow_gt_1 b (y - x) Hb). lia.
Qed.

(** The positive and the negative part of an exponent. *)
Lemma pw_split b z : (0 < b)%Z -> pw b z * IZR (b ^ Z.max (- z) 0) = IZR (b ^ Z.max z 0).
Proof.
  intros Hb. rewrite <- !pw_IZR by lia. rewrite <- pw_add by done. f_equal. lia.
Qed.

(** [cmp_scaled] compares the values. *)
Lemma cmp_scaled_spec d q k e :
  CompareSpec (dval d q = bval k e) (dval d q < bval k e) (bval k e < dval d q)
    (cmp_scaled d q k e).
Proof.
  unfold cmp_scaled, dval, bval.
  set (S := IZR (10 ^ Z.max (- q) 0) * IZR (2 ^ Z.max (- e) 0)).
  assert (0 < S) as HS.
  { unfold S. rewrite <- !pw_IZR by lia. apply Rmult_lt_0_compat; by apply pw_pos. }
  assert (IZR (d * 10 ^ Z.max q 0 * 2 ^ Z.max (- e) 0) = IZR d * pw 10 q * S) as H1.
  { unfold S. rewrite !mult_IZR, <- (pw_split 10 q) by done. ring. }
  assert (IZR (k * 2 ^ Z.max e 0 * 10 ^ Z.max (- q) 0) = IZR k * pw 2 e * S) as H2.
  { unfold S. rewrite !mult_IZR, <- (pw_split 2 e) by done. ring. }
  destruct (Z.compare_spec (d * 10 ^ Z.max q 0 * 2 ^ Z.max (- e) 0)
                           (k * 2 ^ Z.max e 0 * 10 ^ Z.max (- q) 0)) as [Hc|Hc|Hc];
    constructor.
  - apply (f_equal IZR) in Hc. rewrite H1, H2 in Hc. nra.
  - apply IZR_lt in Hc. rewrite H1, H2 in Hc. nra.
  - apply IZR_lt in Hc. rewrite H1, H2 in Hc. nra.
Qed.

Lemma dval_1 q : dval 1 q = pw 10 q.
Proof. unfold dval. lra. Qed.

Lemma floor_scaled_spec m e q :
  dval (floor_scaled m e q) q <= bval m e < dval (floor_scaled m e q + 1) q.
Proof.
  unfold floor_scaled, dval, bval.
  set (A := (m * 2 ^ Z.max e 0 * 10 ^ Z.max (- q) 0)%Z).
  set (B := (2 ^ Z.max (- e) 0 * 10 ^ Z.max q 0)%Z).
  set (S := IZR (10 ^ Z.max (- q) 0) * IZR (2 ^ Z.max (- e) 0)).
  assert (0 < S) as HS.
  { unfold S. rewrite <- !pw_IZR by lia. apply Rmult_lt_0_compat; by apply pw_pos. }
  assert (0 < B)%Z as HB by (unfold B; apply Z.mul_pos_pos; apply Z.pow_pos_nonneg; lia).
  assert (IZR A = IZR m * pw 2 e * S) as HA.
  { unfold A, S. rewrite !mult_IZR, <- (pw_split 2 e) by done. ring. }
  assert (forall x, IZR (x * B) = IZR x * pw 10 q * S) as HxB.
  { intros x. unfold B, S. rewrite !mult_IZR, <- (pw_split 10 q) by done. ring. }
  pose proof (Z.mul_div_le A B HB) as Hlo.
  pose proof (Z.mul_succ_div_gt A B HB) as Hhi.
  apply IZR_le in Hlo. apply IZR_lt in Hhi.
  rewrite Z.mul_comm, HxB, HA in Hlo. 
  rewrite Z.mul_comm, HxB, HA in Hhi. unfold Z.succ in Hhi.
  split; nra.
Qed.

Lemma floor_scaled_nonneg m e q : (0 <= m)%Z -> (0 <= floor_scaled m e q)%Z.
Proof.
  intros Hm. unfold floor_scaled. apply Z.div_pos.
  - repeat apply Z.mul_nonneg_nonneg; try done; apply Z.pow_nonneg; lia.
  - apply Z.mul_pos_pos; apply Z.pow_pos_nonneg; lia.
Qed.

Lemma find_decpt_spec fuel m e p0 :
  let p := find_decpt fuel m e p0 in
  (p0 <= p <= p0 + Z.of_nat fuel)%Z /\
  (p = p0 \/ pw 10 (p - 1) <= bval m e) /\
  (bval m e < pw 10 p \/ p = (p0 + Z.of_nat fuel)%Z).
Proof.
  revert p0. induction fuel as [|fuel IH]; intros p0; cbn [find_decpt]; cbv zeta.
  { split; [lia|]. split; [by left|right; lia]. }
  assert (pw 10 p0 <= bval m e ->
    let p := find_decpt fuel m e (p0 + 1) in
    (p0 <= p <= p0 + Z.of_nat (S fuel))%Z /\
    (p = p0 \/ pw 10 (p - 1) <= bval m e) /\
    (bval m e < pw 10 p \/ p = (p0 + Z.of_nat (S fuel))%Z)) as Hrec.
  { intros Hle. destruct (IH (p0 + 1)%Z) as (Hr & Hl & Hu). cbv zeta.
    split; [lia|]. split.
    - right. destruct Hl as [->|Hl]; [|done]. by replace (p0 + 1 - 1)%Z with p0 by lia.
    - destruct Hu; [by left|right; lia]. }
  destruct (cmp_scaled_spec 1 p0 m e) as [Hc|Hc|Hc]; rewrite dval_1 in Hc.
  - apply Hrec. lra.
  - apply Hrec. lra.
  - split; [lia|]. split; [by left|by left].
Qed.

Lemma pw_neg b z : pw b (- z) = / pw b z.
Proof. apply powerRZ_neg'. Qed.

Lemma pw_base_le z : (0 <= z)%Z -> pw 2 z <= pw 10 z.
Proof.
  intros Hz. rewrite !pw_IZR by done. apply IZR_le, Z.pow_le_mono_l. lia.
Qed.

Lemma pw_base_ge z : (z <= 0)%Z -> pw 10 z <= pw 2 z.
Proof.
  intros Hz. assert (exists n, z = (- n)%Z /\ (0 <= n)%Z) as (n & -> & Hn)
    by (exists (- z)%Z; lia).
  rewrite !pw_neg. apply Rinv_le_contravar; [by apply pw_pos|]. by apply pw_base_le.
Qed.

Lemma decpt_ok_spec m e p :
  decpt_ok m e p = true -> pw 10 (p - 1) <= bval m e < pw 10 p.
Proof.
  unfold decpt_ok.
  destruct (cmp_scaled_spec 1 (p - 1) m e) as [H1|H1|H1];
    destruct (cmp_scaled_spec 1 p m e) as [H2|H2|H2];
    try done; rewrite dval_1 in *; lra.
Qed.

Lemma bval_lower m e : (0 < m)%Z -> pw 10 (- Z.abs e - 1) <= bval m e.
Proof.
  intros Hm. unfold bval.
  pose proof (pw_le 10 (- Z.abs e - 1) (- Z.abs e) ltac:(lia) ltac:(lia)).
  pose proof (pw_base_ge (- Z.abs e) ltac:(lia)).
  pose proof (pw_le 2 (- Z.abs e) e ltac:(lia) ltac:(lia)).
  pose proof (pw_pos 2 e ltac:(lia)).
  assert (1 <= IZR m) by (apply IZR_le; lia). nra.
Qed.

Lemma bval_upper m e : (0 < m)%Z -> bval m e < pw 10 (Z.log2 m + Z.abs e + 2).
Proof.
  intros Hm. unfold bval.
  destruct (Z.log2_spec m Hm) as [_ Hlt]. apply IZR_lt in Hlt.
  rewrite <- pw_IZR in Hlt by (pose proof (Z.log2_nonneg m); lia).
  pose proof (Z.log2_nonneg m).
  pose proof (pw_pos 2 e ltac:(lia)).
  pose proof (pw_add 2 (Z.succ (Z.log2 m)) e ltac:(lia)) as Hadd.
  pose proof (pw_le 2 (Z.succ (Z.log2 m) + e) (Z.log2 m + Z.abs e + 2) ltac:(lia) ltac:(lia)).
  pose proof (pw_base_le (Z.log2 m + Z.abs e + 2) ltac:(lia)).
  nra.
Qed.

(** The decimal point position is right: [10^(p-1) <= m * 2^e < 10^p]. *)
Lemma decpt_of_spec m e :
  (0 < m)%Z -> pw 10 (decpt_of m e - 1) <= bval m e < pw 10 (decpt_of m e).
Proof.
  intros Hm. unfold decpt_of.
  destruct (decpt_ok m e _) eqn:Hok; [by apply decpt_ok_spec|].
  pose proof (Z.log2_nonneg m).
  destruct (find_decpt_spec (Z.to_nat (Z.log2 m + 2 * Z.abs e + 2)) m e (- Z.abs e))
    as (Hr & Hl & Hu).
  set (p := find_decpt _ m e (- Z.abs e)) in *.
  rewrite Z2Nat.id in * by lia. split.
  - destruct Hl as [->|Hl]; [by apply bval_lower|done].
  - destruct Hu as [Hu| ->]; [done|].
    replace (- Z.abs e + (Z.log2 m + 2 * Z.abs e + 2))%Z
      with (Z.log2 m + Z.abs e + 2)%Z by lia.
    by apply bval_upper.
Qed.

(** ** The rounding interval *)

Lemma bval_scale k e : bval (4 * k) (e - 2) = bval k e.
Proof.
  unfold bval. rewrite mult_IZR. replace e with (e - 2 + 2)%Z at 2 by lia.
  rewrite pw_add, (pw_IZR 2 2) by lia. change (IZR (2 ^ 2)) with 4. lra.
Qed.

Lemma lower_eq m e b :
  lower m e b = bval m e - (if b then 1 else 2) * pw 2 (e - 2).
Proof.
  unfold lower. rewrite <- (bval_scale m e). unfold bval.
  destruct b; rewrite minus_IZR; lra.
Qed.

Lemma upper_eq m e : upper m e = bval m e + 2 * pw 2 (e - 2).
Proof. unfold upper. rewrite <- (bval_scale m e). unfold bval. rewrite plus_IZR. lra. Qed.

Lemma in_interval_spec m e b d q :
  in_interval m e b d q = true <-> rounds_to m e b (dval d q).
Proof.
  unfold in_interval, rounds_to, lower, upper.
  destruct (cmp_scaled_spec d q (if b then 4 * m - 1 else 4 * m - 2) (e - 2))
    as [H1|H1|H1];
    destruct (cmp_scaled_spec d q (4 * m + 2) (e - 2)) as [H2|H2|H2];
    destruct (Z.even m); cbn; split; try done; try lra.
Qed.

Lemma rounds_to_inside m e b x :
  lower m e b < x < upper m e -> rounds_to m e b x.
Proof. unfold rounds_to. destruct (Z.even m); lra. Qed.

Lemma rounds_to_pos m e b x : (0 < m)%Z -> rounds_to m e b x -> 0 < x.
Proof.
  intros Hm Hx. assert (0 < lower m e b).
  { unfold lower, bval. apply Rmult_lt_0_compat; [|by apply pw_pos].
    apply IZR_lt. destruct b; lia. }
  unfold rounds_to in Hx. destruct (Z.even m); lra.
Qed.

Lemma dval_pos d q : 0 < dval d q -> (0 < d)%Z.
Proof.
  unfold dval. intros Hd. pose proof (pw_pos 10 q ltac:(lia)).
  apply lt_IZR. nra.
Qed.

(** ** The digits *)

Lemma nearest_cases m e lo q : nearest m e lo q = lo \/ nearest m e lo q = (lo + 1)%Z.
Proof. unfold nearest. repeat case_match; auto. Qed.

Lemma dval_succ d q : dval (d + 1) q = dval d q + pw 10 q.
Proof. unfold dval. rewrite plus_IZR. lra. Qed.

(** The nearer of the two neighbours is at most half a unit away. *)
Lemma nearest_dist m e q :
  let d := nearest m e (floor_scaled m e q) q in
  - (pw 10 q / 2) <= dval d q - bval m e <= pw 10 q / 2.
Proof.
  cbv zeta. unfold nearest.
  pose proof (floor_scaled_spec m e q) as [Hlo Hhi]. rewrite dval_succ in Hhi.
  set (lo := floor_scaled m e q) in *.
  pose proof (pw_pos 10 q ltac:(lia)).
  assert (dval (2 * lo + 1) q = 2 * dval lo q + pw 10 q) as Hmid
    by (unfold dval; rewrite plus_IZR, mult_IZR; lra).
  assert (bval (2 * m) e = 2 * bval m e) as Hv
    by (unfold bval; rewrite mult_IZR; lra).
  destruct (cmp_scaled_spec (2 * lo + 1) q (2 * m) e) as [Hc|Hc|Hc];
    rewrite Hmid, Hv in Hc; [destruct (Z.even lo)|..];
    rewrite ?dval_succ; lra.
Qed.

Lemma candidate_spec m e b p n d :
  candidate m e b p n = Some d -> in_interval m e b d (p - n) = true.
Proof.
  unfold candidate.
  destruct (in_interval m e b (floor_scaled m e (p - n)) (p - n)) eqn:H1;
    destruct (in_interval m e b (floor_scaled m e (p - n) + 1) (p - n)) eqn:H2;
    intros [= <-]; try done.
  by destruct (nearest_cases m e (floor_scaled m e (p - n)) (p - n)) as [-> | ->].
Qed.

(** Seventeen digits always suffice: the nearest 17-digit decimal lies
    strictly inside the interval of a value with at most 53 bits. *)
Lemma seventeen_digits m e b p :
  (0 < m < 2 ^ 53)%Z -> (b = true -> m = (2 ^ 52)%Z) ->
  pw 10 (p - 1) <= bval m e ->
  rounds_to m e b (dval (nearest m e (floor_scaled m e (p - 17)) (p - 17)) (p - 17)).
Proof.
  intros [Hm0 Hm] Hb Hp. apply rounds_to_inside. rewrite lower_eq, upper_eq.
  pose proof (nearest_dist m e (p - 17)) as Hd. cbv zeta in Hd.
  set (x := dval _ _) in *. set (X := pw 10 (p - 17)) in *.
  assert (0 < X) by (by apply pw_pos).
  assert (pw 10 (p - 1) = X * 10000000000000000) as HX.
  { unfold X. replace (p - 1)%Z with (p - 17 + 16)%Z by lia.
    rewrite pw_add, (pw_IZR 10 16) by lia. reflexivity. }
  rewrite <- (bval_scale m e) in Hp. unfold bval in *. rewrite mult_IZR in Hp.
  set (P := pw 2 (e - 2)) in *. assert (0 < P) by (by apply pw_pos).
  apply IZR_lt in Hm. change (IZR (2 ^ 53)) with 9007199254740992 in Hm.
  destruct b.
  - rewrite (Hb eq_refl) in *. change (IZR (2 ^ 52)) with 4503599627370496 in *. lra.
  - assert (IZR m * P <= 9007199254740992 * P) by nra. lra.
Qed.

(** The digits found by [shortest] are read back as the value. *)
Lemma shortest_rounds fuel m e b p n :
  (0 < m < 2 ^ 53)%Z -> (b = true -> m = (2 ^ 52)%Z) ->
  pw 10 (p - 1) <= bval m e -> (n + Z.of_nat fuel = 17)%Z ->
  rounds_to m e b (dval (shortest fuel m e b p n).1 (shortest fuel m e b p n).2).
Proof.
  intros Hm Hb Hp. revert n. induction fuel as [|fuel IH]; intros n Hn; cbn [shortest].
  - replace n with 17%Z by lia. by apply seventeen_digits.
  - destruct (candidate m e b p n) as [d|] eqn:Hc; [|apply IH; lia].
    by apply in_interval_spec, candidate_spec.
Qed.

(** They are positive, for every positive mantissa and every exponent. *)
Lemma shortest_pos fuel m e b p n :
  (0 < m)%Z -> pw 10 (p - 1) <= bval m e -> (1 <= n)%Z ->
  (0 < (shortest fuel m e b p n).1)%Z.
Proof.
  intros Hm Hp. revert n. induction fuel as [|fuel IH]; intros n Hn; cbn [shortest].
  - cbn [fst]. pose proof (floor_scaled_spec m e (p - n)) as [_ Hhi].
    set (lo := floor_scaled m e (p - n)) in *.
    pose proof (pw_le 10 (p - n) (p - 1) ltac:(lia) ltac:(lia)).
    pose proof (pw_pos 10 (p - n) ltac:(lia)).
    assert (1 < IZR (lo + 1)) as Hlo by (unfold dval in Hhi; nra).
    apply lt_IZR in Hlo. destruct (nearest_cases m e lo (p - n)) as [-> | ->]; lia.
  - destruct (candidate m e b p n) as [d|] eqn:Hc; [|apply IH; lia].
    apply candidate_spec, in_interval_spec, rounds_to_pos, dval_pos in Hc; done.
Qed.

Lemma shortest_snd fuel m e b p n :
  exists k, (shortest fuel m e b p n).2 = (p - k)%Z /\ (n <= k <= n + Z.of_nat fuel)%Z.
Proof.
  revert n. induction fuel as [|fuel IH]; intros n; cbn [shortest].
  - exists n. split; [done|lia].
  - destruct (candidate m e b p n); [exists n; split; [done|lia]|].
    destruct (IH (n + 1)%Z) as (k & -> & Hk). exists k. split; [done|lia].
Qed.

(** Removing trailing zeros keeps the value and the sign. *)
Lemma strip_zeros_spec fuel d q :
  (0 < d)%Z ->
  (0 < (strip_zeros fuel d q).1)%Z /\
  dval (strip_zeros fuel d q).1 (strip_zeros fuel d q).2 = dval d q.
Proof.
  revert d q. induction fuel as [|fuel IH]; intros d q Hd; cbn [strip_zeros]; [done|].
  destruct (Z.eqb_spec (d mod 10) 0) as [Hmod|]; [|done].
  destruct (Z.ltb_spec 0 d); [|done]. cbn [andb].
  pose proof (Z.div_mod d 10 ltac:(lia)) as Hdiv. rewrite Hmod, Z.add_0_r in Hdiv.
  destruct (IH (d / 10)%Z (q + 1)%Z ltac:(lia)) as [Hpos ->]. split; [done|].
  unfold dval. rewrite pw_add, (pw_IZR 10 1) by lia.
  rewrite Hdiv at 2. rewrite mult_IZR. change (IZR (10 ^ 1)) with 10. lra.
Qed.

Lemma boundary_of_true m e : boundary_of m e = true -> m = (2 ^ 52)%Z.
Proof. unfold boundary_of. intros [Hm _]%andb_true_iff. by apply Z.eqb_eq. Qed.

(** [shortest_decimal] is positive. *)
Lemma shortest_decimal_pos m e : (0 < m)%Z -> (0 < (shortest_decimal m e).1)%Z.
Proof.
  intros Hm. unfold shortest_decimal.
  pose proof (shortest_pos 16 m e (boundary_of m e) (decpt_of m e) 1 Hm
    (proj1 (decpt_of_spec m e Hm)) ltac:(lia)) as Hpos.
  destruct (shortest _ _ _ _ _ _) as [d q]. by apply strip_zeros_spec.
Qed.

(** [shortest_decimal] of a value of at most 53 bits is read back as that
    value by a round-to-nearest-even reader. *)
Lemma shortest_decimal_rounds m e :
  (0 < m < 2 ^ 53)%Z ->
  rounds_to m e (boundary_of m e)
    (dval (shortest_decimal m e).1 (shortest_decimal m e).2).
Proof.
  intros Hm. unfold shortest_decimal.
  pose proof (shortest_rounds 16 m e (boundary_of m e) (decpt_of m e) 1 Hm
    (boundary_of_true m e) (proj1 (decpt_of_spec m e ltac:(lia))) ltac:(lia)) as Hr.
  pose proof (shortest_pos 16 m e (boundary_of m e) (decpt_of m e) 1 ltac:(lia)
    (proj1 (decpt_of_spec m e ltac:(lia))) ltac:(lia)) as Hpos.
  destruct (shortest _ _ _ _ _ _) as [d q]. cbn [fst snd] in *.
  by rewrite (proj2 (strip_zeros_spec 17 d q Hpos)).
Qed.

(** ** [shortest_decimal] is shortest *)

Lemma dval_shift d k q : (0 <= k)%Z -> dval (d * 10 ^ k) q = dval d (q + k).
Proof.
  intros Hk. unfold dval. rewrite mult_IZR, pw_add, (pw_IZR 10 k) by lia. lra.
Qed.

Lemma dval_le d1 d2 q : (d1 <= d2)%Z -> dval d1 q <= dval d2 q.
Proof.
  intros Hd. unfold dval. apply Rmult_le_compat_r; [|by apply IZR_le].
  apply Rlt_le, pw_pos. lia.
Qed.

Lemma dval_lt_inv d1 d2 q : dval d1 q < dval d2 q -> (d1 < d2)%Z.
Proof.
  intros Hd. apply Z.lt_nge. intros Hle. apply (dval_le d2 d1 q) in Hle. lra.
Qed.

Lemma dval_pow k q : (0 <= k)%Z -> dval (10 ^ k) q = pw 10 (q + k).
Proof. intros Hk. rewrite <- (Z.mul_1_l (10 ^ k)), dval_shift, dval_1; done. Qed.

(** The interval of a value is convex and holds the value. *)
Lemma rounds_to_between m e b x y :
  (0 < m)%Z -> rounds_to m e b x ->
  x <= y <= bval m e \/ bval m e <= y <= x -> rounds_to m e b y.
Proof.
  intros Hm Hx Hy. pose proof (lower_eq m e b) as Hl. pose proof (upper_eq m e) as Hu.
  pose proof (pw_pos 2 (e - 2) ltac:(lia)) as Hp.
  assert (lower m e b < bval m e < upper m e) by (destruct b; lra).
  unfold rounds_to in *. destruct (Z.even m); lra.
Qed.

(** A decimal of at most [n] digits does not lie strictly between the two
    neighbours of [n] digits of the value. *)
Lemma decimal_outside m e p n d' q' :
  pw 10 (p - 1) <= bval m e -> (1 <= n)%Z -> (0 < d' < 10 ^ n)%Z ->
  dval d' q' <= dval (floor_scaled m e (p - n)) (p - n) \/
  dval (floor_scaled m e (p - n) + 1) (p - n) <= dval d' q'.
Proof.
  intros Hp Hn Hd. set (q := (p - n)%Z).
  destruct (floor_scaled_spec m e q) as [Hlo Hhi].
  destruct (Z.le_gt_cases q q') as [Hq|Hq].
  - replace q' with (q + (q' - q))%Z by lia. rewrite <- dval_shift by lia.
    destruct (Z.le_gt_cases (d' * 10 ^ (q' - q)) (floor_scaled m e q)) as [HD|HD];
      [left|right]; apply dval_le; lia.
  - left. assert (dval d' q' <= pw 10 (p - 1)) as Hx.
    { replace (p - 1)%Z with (q' + (p - 1 - q'))%Z by lia.
      rewrite <- dval_pow by lia. apply dval_le.
      etrans; [apply Z.lt_le_incl, Hd|]. apply Z.pow_le_mono_r; lia. }
    etrans; [exact Hx|]. replace (p - 1)%Z with (q + (n - 1))%Z by lia.
    rewrite <- dval_pow by lia. apply dval_le.
    assert (dval (10 ^ (n - 1)) q < dval (floor_scaled m e q + 1) q) as Hlt.
    { rewrite dval_pow by lia. replace (q + (n - 1))%Z with (p - 1)%Z by lia. lra. }
    apply dval_lt_inv in Hlt. lia.
Qed.

(** If a decimal of at most [n] digits rounds to the value, so does one of
    its two neighbours of [n] digits at the scale of the value. *)
Lemma candidate_complete m e b p n d' q' :
  (0 < m)%Z -> pw 10 (p - 1) <= bval m e -> (1 <= n)%Z ->
  (0 < d' < 10 ^ n)%Z -> rounds_to m e b (dval d' q') ->
  candidate m e b p n <> None.
Proof.
  intros Hm Hp Hn Hd Hr. destruct (floor_scaled_spec m e (p - n)) as [Hlo Hhi].
  assert (rounds_to m e b (dval (floor_scaled m e (p - n)) (p - n)) \/
          rounds_to m e b (dval (floor_scaled m e (p - n) + 1) (p - n))) as Hc.
  { destruct (decimal_outside m e p n d' q' Hp Hn Hd) as [Hx|Hx]; [left|right];
      apply (rounds_to_between m e b _ _ Hm Hr); [left|right]; lra. }
  unfold candidate.
  destruct Hc as [Hc|Hc]; apply in_interval_spec in Hc; rewrite Hc; repeat case_match; done.
Qed.

(** A candidate of [n] digits is at most [10^n]. *)
Lemma floor_scaled_lt m e p n :
  bval m e < pw 10 p -> (0 <= n)%Z -> (floor_scaled m e (p - n) < 10 ^ n)%Z.
Proof.
  intros Hp Hn. destruct (floor_scaled_spec m e (p - n)) as [Hlo _].
  apply (dval_lt_inv _ _ (p - n)). rewrite dval_pow by done.
  replace (p - n + n)%Z with p by lia. lra.
Qed.

Lemma candidate_le m e b p n d :
  bval m e < pw 10 p -> (0 <= n)%Z -> candidate m e b p n = Some d -> (d <= 10 ^ n)%Z.
Proof.
  intros Hp Hn. pose proof (floor_scaled_lt m e p n Hp Hn) as Hlt.
  pose proof (nearest_cases m e (floor_scaled m e (p - n)) (p - n)) as Hnear.
  unfold candidate. repeat case_match; intros [= <-]; lia.
Qed.

(** [shortest] stops at the first number of digits that has a candidate. *)
Lemma shortest_first fuel m e b p n0 :
  bval m e < pw 10 p -> (0 <= n0)%Z ->
  exists k, (shortest fuel m e b p n0).2 = (p - k)%Z /\
    (n0 <= k <= n0 + Z.of_nat fuel)%Z /\
    ((shortest fuel m e b p n0).1 <= 10 ^ k)%Z /\
    forall n, (n0 <= n)%Z -> candidate m e b p n <> None -> (k <= n)%Z.
Proof.
  intros Hp. revert n0. induction fuel as [|fuel IH]; intros n0 Hn0; cbn [shortest].
  - exists n0. cbn [fst snd]. repeat split; [lia..| |done].
    pose proof (floor_scaled_lt m e p n0 Hp Hn0).
    destruct (nearest_cases m e (floor_scaled m e (p - n0)) (p - n0)) as [-> | ->]; lia.
  - destruct (candidate m e b p n0) as [d|] eqn:Hc.
    + exists n0. cbn [fst snd]. repeat split; [lia..| |done]. by eapply candidate_le.
    + destruct (IH (n0 + 1)%Z ltac:(lia)) as (k & Hk & Hr & Hd & Hmin).
      exists k. repeat split; [done|lia..|done|].
      intros n Hn Hcn. destruct (Z.eq_dec n n0) as [->|]; [done|]. apply Hmin; [lia|done].
Qed.

Lemma strip_zeros_le fuel d q : (0 < d)%Z -> ((strip_zeros fuel d q).1 <= d)%Z.
Proof.
  revert d q. induction fuel as [|fuel IH]; intros d q Hd; cbn [strip_zeros]; [done|].
  destruct (Z.eqb_spec (d mod 10) 0) as [Hmod|]; [|done].
  destruct (Z.ltb_spec 0 d); [|done]. cbn [andb].
  pose proof (Z.div_mod d 10 ltac:(lia)) as Hdiv. rewrite Hmod, Z.add_0_r in Hdiv.
  etrans; [apply IH; lia|]. lia.
Qed.

Lemma strip_zeros_lt fuel d q k :
  (0 < d <= 10 ^ k)%Z -> (1 <= k)%Z -> ((strip_zeros (S fuel) d q).1 < 10 ^ k)%Z.
Proof.
  intros [Hd Hk] Hk1. destruct (Z.eq_dec d (10 ^ k)%Z) as [->|Hne].
  - assert (exists k', k = Z.succ k' /\ (0 <= k')%Z) as (k' & -> & Hk')
      by (exists (k - 1)%Z; lia).
    rewrite Z.pow_succ_r by done.
    assert (0 < 10 ^ k')%Z by (apply Z.pow_pos_nonneg; lia).
    cbn [strip_zeros]. rewrite (Z.mul_comm 10), Z_mod_mult, Z_div_mult by lia.
    replace (0 <? 10 ^ k' * 10)%Z with true by (symmetry; apply Z.ltb_lt; lia).
    cbn [andb Z.eqb].
    pose proof (strip_zeros_le fuel (10 ^ k') (q + 1) ltac:(done)). lia.
  - pose proof (strip_zeros_le (S fuel) d q Hd). lia.
Qed.

(** No decimal with fewer digits than [shortest_decimal] rounds to the
    value. *)
Lemma shortest_decimal_minimal m e d' q' j :
  (0 < m)%Z -> (0 < d' < 10 ^ j)%Z ->
  rounds_to m e (boundary_of m e) (dval d' q') ->
  ((shortest_decimal m e).1 < 10 ^ j)%Z.
Proof.
  intros Hm Hd Hr. destruct (decpt_of_spec m e Hm) as [Hlo Hhi].
  assert (1 <= j)%Z as Hj.
  { destruct (Z.le_gt_cases 1 j) as [|Hj]; [done|].
    destruct (Z.eq_dec j 0%Z) as [->|]; [rewrite Z.pow_0_r in Hd; lia|].
    rewrite Z.pow_neg_r in Hd; lia. }
  unfold shortest_decimal.
  destruct (shortest_first 16 m e (boundary_of m e) (decpt_of m e) 1 Hhi ltac:(lia))
    as (k & Hk & Hrange & Hle & Hmin).
  pose proof (shortest_pos 16 m e (boundary_of m e) (decpt_of m e) 1 Hm Hlo ltac:(lia)) as Hpos.
  destruct (shortest _ _ _ _ _ _) as [d q]. cbn [fst snd] in *.
  assert (k <= j)%Z as Hkj.
  { destruct (Z.le_gt_cases j 17); [|lia]. apply Hmin; [done|].
    by apply (candidate_complete m e _ _ j d' q'). }
  eapply Z.lt_le_trans; [apply (strip_zeros_lt 16 d q k); lia|].
  apply Z.pow_le_mono_r; lia.
Qed.

(** The nearer neighbour is at least as near as anything outside them. *)
Lemma nearest_nearest m e q x :
  x <= dval (floor_scaled m e q) q \/ dval (floor_scaled m e q + 1) q <= x ->
  Rabs (dval (nearest m e (floor_scaled m e q) q) q - bval m e) <= Rabs (x - bval m e).
Proof.
  intros Hx. destruct (floor_scaled_spec m e q) as [Hlo Hhi].
  pose proof (nearest_dist m e q) as Hn. cbn zeta in Hn.
  rewrite dval_succ in *.
  destruct (nearest_cases m e (floor_scaled m e q) q) as [E|E]; rewrite E in *;
    rewrite ?dval_succ in *; unfold Rabs; repeat destruct Rcase_abs; lra.
Qed.

(** The candidate chosen is at least as near as any decimal in the interval
    outside the two neighbours. *)
Lemma candidate_nearest m e b p n d x :
  (0 < m)%Z -> candidate m e b p n = Some d -> rounds_to m e b x ->
  x <= dval (floor_scaled m e (p - n)) (p - n) \/
    dval (floor_scaled m e (p - n) + 1) (p - n) <= x ->
  Rabs (dval d (p - n) - bval m e) <= Rabs (x - bval m e).
Proof.
  intros Hm Hc Hr Hx. set (q := (p - n)%Z) in *.
  destruct (floor_scaled_spec m e q) as [Hlo Hhi].
  unfold candidate in Hc. fold q in Hc.
  destruct (in_interval m e b (floor_scaled m e q) q) eqn:H1;
    destruct (in_interval m e b (floor_scaled m e q + 1) q) eqn:H2;
    simplify_eq; [by apply nearest_nearest|..].
  - destruct Hx as [Hx|Hx]; [unfold Rabs; repeat destruct Rcase_abs; lra|].
    assert (in_interval m e b (floor_scaled m e q + 1) q = true); [|congruence].
    apply in_interval_spec, (rounds_to_between m e b x); [done..|]. right. lra.
  - destruct Hx as [Hx|Hx]; [|unfold Rabs; repeat destruct Rcase_abs; lra].
    assert (in_interval m e b (floor_scaled m e q) q = true); [|congruence].
    apply in_interval_spec, (rounds_to_between m e b x); [done..|]. left. lra.
Qed.

(** What [shortest] returns: the candidate of the first number of digits
    that has one, or the nearer neighbour when the fuel is spent. *)
Lemma shortest_result fuel m e b p n0 :
  exists k, (n0 <= k <= n0 + Z.of_nat fuel)%Z /\
    (shortest fuel m e b p n0).2 = (p - k)%Z /\
    (candidate m e b p k = Some (shortest fuel m e b p n0).1 \/
     (shortest fuel m e b p n0).1 = nearest m e (floor_scaled m e (p - k)) (p - k)) /\
    forall n, (n0 <= n)%Z -> candidate m e b p n <> None -> (k <= n)%Z.
Proof.
  revert n0. induction fuel as [|fuel IH]; intros n0; cbn [shortest].
  - exists n0. cbn [fst snd]. repeat split; [lia..|by right|done].
  - destruct (candidate m e b p n0) as [d|] eqn:Hc.
    + exists n0. cbn [fst snd]. repeat split; [lia..|by left|done].
    + destruct (IH (n0 + 1)%Z) as (k & Hr & Hk & Hd & Hmin).
      exists k. repeat split; [lia..|done|done|].
      intros n Hn Hcn. destruct (Z.eq_dec n n0) as [->|]; [done|]. apply Hmin; [lia|done].
Qed.

(** Among the decimals with as few digits that round to the value,
    [shortest_decimal] is one nearest to it. *)
Lemma shortest_decimal_nearest m e d' q' k :
  (0 < m)%Z -> (10 ^ (k - 1) <= (shortest_decimal m e).1)%Z ->
  (0 < d' < 10 ^ k)%Z -> rounds_to m e (boundary_of m e) (dval d' q') ->
  Rabs (dval (shortest_decimal m e).1 (shortest_decimal m e).2 - bval m e)
    <= Rabs (dval d' q' - bval m e).
Proof.
  intros Hm Hk Hd Hr. destruct (decpt_of_spec m e Hm) as [Hlo Hhi].
  pose proof (shortest_decimal_minimal m e d' q' k Hm Hd Hr) as Hmin.
  assert (1 <= k)%Z as Hk1.
  { destruct (Z.le_gt_cases 1 k) as [|Hj]; [done|].
    destruct (Z.eq_dec k 0%Z) as [->|]; [rewrite Z.pow_0_r in Hd; lia|].
    rewrite Z.pow_neg_r in Hd; lia. }
  unfold shortest_decimal in *.
  destruct (shortest_first 16 m e (boundary_of m e) (decpt_of m e) 1 Hhi ltac:(lia))
    as (k0 & Hq & Hrange & Hle & Hfirst).
  destruct (shortest_result 16 m e (boundary_of m e) (decpt_of m e) 1)
    as (k1 & _ & Hq1 & Hres & _).
  assert (k1 = k0) as -> by lia.
  pose proof (shortest_pos 16 m e (boundary_of m e) (decpt_of m e) 1 Hm Hlo ltac:(lia)) as Hpos.
  destruct (shortest _ _ _ _ _ _) as [d q]. cbn [fst snd] in *.
  destruct (strip_zeros_spec 17 d q Hpos) as [_ ->].
  pose proof (strip_zeros_lt 16 d q k0 ltac:(lia) ltac:(lia)) as Hlt.
  assert (k0 = k) as ->.
  { assert (k <= k0)%Z.
    { apply Z.lt_succ_r, (Z.pow_lt_mono_r_iff 10); [lia..|].
      replace (Z.succ k0) with (k0 + 1)%Z by lia.
      rewrite Z.pow_add_r by lia.
      assert (10 ^ k = 10 * 10 ^ (k - 1))%Z as ->; [|lia].
      rewrite <- Z.pow_succ_r by lia. f_equal. lia. }
    assert (k0 <= k)%Z; [|lia].
    apply Hfirst; [done|]. by apply (candidate_complete m e _ _ k d' q'). }
  subst q.
  pose proof (decimal_outside m e (decpt_of m e) k d' q' Hlo Hk1 Hd) as Hout.
  destruct Hres as [Hc| ->]; [by eapply candidate_nearest|by apply nearest_nearest].
Qed.

(** ** The digit string *)

Lemma uint_digits_digits u : Forall (fun c => is_digit c = true) (uint_digits u).
Proof. induction u; cbn [uint_digits]; by constructor. Qed.

Lemma nzhead_head u : forall t, uint_digits (Decimal.nzhead u) <> 48%N :: t.
Proof. induction u; cbn [Decimal.nzhead uint_digits]; try done. Qed.

Lemma to_uint_unorm p : Pos.to_uint p = Decimal.unorm (Pos.to_uint p).
Proof.
  pose proof (DecimalPos.Unsigned.to_of (Pos.to_uint p)) as H.
  by rewrite DecimalPos.Unsigned.of_to in H.
Qed.

Lemma Z_digits_pos d : (0 < d)%Z -> digit_string (Z_digits d).
Proof.
  intros Hd. unfold Z_digits. destruct d as [|p|p]; try lia.
  change (N.to_uint (Z.to_N (Z.pos p))) with (Pos.to_uint p).
  split; [apply uint_digits_digits|].
  pose proof (to_uint_unorm p) as Hu. pose proof (Unsigned.to_uint_nonzero p) as Hz.
  pose proof (nzhead_head (Pos.to_uint p)) as Hh.
  unfold Decimal.unorm in Hu. 
  destruct (Decimal.nzhead (Pos.to_uint p)) eqn:Hnz; try done;
    rewrite Hu; cbn [uint_digits]; eexists _, _; (split; [done|]); try done.
  intros Hc. by apply (Hh (uint_digits u)).
Qed.
