(* ===== verification/FloatValid.v ===== *)
(** * Valid floats, exact widening and underflow

    The floats of [Scalar] are values of [SpecFloat.spec_float]; the ones a
    machine holds are those [valid_binary] accepts (a canonical mantissa
    and an exponent in range).  This file shows that rounding a mantissa
    that has enough digits gives a valid float ([binary_round_aux_valid]),
    hence that division, square root and the widening of line 45 give valid
    floats whatever their arguments, and multiplication and addition for
    valid arguments; that the widening of a valid binary32 value is exact
    ([tolist_exact]); and that the square of a binary32 value below
    [2^-75] rounds to zero, so that the norm of a row of such values is
    zero and no entry of the quotient of line 44 is finite. *)

From Stdlib Require Import Reals ZArith Lia Lra Floats.SpecFloat.
From stdpp Require Import base tactics list.
From S2P Require Import Prelude Scalar Tensor PyFloatSpec.

Local Open Scope Z_scope.

(** ** Definitions *)

(** The floats a binary32 tensor and a Python float can hold. *)
Definition valid32 (x : binary32) : Prop := valid_binary prec32 emax32 x = true.
Definition valid64 (x : binary64) : Prop := valid_binary prec64 emax64 x = true.

(** Two floats that denote the same value: the same sign and real value
    when both are finite and not zero, the same float otherwise. *)
Definition same_value (x y : spec_float) : Prop :=
  match x, y with
  | S754_finite s m e, S754_finite s' m' e' =>
      s = s' /\ bval (Z.pos m) e = bval (Z.pos m') e'
  | _, _ => x = y
  end.

(** A binary32 value of magnitude below [2^-75]: its square is below half
    the least positive binary32 value [2^-149]. *)
Definition tiny (x : binary32) : bool :=
  match x with
  | S754_zero _ => true
  | S754_finite _ m e => Zdigits2 (Z.pos m) + e <=? -75
  | _ => false
  end.

(** ** The number of binary digits *)

Lemma digits2_pos_size p : digits2_pos p = Pos.size p.
Proof. induction p as [p IH|p IH|]; cbn; by rewrite ?IH. Qed.

Lemma Zdigits2_log2 m : 0 < m -> Zdigits2 m = Z.log2 m + 1.
Proof.
  destruct m as [|p|p]; [lia| |lia]. intros _. cbn [Zdigits2].
  rewrite digits2_pos_size. destruct p; cbn [Z.log2 Pos.size]; lia.
Qed.

Lemma Zdigits2_nonneg m : 0 <= Zdigits2 m.
Proof. by destruct m. Qed.

Lemma Zdigits2_mono m n : 0 <= m <= n -> Zdigits2 m <= Zdigits2 n.
Proof.
  intros [Hm Hn]. destruct (Z.eq_dec m 0) as [->|]; [apply Zdigits2_nonneg|].
  rewrite !Zdigits2_log2 by lia. pose proof (Z.log2_le_mono m n). lia.
Qed.

Lemma Zdigits2_shiftr m n :
  0 <= m -> 0 <= n -> Zdigits2 (Z.shiftr m n) = Z.max 0 (Zdigits2 m - n).
Proof.
  intros Hm Hn. destruct (Z.eq_dec m 0) as [->|Hm0].
  { rewrite Z.shiftr_0_l. cbn. lia. }
  rewrite (Zdigits2_log2 m) by lia.
  destruct (Z.eq_dec (Z.shiftr m n) 0) as [H0|H0].
  - rewrite H0. apply Z.shiftr_eq_0_iff in H0 as [?|[_ ?]]; [lia|]. cbn. lia.
  - pose proof (proj2 (Z.shiftr_nonneg m n) Hm).
    rewrite Zdigits2_log2, Z.log2_shiftr by lia.
    assert (~ Z.log2 m < n); [|lia].
    intros Hlt. apply H0, Z.shiftr_eq_0_iff. right. lia.
Qed.

Lemma Zdigits2_shiftl m n : 0 < m -> 0 <= n -> Zdigits2 (Z.shiftl m n) = Zdigits2 m + n.
Proof.
  intros Hm Hn. pose proof (proj2 (Z.shiftl_nonneg m n) ltac:(lia)).
  assert (Z.shiftl m n <> 0) by (rewrite Z.shiftl_eq_0_iff by done; lia).
  rewrite !Zdigits2_log2, Z.log2_shiftl by lia. lia.
Qed.

Lemma shr_1_m mrs : 0 <= shr_m mrs -> shr_m (shr_1 mrs) = Z.shiftr (shr_m mrs) 1.
Proof.
  destruct mrs as [m r s]. cbn [shr_m shr_1]. intros Hm.
  rewrite <- Z.div2_spec. by destruct m as [|[p|p|]|].
Qed.

Lemma iter_pos_nat {A} (f : A -> A) p x :
  SpecFloat.iter_pos f p x = Nat.iter (Pos.to_nat p) f x.
Proof.
  revert x. induction p as [p IH|p IH|]; intros x; cbn [SpecFloat.iter_pos]; [| |done].
  - rewrite !IH, Pos2Nat.inj_xI.
    replace (S (2 * Pos.to_nat p)) with (Pos.to_nat p + (Pos.to_nat p + 1))%nat by lia.
    by rewrite !Nat.iter_add.
  - rewrite !IH, Pos2Nat.inj_xO.
    replace (2 * Pos.to_nat p)%nat with (Pos.to_nat p + Pos.to_nat p)%nat by lia.
    by rewrite Nat.iter_add.
Qed.

Lemma iter_nat_shr_m k mrs :
  0 <= shr_m mrs -> shr_m (Nat.iter k shr_1 mrs) = Z.shiftr (shr_m mrs) (Z.of_nat k).
Proof.
  intros Hm. induction k as [|k IH]; [by rewrite Z.shiftr_0_r|].
  rewrite Nat.iter_succ, shr_1_m; rewrite IH; [|by apply Z.shiftr_nonneg].
  rewrite Z.shiftr_shiftr by lia. f_equal. lia.
Qed.

Lemma iter_shr_1_m p mrs :
  0 <= shr_m mrs -> shr_m (SpecFloat.iter_pos shr_1 p mrs) = Z.shiftr (shr_m mrs) (Z.pos p).
Proof. intros Hm. by rewrite iter_pos_nat, iter_nat_shr_m, positive_nat_Z. Qed.

Lemma shr_1_r mrs : 0 <= shr_m mrs -> shr_r (shr_1 mrs) = Z.odd (shr_m mrs).
Proof. by destruct mrs as [[|[p|p|]|p] r s]. Qed.

Lemma shiftr_digits m k : 0 <= m -> Zdigits2 m <= k -> Z.shiftr m k = 0.
Proof.
  intros Hm Hk. destruct (Z.eq_dec m 0) as [->|]; [apply Z.shiftr_0_l|].
  rewrite Zdigits2_log2 in Hk by lia. apply Z.shiftr_eq_0_iff. right. lia.
Qed.

(** Shifting out more bits than the mantissa has leaves nothing, and the
    last bit shifted out is zero. *)
Lemma shr_flush m e l n :
  0 <= m -> Zdigits2 m < n ->
  shr_m (shr (shr_record_of_loc m l) e n).1 = 0 /\
  shr_r (shr (shr_record_of_loc m l) e n).1 = false.
Proof.
  intros Hm Hn. pose proof (Zdigits2_nonneg m) as Hd.
  destruct n as [|p|p]; [lia| |lia]. cbn [shr fst]. rewrite iter_pos_nat.
  destruct (Pos2Nat.is_succ p) as [k Hk]. rewrite Hk, Nat.iter_succ.
  assert (0 <= shr_m (Nat.iter k shr_1 (shr_record_of_loc m l))) as Hk0.
  { rewrite iter_nat_shr_m, shr_record_of_loc_m by (by rewrite shr_record_of_loc_m).
    by apply Z.shiftr_nonneg. }
  rewrite shr_1_m, shr_1_r by done.
  rewrite iter_nat_shr_m, shr_record_of_loc_m by (by rewrite shr_record_of_loc_m).
  rewrite (shiftr_digits m (Z.of_nat k)) by lia. done.
Qed.

Lemma Zdigits2_lt_pow2 m d : 0 <= m -> 0 <= d -> m < 2 ^ d <-> Zdigits2 m <= d.
Proof.
  intros Hm Hd. destruct (Z.eq_dec m 0) as [->|].
  { cbn. split; [lia|]. intros _. by apply Z.pow_pos_nonneg. }
  rewrite Zdigits2_log2 by lia. rewrite Z.log2_lt_pow2 by lia. lia.
Qed.

Lemma Zdigits2_mul m n : 0 < m -> 0 < n -> Zdigits2 m + Zdigits2 n - 1 <= Zdigits2 (m * n).
Proof.
  intros Hm Hn. rewrite !Zdigits2_log2 by lia.
  pose proof (Z.log2_mul_below m n Hm Hn). lia.
Qed.

Lemma Zdigits2_mul_le m n : 0 <= m -> 0 <= n -> Zdigits2 (m * n) <= Zdigits2 m + Zdigits2 n.
Proof.
  intros Hm Hn. pose proof (Zdigits2_nonneg m). pose proof (Zdigits2_nonneg n).
  apply Zdigits2_lt_pow2; [lia..|]. rewrite Z.pow_add_r by done.
  pose proof (proj2 (Zdigits2_lt_pow2 m (Zdigits2 m) Hm ltac:(done)) ltac:(lia)).
  pose proof (proj2 (Zdigits2_lt_pow2 n (Zdigits2 n) Hn ltac:(done)) ltac:(lia)).
  apply Z.mul_lt_mono_nonneg; lia.
Qed.

Lemma Zdigits2_div m n : 0 < m -> 0 < n -> Zdigits2 m - Zdigits2 n <= Zdigits2 (m / n).
Proof.
  intros Hm Hn. pose proof (Z.div_pos m n ltac:(lia) Hn) as Hq.
  pose proof (Zdigits2_nonneg (m / n)) as Hdq. pose proof (Zdigits2_nonneg n) as Hdn.
  assert (m < 2 ^ (Zdigits2 n + Zdigits2 (m / n))) as Hlt;
    [|apply Zdigits2_lt_pow2 in Hlt; lia].
  rewrite Z.pow_add_r by done.
  pose proof (proj2 (Zdigits2_lt_pow2 n (Zdigits2 n) ltac:(lia) Hdn) ltac:(lia)).
  pose proof (proj2 (Zdigits2_lt_pow2 (m / n) (Zdigits2 (m / n)) Hq Hdq) ltac:(lia)).
  eapply Z.lt_le_trans; [apply (Z.mul_succ_div_gt m n Hn)|].
  apply Z.mul_le_mono_nonneg; lia.
Qed.

Lemma Zdigits2_sqrt m : 0 < m -> Z.div2 (Zdigits2 m + 1) <= Zdigits2 (Z.sqrt m).
Proof.
  intros Hm. pose proof (Z.sqrt_nonneg m) as Hq. pose proof (Zdigits2_nonneg (Z.sqrt m)) as Hd.
  pose proof (Zdigits2_nonneg m) as Hdm.
  assert (m < 2 ^ (2 * Zdigits2 (Z.sqrt m))) as Hlt.
  { pose proof (proj2 (Zdigits2_lt_pow2 (Z.sqrt m) (Zdigits2 (Z.sqrt m)) Hq Hd)
                  ltac:(lia)) as Hs.
    destruct (Z.sqrt_spec m ltac:(lia)) as [_ Hup].
    replace (2 * Zdigits2 (Z.sqrt m)) with (Zdigits2 (Z.sqrt m) + Zdigits2 (Z.sqrt m)) by lia.
    rewrite Z.pow_add_r by done.
    eapply Z.lt_le_trans; [apply Hup|]. apply Z.mul_le_mono_nonneg; lia. }
  apply Zdigits2_lt_pow2 in Hlt; [|lia|lia]. rewrite Z.div2_div.
  Z.div_mod_to_equations. lia.
Qed.

(** ** Rounding *)

Section Rounding.
Context (prec emax : Z) (Hprec : 0 < prec) (Hemax : prec < emax).


(** [shr_fexp] shifts right by the number of digits in excess. *)
Lemma shr_fexp_m m e l :
  0 <= m ->
  let n := Z.max 0 (fexp prec emax (Zdigits2 m + e) - e) in
  shr_m (shr_fexp prec emax m e l).1 = Z.shiftr m n /\
  (shr_fexp prec emax m e l).2 = e + n.
Proof.
  intros Hm n. unfold shr_fexp, shr. subst n.
  destruct (fexp prec emax (Zdigits2 m + e) - e) as [|p|p] eqn:Hn; cbn [fst snd].
  - rewrite shr_record_of_loc_m. split; [done|lia].
  - rewrite iter_shr_1_m by (by rewrite shr_record_of_loc_m).
    rewrite shr_record_of_loc_m. split; [done|lia].
  - rewrite shr_record_of_loc_m. split; [done|lia].
Qed.

(** Given enough digits the shifted mantissa is canonical. *)
Lemma shr_fexp_canon m e l :
  0 <= m -> e <= fexp prec emax (Zdigits2 m + e) ->
  let r := shr_fexp prec emax m e l in
  0 <= shr_m r.1 /\ fexp prec emax (Zdigits2 (shr_m r.1) + r.2) = r.2.
Proof.
  intros Hm He r. destruct (shr_fexp_m m e l Hm) as [Hr1 Hr2]. subst r.
  rewrite Hr1, Hr2. split; [apply Z.shiftr_nonneg; lia|].
  rewrite Zdigits2_shiftr by lia. pose proof (Zdigits2_nonneg m).
  unfold SpecFloat.fexp, emin in *. lia.
Qed.

Lemma round_nearest_even_le m l : m <= round_nearest_even m l.
Proof. destruct l as [|[]]; cbn; try case_match; lia. Qed.

Lemma fexp_mono a b : a <= b -> fexp prec emax a <= fexp prec emax b.
Proof. unfold SpecFloat.fexp. lia. Qed.

(** Rounding a mantissa with enough digits gives a valid float. *)
Lemma binary_round_aux_valid s mx ex lx :
  0 <= mx -> ex <= fexp prec emax (Zdigits2 mx + ex) ->
  valid_binary prec emax (binary_round_aux prec emax s mx ex lx) = true.
Proof.
  intros Hm He. unfold binary_round_aux.
  destruct (shr_fexp_canon mx ex lx Hm He) as [H1 C1].
  destruct (shr_fexp prec emax mx ex lx) as [mrs' e']. cbn [fst snd] in *.
  set (m1 := round_nearest_even _ _).
  pose proof (round_nearest_even_le (shr_m mrs') (loc_of_shr_record mrs')) as Hle.
  fold m1 in Hle.
  assert (e' <= fexp prec emax (Zdigits2 m1 + e')) as He1.
  { rewrite <- C1 at 1. apply fexp_mono.
    pose proof (Zdigits2_mono (shr_m mrs') m1). lia. }
  destruct (shr_fexp_canon m1 e' loc_Exact ltac:(lia) He1) as [H2 C2].
  destruct (shr_fexp prec emax m1 e' loc_Exact) as [mrs'' e'']. cbn [fst snd] in *.
  destruct (shr_m mrs'') as [|m|m]; [done| |done].
  destruct (e'' <=? emax - prec) eqn:Hle2; [|done].
  cbn [valid_binary]. unfold bounded, canonical_mantissa. rewrite Hle2.
  apply andb_true_iff. split; [|done]. by apply Z.eqb_eq.
Qed.

Lemma shl_align_spec mx ex ex' :
  let r := shl_align mx ex ex' in
  Z.pos r.1 = Z.shiftl (Z.pos mx) (Z.max 0 (ex - ex')) /\ r.2 = ex - Z.max 0 (ex - ex').
Proof.
  unfold shl_align. destruct (ex' - ex) as [|d|d] eqn:Hd; cbn [fst snd].
  - replace (ex - ex') with 0 by lia. by rewrite Z.shiftl_0_r, Z.sub_0_r.
  - replace (Z.max 0 (ex - ex')) with 0 by lia. by rewrite Z.shiftl_0_r, Z.sub_0_r.
  - replace (Z.max 0 (ex - ex')) with (Z.pos d) by lia. split; [|lia].
    unfold Z.shiftl. by rewrite (Pos.iter_swap_gen _ _ Z.pos xO (Z.mul 2)).
Qed.

(** [binary_round] gives a valid float whatever the mantissa and exponent. *)
Lemma binary_round_valid s mx ex :
  valid_binary prec emax (binary_round prec emax s mx ex) = true.
Proof.
  unfold binary_round.
  destruct (shl_align_spec mx ex (fexp prec emax (Z.pos (digits2_pos mx) + ex))) as [Hm He].
  destruct (shl_align _ _ _) as [mz ez]. cbn [fst snd] in *.
  apply binary_round_aux_valid; [lia|]. rewrite Hm, He.
  rewrite Zdigits2_shiftl by lia. cbn [Zdigits2].
  unfold SpecFloat.fexp. lia.
Qed.


(** ** The operations give valid floats *)

Lemma SFdiv_core_binary_spec m1 e1 m2 e2 :
  0 < m1 -> 0 < m2 ->
  let r := SFdiv_core_binary prec emax m1 e1 m2 e2 in
  0 <= r.1.1 /\ r.1.2 <= fexp prec emax (Zdigits2 r.1.1 + r.1.2).
Proof.
  intros H1 H2. unfold SFdiv_core_binary.
  set (e' := Z.min _ _). set (s := e1 - e2 - e').
  assert (0 <= s) as Hs by (unfold s, e'; lia).
  set (m' := match s with Z.pos _ => Z.shiftl m1 s | 0 => m1 | Z.neg _ => 0 end).
  assert (m' = Z.shiftl m1 s) as -> by (unfold m'; destruct s; [done|done|lia]).
  pose proof (Z.div_eucl_eq (Z.shiftl m1 s) m2 ltac:(lia)) as Hdiv.
  assert ((Z.shiftl m1 s / m2) = (Z.div_eucl (Z.shiftl m1 s) m2).1) as Hq by done.
  destruct (Z.div_eucl (Z.shiftl m1 s) m2) as [q r]. cbn [fst snd] in *. subst q.
  assert (0 < Z.shiftl m1 s).
  { rewrite Z.shiftl_mul_pow2 by done. pose proof (Z.pow_pos_nonneg 2 s). nia. }
  split; [apply Z.div_pos; lia|].
  pose proof (Zdigits2_div (Z.shiftl m1 s) m2 ltac:(done) H2) as Hd.
  rewrite Zdigits2_shiftl in Hd by done.
  pose proof (eq_refl : s = e1 - e2 - e') as Es.
  etrans; [apply Z.le_min_l|]. apply fexp_mono. lia.
Qed.

(** [SFdiv] gives a valid float whatever its arguments. *)
Lemma SFdiv_valid x y : valid_binary prec emax (SFdiv prec emax x y) = true.
Proof.
  destruct x as [sx|sx| |sx mx ex], y as [sy|sy| |sy my ey]; try done.
  cbn [SFdiv].
  destruct (SFdiv_core_binary_spec (Z.pos mx) ex (Z.pos my) ey) as [Hq He]; [done..|].
  destruct (SFdiv_core_binary _ _ _ _ _ _) as [[mz ez] lz].
  by apply binary_round_aux_valid.
Qed.

Lemma SFsqrt_core_binary_spec m e :
  0 < m ->
  let r := SFsqrt_core_binary prec emax m e in
  0 <= r.1.1 /\ r.1.2 <= fexp prec emax (Zdigits2 r.1.1 + r.1.2).
Proof.
  intros Hm. unfold SFsqrt_core_binary.
  set (e' := Z.min _ _). set (s := e - 2 * e').
  assert (0 <= s) as Hs
    by (unfold s, e'; rewrite (Z.div2_div e); Z.div_mod_to_equations; lia).
  set (m' := match s with Z.pos _ => Z.shiftl m s | 0 => m | Z.neg _ => 0 end).
  assert (m' = Z.shiftl m s) as -> by (unfold m'; destruct s; [done|done|lia]).
  pose proof (Z.sqrtrem_sqrt (Z.shiftl m s)) as Hq.
  destruct (Z.sqrtrem (Z.shiftl m s)) as [q r]. cbn [fst snd] in *. subst q.
  assert (0 < Z.shiftl m s).
  { rewrite Z.shiftl_mul_pow2 by done. pose proof (Z.pow_pos_nonneg 2 s). nia. }
  split; [apply Z.sqrt_nonneg|].
  pose proof (Zdigits2_sqrt (Z.shiftl m s) ltac:(done)) as Hd.
  rewrite Zdigits2_shiftl in Hd by done.
  etrans; [apply Z.le_min_l|]. apply fexp_mono.
  pose proof (eq_refl : s = e - 2 * e') as Es.
  rewrite !Z.div2_div in *. Z.div_mod_to_equations. lia.
Qed.

(** [SFsqrt] gives a valid float whatever its argument. *)
Lemma SFsqrt_valid x : valid_binary prec emax (SFsqrt prec emax x) = true.
Proof.
  destruct x as [sx|[]| |[] mx ex]; try done. cbn [SFsqrt].
  destruct (SFsqrt_core_binary_spec (Z.pos mx) ex) as [Hq He]; [done|].
  destruct (SFsqrt_core_binary _ _ _ _) as [[mz ez] lz].
  by apply binary_round_aux_valid.
Qed.

Lemma valid_finite_canonical s m e :
  valid_binary prec emax (S754_finite s m e) = true -> fexp prec emax (Zdigits2 (Z.pos m) + e) = e.
Proof.
  cbn [valid_binary]. unfold bounded, canonical_mantissa.
  intros [H _]%andb_true_iff. by apply Z.eqb_eq in H.
Qed.

(** [SFmul] keeps floats valid. *)
Lemma SFmul_valid x y :
  valid_binary prec emax x = true -> valid_binary prec emax y = true ->
  valid_binary prec emax (SFmul prec emax x y) = true.
Proof.
  destruct x as [sx|sx| |sx mx ex], y as [sy|sy| |sy my ey]; try done.
  intros Hx%valid_finite_canonical Hy%valid_finite_canonical. cbn [SFmul].
  apply binary_round_aux_valid; [done|].
  pose proof (Zdigits2_mul (Z.pos mx) (Z.pos my) ltac:(done) ltac:(done)) as Hd.
  change (Z.pos (mx * my)) with (Z.pos mx * Z.pos my).
  pose proof (Zdigits2_nonneg (Z.pos mx * Z.pos my)).
  assert (0 < Zdigits2 (Z.pos mx)) by done. assert (0 < Zdigits2 (Z.pos my)) by done.
  unfold SpecFloat.fexp, emin in *. lia.
Qed.

Lemma binary_normalize_valid m e sz : valid_binary prec emax (binary_normalize prec emax m e sz) = true.
Proof. destruct m; [done|apply binary_round_valid..]. Qed.

(** [SFadd] keeps floats valid. *)
Lemma SFadd_valid x y :
  valid_binary prec emax x = true -> valid_binary prec emax y = true ->
  valid_binary prec emax (SFadd prec emax x y) = true.
Proof.
  destruct x as [sx|sx| |sx mx ex], y as [sy|sy| |sy my ey]; try done;
    try (by destruct sx, sy).
  intros _ _. apply binary_normalize_valid.
Qed.

(** When no digit is lost [binary_round] only aligns the mantissa. *)
Lemma binary_round_exact s mx ex :
  fexp prec emax (Zdigits2 (Z.pos mx) + ex) <= ex ->
  fexp prec emax (Zdigits2 (Z.pos mx) + ex) <= emax - prec ->
  exists mz, binary_round prec emax s mx ex
               = S754_finite s mz (fexp prec emax (Zdigits2 (Z.pos mx) + ex)) /\
    Z.pos mz = Z.shiftl (Z.pos mx) (ex - fexp prec emax (Zdigits2 (Z.pos mx) + ex)).
Proof.
  intros He Hmax. unfold binary_round.
  destruct (shl_align_spec mx ex (fexp prec emax (Z.pos (digits2_pos mx) + ex))) as [Hm Hz].
  destruct (shl_align _ _ _) as [mz ez]. cbn [fst snd Zdigits2] in *.
  set (ez' := fexp prec emax (Z.pos (digits2_pos mx) + ex)) in *.
  assert (ez = ez') as -> by lia.
  replace (Z.max 0 (ex - ez')) with (ex - ez') in Hm by lia.
  exists mz. split; [|done].
  assert (fexp prec emax (Zdigits2 (Z.pos mz) + ez') = ez') as Hc.
  { rewrite Hm, Zdigits2_shiftl by lia. cbn [Zdigits2].
    by replace (Z.pos (digits2_pos mx) + (ex - ez') + ez')
      with (Z.pos (digits2_pos mx) + ex) by lia. }
  unfold binary_round_aux, shr_fexp. rewrite Hc, Z.sub_diag. cbn [shr shr_record_of_loc
    shr_m loc_of_shr_record round_nearest_even]. rewrite Hc, Z.sub_diag. cbn [shr shr_m
    shr_record_of_loc].
  by rewrite (proj2 (Z.leb_le _ _) Hmax).
Qed.

(** A value below half the least positive float rounds to zero. *)
Lemma binary_round_aux_underflow s m e :
  0 < m -> Zdigits2 m + e < emin prec emax ->
  binary_round_aux prec emax s m e loc_Exact = S754_zero s.
Proof.
  intros Hm He. unfold binary_round_aux, shr_fexp.
  assert (fexp prec emax (Zdigits2 m + e) = emin prec emax) as ->
    by (unfold fexp; lia).
  destruct (shr_flush m e loc_Exact (emin prec emax - e)) as [H0 Hr]; [lia..|].
  destruct (shr _ e _) as [[m1 r1 s1] e1] eqn:Hshr. cbn [fst shr_m shr_r] in *. subst m1 r1.
  assert (e1 = emin prec emax) as ->.
  { unfold shr in Hshr. destruct (emin prec emax - e) eqn:E; inversion Hshr; lia. }
  assert (round_nearest_even 0 (loc_of_shr_record {| shr_m := 0; shr_r := false; shr_s := s1 |}) = 0)
    as -> by (by destruct s1).
  cbn [Zdigits2]. assert (fexp prec emax (0 + emin prec emax) - emin prec emax = 0) as ->
    by (unfold fexp; lia).
  done.
Qed.

End Rounding.

(** ** binary32 and binary64 *)

Lemma b32_div_valid x y : valid32 (b32_div x y).
Proof. by apply SFdiv_valid. Qed.

Lemma b32_sqrt_valid x : valid32 (b32_sqrt x).
Proof. by apply SFsqrt_valid. Qed.

Lemma b32_mul_valid x y : valid32 x -> valid32 y -> valid32 (b32_mul x y).
Proof. by apply SFmul_valid. Qed.

Lemma b32_add_valid x y : valid32 x -> valid32 y -> valid32 (b32_add x y).
Proof. by apply SFadd_valid. Qed.

(** The widening of [tolist()] gives a valid binary64 value. *)
Lemma b32_to_b64_valid (x : binary32) : valid64 (b32_to_b64 x).
Proof. destruct x as [s|s| |s m e]; try done. by apply binary_round_valid. Qed.

(** The widening of a valid binary32 value only aligns its mantissa. *)
Lemma b32_to_b64_exact s m e :
  valid32 (S754_finite s m e) ->
  exists m' e', b32_to_b64 (S754_finite s m e) = S754_finite s m' e' /\
    e' <= e /\ Z.pos m' = Z.pos m * 2 ^ (e - e').
Proof.
  intros Hv. pose proof (valid_finite_canonical _ _ _ _ _ Hv) as Hc.
  unfold valid32 in Hv. cbn [valid_binary] in Hv. unfold bounded in Hv.
  apply andb_true_iff in Hv as [_ Hle%Z.leb_le].
  assert (0 < Zdigits2 (Z.pos m)) as Hd by done.
  unfold SpecFloat.fexp, emin, prec32, emax32 in *.
  destruct (binary_round_exact prec64 emax64 s m e) as (mz & Hr & Hm).
  - unfold SpecFloat.fexp, emin, prec64, emax64. lia.
  - unfold SpecFloat.fexp, emin, prec64, emax64. lia.
  - exists mz, (SpecFloat.fexp prec64 emax64 (Zdigits2 (Z.pos m) + e)).
    split; [done|]. rewrite Hm. unfold SpecFloat.fexp, emin, prec64, emax64.
    split; [lia|]. apply Z.shiftl_mul_pow2. lia.
Qed.

Lemma b32_to_b64_same_value (x : binary32) : valid32 x -> same_value x (b32_to_b64 x).
Proof.
  destruct x as [s|s| |s m e]; try done. intros Hv.
  destruct (b32_to_b64_exact s m e Hv) as (m' & e' & -> & He & Hm).
  split; [done|]. unfold bval. rewrite Hm, mult_IZR, <- pw_IZR by lia.
  rewrite Rmult_assoc, pw_sub; done.
Qed.

(** ** The tensor operations *)

Lemma sum_row_valid (v : list binary32) : Forall valid32 v -> valid32 (sum_row v).
Proof.
  unfold sum_row. assert (valid32 (fzero : binary32)) as Hz by done. revert Hz.
  generalize (fzero : binary32). induction v as [|x v IH]; intros acc Hacc Hv; [done|].
  apply Forall_cons_1 in Hv as [Hx Hv]. cbn [foldl]. apply IH; [|done].
  by apply b32_add_valid.
Qed.

Lemma sumsq_valid (v : list binary32) : Forall valid32 v -> valid32 (sumsq v).
Proof.
  intros Hv. apply sum_row_valid, Forall_fmap. eapply list.Forall_impl; [exact Hv|].
  intros x Hx. by apply b32_mul_valid.
Qed.

Lemma norm_row_valid (v : list binary32) : valid32 (norm_row v).
Proof. apply b32_sqrt_valid. Qed.

Lemma normalize_row_valid_all (r : list binary32) : Forall valid32 (normalize_row r).
Proof. apply Forall_fmap, Forall_true. intros x. apply b32_div_valid. Qed.

Lemma tolist_valid_all (r : list binary32) : Forall valid64 (tolist r : list binary64).
Proof. apply Forall_fmap, Forall_true. intros x. apply b32_to_b64_valid. Qed.

(** C21: [tolist()] is exact on valid binary32 values: each float of the list
    has the sign and the real value of the tensor entry it comes from, and
    zeros, infinities and NaN are kept as they are. *)
Theorem tolist_exact (r : list binary32) :
  Forall valid32 r -> Forall2 same_value r (tolist r : list binary64).
Proof.
  intros Hr. apply Forall2_fmap_r, Forall_Forall2_diag.
  eapply list.Forall_impl; [exact Hr|]. apply b32_to_b64_same_value.
Qed.

(** ** Underflow *)

(** The square of a tiny binary32 value is zero. *)
Lemma b32_square_tiny (x : binary32) : tiny x = true -> square x = S754_zero false.
Proof.
  destruct x as [s|s| |s m e]; try done; [by destruct s|].
  intros Ht%Z.leb_le. unfold square. cbn [fmul binary32_scalar b32_mul].
  unfold b32_mul. cbn [SFmul]. rewrite xorb_nilpotent.
  apply binary_round_aux_underflow; [done..|].
  pose proof (Zdigits2_mul_le (Z.pos m) (Z.pos m) ltac:(done) ltac:(done)).
  change (Z.pos (m * m)) with (Z.pos m * Z.pos m).
  unfold emin, prec32, emax32. lia.
Qed.

Lemma b32_foldl_pzero (v : list binary32) :
  Forall (fun y => y = S754_zero false) v -> foldl b32_add (S754_zero false) v = S754_zero false.
Proof. induction 1 as [|y v -> _ IH]; [done|]. exact IH. Qed.

(** The norm of a row of tiny values is zero. *)
Lemma tiny_norm_zero (r : list binary32) :
  Forall (fun x => tiny x = true) r -> norm_row r = S754_zero false.
Proof.
  intros Hr. unfold norm_row, sumsq, sum_row. change fzero with (S754_zero false : binary32).
  change (@fadd binary32 _) with b32_add.
  rewrite b32_foldl_pzero; [done|]. apply Forall_fmap.
  eapply list.Forall_impl; [exact Hr|]. intros x. apply b32_square_tiny.
Qed.

(** Nothing divided by zero is finite. *)
Lemma b32_div_zero_not_finite (x : binary32) s : is_finite (b32_div x (S754_zero s)) = false.
Proof. by destruct x. Qed.

Lemma normalize_row_zero_norm (r : list binary32) :
  is_zero (norm_row r) = true ->
  Forall (fun y => is_finite y = false) (tolist (normalize_row r) : list binary64).
Proof.
  intros Hz. destruct (norm_row r) as [s| | |] eqn:Hn; try done.
  unfold tolist, normalize_row, div_row. rewrite Hn, <- list_fmap_compose.
  apply Forall_fmap, Forall_true. intros x. cbn.
  pose proof (b32_div_zero_not_finite x s) as Hf.
  change (@fdiv binary32 _) with b32_div. by destruct (b32_div x (S754_zero s)).
Qed.

(** The squares of the least positive binary32 value underflow to zero. *)
Example sumsq_underflow :
  sumsq [S754_finite false 1 (-149) : binary32] = S754_zero false.
Proof. reflexivity. Qed.

(** ** Witnesses *)

Lemma tolist_exact_witness :
  Forall2 same_value [S754_finite false 10066330 (-24); S754_zero true; S754_nan]
    (tolist [S754_finite false 10066330 (-24); S754_zero true; S754_nan] : list binary64).
Proof. apply tolist_exact. repeat constructor. Defined.
