(* ===== verification/Json.v ===== *)
(** * [json.dumps] on the values the script serialises

    The script passes two kinds of dictionaries to [json.dumps]: the result
    document of [process_image] (a string and a list of floats) and the usage
    error (one string).  [pyval] is the Python value type restricted to what
    occurs in them, and [dumps] is [json.dumps] with its default options,
    modelled from CPython's [json.encoder]: [encode_basestring_ascii] is
    [py_encode_basestring_ascii] ([ensure_ascii=True]), [floatstr] is the
    float formatter ([allow_nan=True]), lists and dictionaries are joined
    with [", "] and [": "]. *)

From Stdlib Require Import NArith ZArith Lia String.
From Stdlib Require Import Floats.SpecFloat.
From stdpp Require Import base tactics list.
From S2P Require Import Prelude PyStr Scalar PyFloat.

Local Open Scope N_scope.

(** ** Values *)

Section Values.
Context {P : Type}.

Unset Elimination Schemes.
Inductive pyval : Type :=
  | VStr (s : pystr)
  | VFloat (x : P)
  | VList (items : list pyval)
  | VDict (items : list (pystr * pyval)).
Set Elimination Schemes.

(** Induction with hypotheses for the elements of lists and dictionaries. *)
Definition pyval_ind (Q : pyval -> Prop)
    (HStr : forall s, Q (VStr s))
    (HFloat : forall x, Q (VFloat x))
    (HList : forall items, Forall Q items -> Q (VList items))
    (HDict : forall items, Forall (fun kv => Q kv.2) items -> Q (VDict items)) :
    forall v, Q v :=
  fix go (v : pyval) : Q v :=
    match v with
    | VStr s => HStr s
    | VFloat x => HFloat x
    | VList items =>
        HList items
          ((fix go_list (l : list pyval) : Forall Q l :=
              match l with
              | [] => Forall_nil_2 Q
              | x :: l' => Forall_cons_2 Q x l' (go x) (go_list l')
              end) items)
    | VDict items =>
        HDict items
          ((fix go_items (l : list (pystr * pyval)) : Forall (fun kv => Q kv.2) l :=
              match l with
              | [] => Forall_nil_2 _
              | kv :: l' => Forall_cons_2 (fun kv => Q kv.2) kv l' (go kv.2) (go_items l')
              end) items)
    end.

End Values.
Arguments pyval P : clear implicits.

(** ** Strings: [py_encode_basestring_ascii] *)

Definition quote : codepoint := 0x22.
Definition backslash : codepoint := 0x5c.

Definition hex_char (d : N) : codepoint := if d <? 10 then 48 + d else 87 + d.

Fixpoint hex_uint_chars (u : Hexadecimal.uint) : pystr :=
  match u with
  | Hexadecimal.Nil => []
  | Hexadecimal.D0 u => hex_char 0 :: hex_uint_chars u
  | Hexadecimal.D1 u => hex_char 1 :: hex_uint_chars u
  | Hexadecimal.D2 u => hex_char 2 :: hex_uint_chars u
  | Hexadecimal.D3 u => hex_char 3 :: hex_uint_chars u
  | Hexadecimal.D4 u => hex_char 4 :: hex_uint_chars u
  | Hexadecimal.D5 u => hex_char 5 :: hex_uint_chars u
  | Hexadecimal.D6 u => hex_char 6 :: hex_uint_chars u
  | Hexadecimal.D7 u => hex_char 7 :: hex_uint_chars u
  | Hexadecimal.D8 u => hex_char 8 :: hex_uint_chars u
  | Hexadecimal.D9 u => hex_char 9 :: hex_uint_chars u
  | Hexadecimal.Da u => hex_char 10 :: hex_uint_chars u
  | Hexadecimal.Db u => hex_char 11 :: hex_uint_chars u
  | Hexadecimal.Dc u => hex_char 12 :: hex_uint_chars u
  | Hexadecimal.Dd u => hex_char 13 :: hex_uint_chars u
  | Hexadecimal.De u => hex_char 14 :: hex_uint_chars u
  | Hexadecimal.Df u => hex_char 15 :: hex_uint_chars u
  end.

(** ['{0:04x}'.format(n)]: lower-case hexadecimal, padded with zeros to at
    least four characters. *)
Definition format_04x (n : N) : pystr :=
  let ds := hex_uint_chars (N.to_hex_uint n) in
  replicate (4 - length ds)%nat (hex_char 0) ++ ds.

(** ['\\u{0:04x}'.format(n)] *)
Definition u_escape (n : N) : pystr := py "\u" ++ format_04x n.

(** [ESCAPE_DCT]: the short escapes, and [\u00XX] for the other control
    characters. *)
Definition ESCAPE_DCT (c : codepoint) : option pystr :=
  if c =? 0x5c then Some [backslash; backslash]
  else if c =? 0x22 then Some [backslash; quote]
  else if c =? 0x08 then Some (py "\b")
  else if c =? 0x0c then Some (py "\f")
  else if c =? 0x0a then Some (py "\n")
  else if c =? 0x0d then Some (py "\r")
  else if c =? 0x09 then Some (py "\t")
  else if c <? 0x20 then Some (u_escape c)
  else None.

(** [ESCAPE_ASCII]: the pattern matches a backslash, a double quote and
    every character outside the range from space to tilde; does the
    character have to be replaced? *)
Definition ESCAPE_ASCII (c : codepoint) : bool :=
  (c =? backslash) || (c =? quote) || negb (printable c).

(** The function [replace] applied to each match. *)
Definition replace (c : codepoint) : pystr :=
  match ESCAPE_DCT c with
  | Some s => s
  | None =>
      if c <? 0x10000 then u_escape c
      else
        let n := c - 0x10000 in
        let s1 := N.lor 0xd800 (N.land (N.shiftr n 10) 0x3ff) in
        let s2 := N.lor 0xdc00 (N.land n 0x3ff) in
        u_escape s1 ++ u_escape s2
  end.

Definition escape_char (c : codepoint) : pystr :=
  if ESCAPE_ASCII c then replace c else [c].

Definition encode_basestring_ascii (s : pystr) : pystr :=
  [quote] ++ (s ≫= escape_char) ++ [quote].

(** A text between double quotes, as it is: what the encoder yields for a
    string without characters to escape. *)
Definition quoted (s : pystr) : pystr := [quote] ++ s ++ [quote].

(** ** Floats, lists, dictionaries *)

Section Dumps.
Context {P : Type} `{FloatRepr P}.

(** [floatstr] with [allow_nan=True]. *)
Definition floatstr (o : P) : pystr :=
  if float_is_nan o then py "NaN"
  else if float_is_posinf o then py "Infinity"
  else if float_is_neginf o then py "-Infinity"
  else float_repr o.

Definition item_separator : pystr := py ", ".
Definition key_separator : pystr := py ": ".

Fixpoint dumps (v : pyval P) : pystr :=
  match v with
  | VStr s => encode_basestring_ascii s
  | VFloat x => floatstr x
  | VList items =>
      py "[" ++ join item_separator (dumps <$> items) ++ py "]"
  | VDict items =>
      py "{" ++
      join item_separator
        ((fun kv => encode_basestring_ascii kv.1 ++ key_separator ++ dumps kv.2) <$> items)
      ++ py "}"
  end.

End Dumps.

(** ** The encoder writes printable ASCII only *)

Lemma hex_char_printable d : d <= 15 -> printable (hex_char d) = true.
Proof.
  intros Hd. apply printable_spec. unfold hex_char.
  destruct (N.ltb_spec d 10); lia.
Qed.

Lemma hex_uint_chars_printable u : printable_str (hex_uint_chars u).
Proof.
  unfold printable_str.
  induction u; simpl; constructor; auto; by apply hex_char_printable.
Qed.

Lemma format_04x_printable n : printable_str (format_04x n).
Proof.
  unfold format_04x. apply printable_str_app. split.
  - apply Forall_replicate. by apply hex_char_printable.
  - apply hex_uint_chars_printable.
Qed.

Lemma u_escape_printable n : printable_str (u_escape n).
Proof.
  unfold u_escape. apply printable_str_app.
  split; [printable_literal|apply format_04x_printable].
Qed.

#[export] Hint Resolve format_04x_printable u_escape_printable : clip.

Lemma ESCAPE_DCT_printable c s : ESCAPE_DCT c = Some s -> printable_str s.
Proof.
  unfold ESCAPE_DCT. repeat case_match; intros [= <-];
    first [printable_literal | apply u_escape_printable].
Qed.

Lemma replace_printable c : printable_str (replace c).
Proof.
  unfold replace. destruct (ESCAPE_DCT c) eqn:E; [by eapply ESCAPE_DCT_printable|].
  solve_printable.
Qed.

Lemma escape_char_printable c : printable_str (escape_char c).
Proof.
  unfold escape_char, ESCAPE_ASCII.
  destruct (printable c) eqn:Hc; rewrite ?orb_true_r; simpl;
    [|apply replace_printable].
  case_match; [apply replace_printable|]. by repeat constructor.
Qed.

Lemma bind_printable (s : pystr) (f : codepoint -> pystr) :
  (forall c, printable_str (f c)) -> printable_str (s ≫= f).
Proof.
  intros Hf. induction s as [|c s IH]; [constructor|].
  change ((c :: s) ≫= f) with (f c ++ (s ≫= f)).
  apply printable_str_app. auto.
Qed.

Lemma encode_basestring_ascii_printable s : printable_str (encode_basestring_ascii s).
Proof.
  unfold encode_basestring_ascii.
  apply printable_str_app; split; [printable_literal|].
  apply printable_str_app; split; [|printable_literal].
  apply bind_printable, escape_char_printable.
Qed.

(** A character that needs no escape is copied. *)
Lemma escape_char_plain c :
  printable c = true -> c <> quote -> c <> backslash -> escape_char c = [c].
Proof.
  intros Hp Hq Hb. unfold escape_char, ESCAPE_ASCII. rewrite Hp.
  by rewrite (proj2 (N.eqb_neq _ _) Hq), (proj2 (N.eqb_neq _ _) Hb).
Qed.

Section DumpsTheorems.
Context {P : Type} `{FloatReprLaws P}.

Lemma floatstr_printable (o : P) : printable_str (floatstr o).
Proof.
  unfold floatstr. repeat case_match; try printable_literal.
  apply float_repr_printable.
Qed.

Lemma printable_join (sep : pystr) items :
  printable_str sep -> Forall printable_str items -> printable_str (join sep items).
Proof. apply Forall_join. Qed.

Lemma item_separator_printable : printable_str item_separator.
Proof. printable_literal. Qed.

Lemma key_separator_printable : printable_str key_separator.
Proof. printable_literal. Qed.

Lemma printable_wrap (l s r : pystr) :
  printable_str l -> printable_str r -> printable_str s ->
  printable_str (l ++ s ++ r).
Proof. intros. by repeat (apply printable_str_app; split). Qed.

Lemma dumps_chars (v : pyval P) : printable_str (dumps v).
Proof.
  induction v as [s|x|items IH|items IH] using pyval_ind; cbn [dumps].
  - apply encode_basestring_ascii_printable.
  - apply floatstr_printable.
  - apply printable_wrap; [printable_literal..|].
    apply printable_join; [apply item_separator_printable|]. by apply Forall_fmap.
  - apply printable_wrap; [printable_literal..|].
    apply printable_join; [apply item_separator_printable|]. apply Forall_fmap.
    eapply Forall_impl; [exact IH|]. intros [k w] Hw. cbn [fst snd] in *.
    apply printable_wrap; [apply encode_basestring_ascii_printable|exact Hw|].
    apply key_separator_printable.
Qed.

(** C4: every character [json.dumps] writes lies between space and tilde,
    whatever code points the strings hold and whatever the floats are: the
    text is ASCII, encodable on every stream, and contains no line break. *)
Theorem dumps_printable (v : pyval P) :
  Forall (fun c => (0x20 <= c <= 0x7e)%N) (dumps v).
Proof.
  eapply Forall_impl; [apply dumps_chars|]. intros c. apply printable_spec.
Qed.

End DumpsTheorems.

(** ** Witnesses *)

Lemma dumps_printable_witness :
  Forall (fun c => (0x20 <= c <= 0x7e)%N)
    (dumps (VDict [(py "caption", VStr [0x0a; 0x22; 0xe9; 0x1f600]);
                   (py "embedding", VList [VFloat b64_zero; VFloat S754_nan])])).
Proof. apply (dumps_printable (P:=binary64)). Defined.
