(* ===== verification/JsonDecode.v ===== *)
(** * A reference JSON decoder

    The consumer of the script's standard output is a JSON decoder.  This
    file holds a reference decoder for the grammar of RFC 8259 on code
    points: strings with their escapes (a pair of [\u] escapes that form a
    high and a low surrogate is combined, as every decoder working on UTF-16
    escapes does), numbers as tokens of the number grammar, the three
    literals, arrays and objects, with insignificant white space.  The tokens
    [NaN], [Infinity] and [-Infinity] are not JSON and are refused.

    The theorems relate it to [Json.dumps]: a value whose strings hold valid
    code points without a surrogate pair written as two code points, and
    whose floats are finite, is decoded to itself ([loads_dumps]); a value
    holding a float that is not finite is written as a text the decoder
    refuses. *)

From Stdlib Require Import NArith ZArith Lia String.
From stdpp Require Import base tactics list option.
From S2P Require Import Prelude PyStr Scalar PyFloat Json.

Local Open Scope N_scope.

(** ** Decoded values *)

Unset Elimination Schemes.
Inductive jval : Type :=
  | JNull
  | JBool (b : bool)
  | JStr (s : pystr)
  | JNum (tok : pystr)
  | JArr (items : list jval)
  | JObj (members : list (pystr * jval)).
Set Elimination Schemes.

(** ** Characters *)

Definition is_ws (c : codepoint) : bool :=
  (c =? 0x20) || (c =? 0x09) || (c =? 0x0a) || (c =? 0x0d).

Definition minus : codepoint := 0x2d.
Definition plus : codepoint := 0x2b.
Definition dot : codepoint := 0x2e.
Definition comma : codepoint := 0x2c.
Definition colon : codepoint := 0x3a.
Definition lbracket : codepoint := 0x5b.
Definition rbracket : codepoint := 0x5d.
Definition lbrace : codepoint := 0x7b.
Definition rbrace : codepoint := 0x7d.

Definition is_e (c : codepoint) : bool := (c =? 0x65) || (c =? 0x45).
Definition is_sign (c : codepoint) : bool := (c =? plus) || (c =? minus).

(** The characters a number token is made of. *)
Definition number_char (c : codepoint) : bool :=
  is_digit c || (c =? dot) || is_e c || is_sign c.

(** A text at whose start a number token ends. *)
Definition stop (s : pystr) : bool :=
  match s with
  | [] => true
  | c :: _ => negb (number_char c)
  end.

Fixpoint skip_ws (s : pystr) : pystr :=
  match s with
  | c :: s' => if is_ws c then skip_ws s' else s
  | [] => []
  end.

(** ** Strings *)

Definition hex_val (c : codepoint) : option N :=
  if (48 <=? c) && (c <=? 57) then Some (c - 48)
  else if (97 <=? c) && (c <=? 102) then Some (c - 87)
  else if (65 <=? c) && (c <=? 70) then Some (c - 55)
  else None.

Definition hex4 (a b c d : codepoint) : option N :=
  x1 ← hex_val a; x2 ← hex_val b; x3 ← hex_val c; x4 ← hex_val d;
  Some (((x1 * 16 + x2) * 16 + x3) * 16 + x4).

(** The character a two-character escape stands for. *)
Definition short_escape (e : codepoint) : option codepoint :=
  if e =? quote then Some quote
  else if e =? backslash then Some backslash
  else if e =? 0x2f then Some 0x2f
  else if e =? 0x62 then Some 0x08
  else if e =? 0x66 then Some 0x0c
  else if e =? 0x6e then Some 0x0a
  else if e =? 0x72 then Some 0x0d
  else if e =? 0x74 then Some 0x09
  else None.

(** What the scanner reads: a character written as itself or by a short
    escape, or the 16-bit unit of a [\u] escape. *)
Inductive unit16 : Type :=
  | Lit (c : codepoint)
  | Esc (u : N).

(** The text after the opening quote, up to the closing one.  Control
    characters must be escaped. *)
Fixpoint scan_string (s : pystr) : option (list unit16 * pystr) :=
  match s with
  | [] => None
  | c :: s1 =>
      if c =? quote then Some ([], s1)
      else if c =? backslash then
        match s1 with
        | [] => None
        | e :: s2 =>
            if e =? 0x75 then
              match s2 with
              | h1 :: h2 :: h3 :: h4 :: s3 =>
                  u ← hex4 h1 h2 h3 h4;
                  r ← scan_string s3;
                  Some (Esc u :: r.1, r.2)
              | _ => None
              end
            else
              c' ← short_escape e;
              r ← scan_string s2;
              Some (Lit c' :: r.1, r.2)
        end
      else if c <? 0x20 then None
      else r ← scan_string s1; Some (Lit c :: r.1, r.2)
  end.

Definition surrogate_pair (h l : N) : codepoint :=
  0x10000 + N.lor (N.shiftl (h - 0xd800) 10) (l - 0xdc00).

(** An escaped high surrogate directly followed by an escaped low surrogate
    is one code point. *)
Fixpoint combine (us : list unit16) : pystr :=
  match us with
  | [] => []
  | Lit c :: us' => c :: combine us'
  | Esc h :: us' =>
      match us' with
      | Esc l :: us'' =>
          if high_surrogate h && low_surrogate l
          then surrogate_pair h l :: combine us''
          else h :: combine us'
      | _ => h :: combine us'
      end
  end.

Definition parse_string (s : pystr) : option (pystr * pystr) :=
  r ← scan_string s; Some (combine r.1, r.2).

(** ** Numbers *)

(** The longest prefix of digits, and what follows it. *)
Fixpoint digits_prefix (s : pystr) : pystr * pystr :=
  match s with
  | c :: s' =>
      if is_digit c then let r := digits_prefix s' in (c :: r.1, r.2) else ([], s)
  | [] => ([], [])
  end.

(** [frac = "." 1*DIGIT], if present. *)
Definition scan_frac (s : pystr) : pystr * pystr :=
  match s with
  | c :: s' =>
      if c =? dot then
        match digits_prefix s' with
        | ([], _) => ([], s)
        | (ds, r) => (c :: ds, r)
        end
      else ([], s)
  | [] => ([], [])
  end.

(** [exp = ("e" / "E") ["-" / "+"] 1*DIGIT], if present. *)
Definition scan_exp (s : pystr) : pystr * pystr :=
  match s with
  | c :: s' =>
      if is_e c then
        match s' with
        | g :: s'' =>
            if is_sign g then
              match digits_prefix s'' with
              | ([], _) => ([], s)
              | (ds, r) => (c :: g :: ds, r)
              end
            else
              match digits_prefix s' with
              | ([], _) => ([], s)
              | (ds, r) => (c :: ds, r)
              end
        | [] => ([], s)
        end
      else ([], s)
  | [] => ([], [])
  end.

(** [int = "0" / (DIGIT1-9 *DIGIT)] *)
Definition scan_int (s : pystr) : option (pystr * pystr) :=
  match s with
  | c :: s' =>
      if c =? 48 then Some ([c], s')
      else if is_digit c then let r := digits_prefix s' in Some (c :: r.1, r.2)
      else None
  | [] => None
  end.

Definition scan_sign (s : pystr) : pystr * pystr :=
  match s with
  | c :: s' => if c =? minus then ([c], s') else ([], s)
  | [] => ([], [])
  end.

(** [number = [ "-" ] int [ frac ] [ exp ]]: the token and the rest. *)
Definition scan_number (s : pystr) : option (pystr * pystr) :=
  let sg := scan_sign s in
  i ← scan_int sg.2;
  let f := scan_frac i.2 in
  let x := scan_exp f.2 in
  Some (sg.1 ++ i.1 ++ f.1 ++ x.1, x.2).

(** Is the whole text one number token? *)
Definition json_number (tok : pystr) : bool :=
  bool_decide (scan_number tok = Some (tok, [])).

(** ** Values *)

(** The literal [lit] at the start of [s]. *)
Definition scan_literal (lit : pystr) (s : pystr) : option pystr :=
  if bool_decide (take (length lit) s = lit) then Some (drop (length lit) s) else None.

Fixpoint parse_value (fuel : nat) (s : pystr) {struct fuel} : option (jval * pystr) :=
  match fuel with
  | O => None
  | S n =>
      match s with
      | [] => None
      | c :: s1 =>
          if c =? quote then
            r ← parse_string s1; Some (JStr r.1, r.2)
          else if c =? lbracket then
            match skip_ws s1 with
            | [] => None
            | c' :: s2 =>
                if c' =? rbracket then Some (JArr [], s2)
                else r ← parse_elements n (c' :: s2); Some (JArr r.1, r.2)
            end
          else if c =? lbrace then
            match skip_ws s1 with
            | [] => None
            | c' :: s2 =>
                if c' =? rbrace then Some (JObj [], s2)
                else r ← parse_members n (c' :: s2); Some (JObj r.1, r.2)
            end
          else if c =? 0x74 then r ← scan_literal (py "true") s; Some (JBool true, r)
          else if c =? 0x66 then r ← scan_literal (py "false") s; Some (JBool false, r)
          else if c =? 0x6e then r ← scan_literal (py "null") s; Some (JNull, r)
          else r ← scan_number s; Some (JNum r.1, r.2)
      end
  end
with parse_elements (fuel : nat) (s : pystr) {struct fuel} : option (list jval * pystr) :=
  match fuel with
  | O => None
  | S n =>
      v ← parse_value n s;
      match skip_ws v.2 with
      | [] => None
      | c :: r1 =>
          if c =? comma then
            vs ← parse_elements n (skip_ws r1); Some (v.1 :: vs.1, vs.2)
          else if c =? rbracket then Some ([v.1], r1)
          else None
      end
  end
with parse_members (fuel : nat) (s : pystr) {struct fuel}
    : option (list (pystr * jval) * pystr) :=
  match fuel with
  | O => None
  | S n =>
      match s with
      | [] => None
      | q :: s1 =>
          if q =? quote then
            k ← parse_string s1;
            match skip_ws k.2 with
            | [] => None
            | c :: r1 =>
                if c =? colon then
                  v ← parse_value n (skip_ws r1);
                  match skip_ws v.2 with
                  | [] => None
                  | c' :: r2 =>
                      if c' =? comma then
                        ms ← parse_members n (skip_ws r2);
                        Some ((k.1, v.1) :: ms.1, ms.2)
                      else if c' =? rbrace then Some ([(k.1, v.1)], r2)
                      else None
                  end
                else None
            end
          else None
      end
  end.

(** [loads]: one value between optional white space, and nothing else.  The
    length of the text is fuel enough: every level of nesting consumes a
    character. *)
Definition loads (s : pystr) : option jval :=
  r ← parse_value (length s) (skip_ws s);
  match skip_ws r.2 with
  | [] => Some r.1
  | _ => None
  end.

(** ** The units the encoder writes *)

(** The two halves [py_encode_basestring_ascii] computes for a code point
    above the basic plane. *)
Definition high_unit (c : codepoint) : N :=
  N.lor 0xd800 (N.land (N.shiftr (c - 0x10000) 10) 0x3ff).
Definition low_unit (c : codepoint) : N :=
  N.lor 0xdc00 (N.land (c - 0x10000) 0x3ff).

(** The control characters with a two-character escape. *)
Definition short_char (c : codepoint) : bool :=
  (c =? 0x08) || (c =? 0x09) || (c =? 0x0a) || (c =? 0x0c) || (c =? 0x0d).

(** What the scanner reads back from [escape_char c]. *)
Definition units_of (c : codepoint) : list unit16 :=
  if printable c || short_char c then [Lit c]
  else if c <? 0x10000 then [Esc c]
  else [Esc (high_unit c); Esc (low_unit c)].

(** Does the text start with an escaped low surrogate? *)
Definition head_low (us : list unit16) : bool :=
  match us with Esc l :: _ => low_surrogate l | _ => false end.

(** The first character of a string, an array, an object or a number. *)
Definition value_start (c : codepoint) : bool :=
  (c =? quote) || (c =? lbracket) || (c =? lbrace) || (c =? minus) || is_digit c.

(** Bounded universal quantification, for properties checked by
    evaluation. *)
Definition all_below (n : N) (f : N -> bool) : bool :=
  N.recursion true (fun i acc => f i && acc) n.

(** The four characters of [format_04x c] are read back as [c]. *)
Definition check_hex (c : N) : bool :=
  match format_04x c with
  | [h1; h2; h3; h4] => bool_decide (hex4 h1 h2 h3 h4 = Some c)
  | _ => false
  end.

(** ** What [dumps] and [loads] agree on *)

Fixpoint no_surrogate_pair (s : pystr) : bool :=
  match s with
  | [] => true
  | c :: s' =>
      negb (high_surrogate c &&
            match s' with l :: _ => low_surrogate l | [] => false end)
      && no_surrogate_pair s'
  end.

(** What becomes of a string that is written and read back: a high
    surrogate directly followed by a low one is one code point afterwards.
    A string without such a pair is unchanged. *)
Fixpoint merge_pairs (s : pystr) : pystr :=
  match s with
  | [] => []
  | c :: t =>
      match t with
      | l :: t' =>
          if high_surrogate c && low_surrogate l
          then surrogate_pair c l :: merge_pairs t'
          else c :: merge_pairs t
      | [] => [c]
      end
  end.

Section Embedding.
Context {P : Type} `{FloatRepr P}.

Definition float_finite (x : P) : bool :=
  negb (float_is_nan x || float_is_posinf x || float_is_neginf x).

(** Code points in range in every string. *)
Fixpoint strings_valid (v : pyval P) : bool :=
  match v with
  | VStr s => bool_decide (valid_str s)
  | VFloat x => true
  | VList items => forallb strings_valid items
  | VDict items =>
      forallb (fun kv => bool_decide (valid_str kv.1) && strings_valid kv.2) items
  end.

(** No NaN and no infinity among the floats. *)
Fixpoint floats_finite (v : pyval P) : bool :=
  match v with
  | VStr s => true
  | VFloat x => float_finite x
  | VList items => forallb floats_finite items
  | VDict items => forallb (fun kv => floats_finite kv.2) items
  end.

(** The decoded form of a value, with [f] applied to its strings; a float is
    the number token of its text. *)
Fixpoint to_json_with (f : pystr -> pystr) (v : pyval P) : jval :=
  match v with
  | VStr s => JStr (f s)
  | VFloat x => JNum (float_repr x)
  | VList items => JArr (to_json_with f <$> items)
  | VDict items => JObj ((fun kv => (f kv.1, to_json_with f kv.2)) <$> items)
  end.

(** What the decoder returns, and the value itself as a decoded value. *)
Definition to_json : pyval P -> jval := to_json_with merge_pairs.
Definition plain : pyval P -> jval := to_json_with id.

(** No string of the value holds a surrogate pair written as two code
    points. *)
Fixpoint pairs_free (v : pyval P) : bool :=
  match v with
  | VStr s => no_surrogate_pair s
  | VFloat x => true
  | VList items => forallb pairs_free items
  | VDict items => forallb (fun kv => no_surrogate_pair kv.1 && pairs_free kv.2) items
  end.

(** The text of one member of a dictionary. *)
Definition member_text (kv : pystr * pyval P) : pystr :=
  encode_basestring_ascii kv.1 ++ key_separator ++ dumps kv.2.

(** What the decoder makes of the text of [v], wherever it stands and given
    fuel for its length: the value when its floats are finite, and a refusal
    when they are not. *)
Definition decodes (v : pyval P) : Prop :=
  forall fuel rest, (length (dumps v) <= fuel)%nat -> stop rest = true ->
    parse_value fuel (dumps v ++ rest) =
      if floats_finite v then Some (to_json v, rest) else None.

Definition member_ok (kv : pystr * pyval P) : Prop :=
  valid_str kv.1 /\ decodes kv.2.

End Embedding.

(** The law a float type needs for its finite values: the text is a number
    token. *)
Class FloatJsonLaws (P : Type) `{FloatRepr P} : Prop := {
  float_repr_number : forall x : P, float_finite x = true -> json_number (float_repr x) = true;
}.

(** ** Case analysis on characters *)

(** Split on the comparisons of the goal and of the hypotheses, pruning the
    impossible cases as they appear. *)
Ltac char_cases :=
  repeat (match goal with
  | |- context [N.eqb ?a ?b] => destruct (N.eqb_spec a b)
  | |- context [N.ltb ?a ?b] => destruct (N.ltb_spec a b)
  | |- context [N.leb ?a ?b] => destruct (N.leb_spec a b)
  | H : context [N.eqb ?a ?b] |- _ => destruct (N.eqb_spec a b)
  | H : context [N.ltb ?a ?b] |- _ => destruct (N.ltb_spec a b)
  | H : context [N.leb ?a ?b] |- _ => destruct (N.leb_spec a b)
  end; try (exfalso; lia)); subst; simpl in *; try done.

Lemma all_below_spec n f : all_below n f = true -> forall i, i < n -> f i = true.
Proof.
  unfold all_below. induction n as [|n IH] using N.peano_ind; [lia|].
  rewrite N.recursion_succ by (done || solve_proper).
  intros [Hn Hr]%andb_true_iff i Hi.
  destruct (decide (i = n)) as [->|]; [done|]. apply IH; [done|lia].
Qed.

(** ** Strings: the scanner inverts the encoder *)

Lemma check_hex_all : all_below 0x10000 check_hex = true.
Proof. vm_compute. reflexivity. Qed.

Lemma scan_u_escape c t :
  c < 0x10000 ->
  scan_string (u_escape c ++ t) = r ← scan_string t; Some (Esc c :: r.1, r.2).
Proof.
  intros Hc. pose proof (all_below_spec _ _ check_hex_all c Hc) as Hx.
  unfold check_hex, u_escape in *.
  destruct (format_04x c) as [|h1 [|h2 [|h3 [|h4 [|]]]]]; try done.
  apply bool_decide_eq_true in Hx. cbn. by rewrite Hx.
Qed.

(** Bits that do not overlap are added. *)
Lemma lor_shiftl_low a b k : b < 2 ^ k -> N.lor (N.shiftl a k) b = a * 2 ^ k + b.
Proof.
  intros Hb. rewrite <- N.shiftl_mul_pow2.
  rewrite N.add_nocarry_lxor, N.lxor_lor; try done.
  all: apply N.bits_inj; intros i; rewrite N.land_spec, N.bits_0;
    destruct (N.lt_ge_cases i k);
    [rewrite N.shiftl_spec_low by done; done|].
  all: destruct (decide (b = 0)) as [->|]; [by rewrite N.bits_0, andb_false_r|].
  all: rewrite (N.bits_above_log2 b i), andb_false_r; [done|].
  all: apply N.log2_lt_pow2; [lia|]; eapply N.lt_le_trans; [exact Hb|];
    by apply N.pow_le_mono_r.
Qed.

Lemma high_unit_spec c :
  0x10000 <= c < cp_limit -> high_unit c = 0xd800 + (c - 0x10000) / 1024.
Proof.
  intros Hc. unfold high_unit.
  change 0x3ff with (N.ones 10). rewrite N.land_ones, N.shiftr_div_pow2.
  change 0xd800 with (N.shiftl 54 10). change (2 ^ 10) with 1024.
  assert ((c - 65536) / 1024 < 1024)
    by (apply N.Div0.div_lt_upper_bound; unfold cp_limit in *; lia).
  rewrite N.mod_small by done.
  rewrite lor_shiftl_low by done. reflexivity.
Qed.

Lemma low_unit_spec c : low_unit c = 0xdc00 + (c - 0x10000) mod 1024.
Proof.
  unfold low_unit. change 0x3ff with (N.ones 10). rewrite N.land_ones.
  change 0xdc00 with (N.shiftl 55 10). change (2 ^ 10) with 1024.
  rewrite lor_shiftl_low; [reflexivity|]. by apply N.mod_lt.
Qed.

Lemma high_unit_range c : 0x10000 <= c < cp_limit -> 0xd800 <= high_unit c <= 0xdbff.
Proof.
  intros Hc. rewrite high_unit_spec by done.
  assert ((c - 65536) / 1024 < 1024)
    by (apply N.Div0.div_lt_upper_bound; unfold cp_limit in *; lia).
  generalize dependent ((c - 65536) / 1024). lia.
Qed.

Lemma low_unit_range c : 0xdc00 <= low_unit c <= 0xdfff.
Proof.
  rewrite low_unit_spec. pose proof (N.mod_lt (c - 65536) 1024).
  generalize dependent ((c - 65536) mod 1024). lia.
Qed.

(** The decoder's formula inverts the encoder's. *)
Lemma surrogate_pair_units c :
  0x10000 <= c < cp_limit -> surrogate_pair (high_unit c) (low_unit c) = c.
Proof.
  intros Hc. rewrite high_unit_spec, low_unit_spec by done. unfold surrogate_pair.
  rewrite !(N.add_comm _ (_ / _)), !(N.add_comm _ (_ mod _)), !N.add_sub.
  rewrite lor_shiftl_low by (by apply N.mod_lt).
  change (2 ^ 10) with 1024.
  pose proof (N.div_mod (c - 65536) 1024). lia.
Qed.

Lemma escape_char_bmp c :
  c < 0x10000 -> printable c || short_char c = false -> escape_char c = u_escape c.
Proof.
  intros Hc Hp.
  unfold escape_char, ESCAPE_ASCII, replace, ESCAPE_DCT, quote, backslash,
    printable, short_char in *.
  char_cases.
Qed.

Lemma escape_char_astral c :
  0x10000 <= c -> escape_char c = u_escape (high_unit c) ++ u_escape (low_unit c).
Proof.
  intros Hc.
  unfold escape_char, ESCAPE_ASCII, printable, replace, ESCAPE_DCT, quote, backslash.
  char_cases.
Qed.

(** Scanning one encoded character. *)
Lemma scan_escape_char c t :
  c < cp_limit ->
  scan_string (escape_char c ++ t) = r ← scan_string t; Some (units_of c ++ r.1, r.2).
Proof.
  intros Hc. unfold units_of. destruct (printable c || short_char c) eqn:Hp.
  - destruct ((c =? backslash) || (c =? quote) || short_char c) eqn:Hs.
    + clear Hp. unfold short_char, quote, backslash in Hs. char_cases.
    + unfold short_char, printable in *. rewrite escape_char_plain.
      * cbn [app scan_string]. unfold quote, backslash in *. char_cases.
      * unfold printable. char_cases.
      * intros ->. done.
      * intros ->. done.
  - destruct (N.ltb_spec c 0x10000) as [Hlt|Hge].
    + by rewrite escape_char_bmp, scan_u_escape.
    + pose proof (high_unit_range c). pose proof (low_unit_range c).
      rewrite escape_char_astral, <- app_assoc, !scan_u_escape by (done || lia).
      by destruct (scan_string t) as [[]|].
Qed.

Lemma combine_Esc u us :
  high_surrogate u && head_low us = false -> combine (Esc u :: us) = u :: combine us.
Proof.
  intros Hu. cbn [combine]. destruct us as [|[c|l] us]; try done.
  cbn [head_low] in Hu. by rewrite Hu.
Qed.

Lemma head_low_units c us :
  c < cp_limit -> head_low (units_of c ++ us) = low_surrogate c.
Proof.
  intros Hc. unfold units_of.
  destruct (printable c || short_char c) eqn:Hp; [|destruct (N.ltb_spec c 0x10000)];
    cbn [app head_low]; [|done|].
  - unfold printable, short_char, low_surrogate in *. char_cases.
  - pose proof (high_unit_range c). unfold low_surrogate, cp_limit in *.
    generalize dependent (high_unit c). intros. char_cases.
Qed.

Lemma combine_units_app c us :
  c < cp_limit -> high_surrogate c && head_low us = false ->
  combine (units_of c ++ us) = c :: combine us.
Proof.
  intros Hc Hp. unfold units_of.
  destruct (printable c || short_char c); [done|].
  destruct (N.ltb_spec c 0x10000); [by apply combine_Esc|].
  pose proof (high_unit_range c). pose proof (low_unit_range c).
  cbn [app combine]. unfold high_surrogate, low_surrogate.
  rewrite surrogate_pair_units by done.
  by rewrite !(proj2 (N.leb_le _ _)) by lia.
Qed.

Lemma head_low_bind s :
  valid_str s ->
  head_low (s ≫= units_of) = match s with l :: _ => low_surrogate l | [] => false end.
Proof.
  destruct s as [|c s]; [done|]. intros [Hc _]%Forall_cons_1.
  by apply head_low_units.
Qed.

(** An escaped low surrogate at the head comes from a low surrogate. *)
Lemma units_of_low l :
  low_surrogate l = true -> units_of l = [Esc l].
Proof.
  intros Hl. unfold units_of, printable, short_char, low_surrogate in *. char_cases.
Qed.

Lemma merge_pairs_cons c t :
  high_surrogate c && match t with l :: _ => low_surrogate l | [] => false end = false ->
  merge_pairs (c :: t) = c :: merge_pairs t.
Proof. destruct t as [|l t]; [done|]. cbn [merge_pairs]. by intros ->. Qed.

Lemma high_surrogate_units c :
  high_surrogate c = true -> units_of c = [Esc c].
Proof.
  intros Hc. unfold units_of, printable, short_char, high_surrogate in *. char_cases.
Qed.

(** Combining the units of the encoder merges exactly the pairs of the
    string.  By induction on a bound of the length, since a merged pair
    takes two code points. *)
Lemma combine_units_bounded n s :
  (length s <= n)%nat -> valid_str s -> combine (s ≫= units_of) = merge_pairs s.
Proof.
  revert s. induction n as [|n IH]; intros s Hn Hs.
  { by destruct s; [|cbn in Hn; lia]. }
  destruct s as [|c t]; [done|]. apply Forall_cons_1 in Hs as [Hc Ht].
  change ((c :: t) ≫= units_of) with (units_of c ++ (t ≫= units_of)).
  destruct (high_surrogate c && match t with l :: _ => low_surrogate l | [] => false end)
    eqn:Hp.
  - destruct t as [|l t']; [by rewrite andb_false_r in Hp|].
    apply andb_true_iff in Hp as [Hh Hl]. apply Forall_cons_1 in Ht as [_ Ht'].
    change ((l :: t') ≫= units_of) with (units_of l ++ (t' ≫= units_of)).
    rewrite (high_surrogate_units c Hh), (units_of_low l Hl).
    cbn [app combine merge_pairs]. rewrite Hh, Hl. cbn [andb].
    rewrite IH; [done| |done]. cbn in Hn. lia.
  - rewrite combine_units_app, merge_pairs_cons, IH; try done.
    + cbn in Hn. lia.
    + by rewrite head_low_bind.
Qed.

Lemma combine_units s : valid_str s -> combine (s ≫= units_of) = merge_pairs s.
Proof. by apply (combine_units_bounded (length s)). Qed.

Lemma merge_pairs_id s : no_surrogate_pair s = true -> merge_pairs s = s.
Proof.
  induction s as [|c s IH]; [done|]. cbn [no_surrogate_pair].
  intros [Hp Hn]%andb_true_iff. apply negb_true_iff in Hp.
  by rewrite merge_pairs_cons, IH.
Qed.

Lemma no_surrogate_pair_app s t :
  Forall (fun c => high_surrogate c = false) s -> no_surrogate_pair t = true ->
  no_surrogate_pair (s ++ t) = true.
Proof.
  induction 1 as [|c s Hc _ IH]; [done|]. intros Ht.
  cbn [app no_surrogate_pair]. by rewrite Hc, IH.
Qed.

(** A literal before a string without pairs: nothing to merge. *)
Lemma merge_pairs_literal l s :
  no_surrogate_pair s = true -> merge_pairs (py l ++ s) = py l ++ s.
Proof.
  intros Hn. apply merge_pairs_id.
  apply no_surrogate_pair_app; [apply py_no_high|done].
Qed.

Lemma scan_string_encode s rest :
  valid_str s ->
  scan_string ((s ≫= escape_char) ++ quote :: rest) = Some (s ≫= units_of, rest).
Proof.
  induction s as [|c s IH]; [done|].
  intros [Hc Hs]%Forall_cons_1.
  change ((c :: s) ≫= escape_char) with (escape_char c ++ (s ≫= escape_char)).
  by rewrite <- app_assoc, scan_escape_char, IH.
Qed.

Lemma parse_string_encode s rest :
  valid_str s ->
  parse_string ((s ≫= escape_char) ++ quote :: rest) = Some (merge_pairs s, rest).
Proof.
  intros Hs. unfold parse_string. rewrite scan_string_encode by done.
  cbn [mbind option_bind fst snd]. by rewrite combine_units.
Qed.

(** ** Numbers: a token is read whole when a stop character follows *)

Lemma stop_not_digit c s : stop (c :: s) = true -> is_digit c = false.
Proof. unfold stop, number_char. by destruct (is_digit c). Qed.

Lemma digits_prefix_stop rest : stop rest = true -> digits_prefix rest = ([], rest).
Proof.
  destruct rest as [|c rest]; [done|]. intros Hc%stop_not_digit. cbn. by rewrite Hc.
Qed.

Lemma digits_prefix_app s rest :
  stop rest = true ->
  digits_prefix (s ++ rest) = ((digits_prefix s).1, (digits_prefix s).2 ++ rest).
Proof.
  intros Hr. induction s as [|c s IH]; [by rewrite digits_prefix_stop|].
  cbn [app digits_prefix]. destruct (is_digit c); [by rewrite IH|done].
Qed.

Lemma scan_frac_app s rest :
  stop rest = true ->
  scan_frac (s ++ rest) = ((scan_frac s).1, (scan_frac s).2 ++ rest).
Proof.
  intros Hr. destruct s as [|c s].
  - destruct rest as [|c rest]; [done|]. cbn in *. unfold number_char in Hr.
    by destruct (c =? dot); [rewrite orb_true_r in Hr|].
  - cbn [app scan_frac]. destruct (c =? dot); [|done].
    rewrite digits_prefix_app by done. by destruct (digits_prefix s) as [[|d ds] r].
Qed.

Lemma scan_exp_app s rest :
  stop rest = true ->
  scan_exp (s ++ rest) = ((scan_exp s).1, (scan_exp s).2 ++ rest).
Proof.
  intros Hr. destruct s as [|c s].
  - destruct rest as [|c rest]; [done|]. cbn in *. unfold number_char in Hr.
    by destruct (is_e c); [rewrite orb_true_r in Hr|].
  - cbn [app scan_exp]. destruct (is_e c); [|done]. destruct s as [|g s].
    + destruct rest as [|g rest]; [done|]. cbn [app].
      rewrite (digits_prefix_stop (g :: rest)) by done.
      cbn in Hr. unfold number_char in Hr.
      by destruct (is_sign g); [rewrite orb_true_r in Hr|].
    + cbn [app]. destruct (is_sign g).
      * rewrite digits_prefix_app by done. by destruct (digits_prefix s) as [[|d ds] r].
      * change (g :: s ++ rest) with ((g :: s) ++ rest).
        rewrite digits_prefix_app by done.
        by destruct (digits_prefix (g :: s)) as [[|d ds] r].
Qed.

Lemma scan_int_app s rest r :
  stop rest = true -> scan_int s = Some r -> scan_int (s ++ rest) = Some (r.1, r.2 ++ rest).
Proof.
  intros Hr. destruct s as [|c s]; [done|]. cbn [app scan_int].
  destruct (c =? 48); [by intros [= <-]|]. destruct (is_digit c); [|done].
  intros [= <-]. by rewrite digits_prefix_app.
Qed.

Lemma scan_sign_app s rest :
  s <> [] -> scan_sign (s ++ rest) = ((scan_sign s).1, (scan_sign s).2 ++ rest).
Proof. destruct s as [|c s]; [done|]. intros _. cbn. by destruct (c =? minus). Qed.

Lemma scan_number_app s rest r :
  stop rest = true -> scan_number s = Some r ->
  scan_number (s ++ rest) = Some (r.1, r.2 ++ rest).
Proof.
  intros Hr. unfold scan_number. destruct s as [|c s]; [done|].
  rewrite (scan_sign_app (c :: s)) by done.
  destruct (scan_int (scan_sign (c :: s)).2) as [i|] eqn:Hi; [|done].
  cbn [fst snd]. rewrite (scan_int_app _ _ _ Hr Hi). cbn [mbind option_bind fst snd].
  rewrite scan_frac_app by done. cbn [fst snd]. rewrite scan_exp_app by done.
  by intros [= <-].
Qed.

Lemma json_number_app tok rest :
  json_number tok = true -> stop rest = true ->
  scan_number (tok ++ rest) = Some (tok, rest).
Proof.
  intros Ht%bool_decide_eq_true Hr. by rewrite (scan_number_app _ _ _ Hr Ht).
Qed.

Lemma scan_number_start s r :
  scan_number s = Some r -> exists c t, s = c :: t /\ ((c =? minus) || is_digit c) = true.
Proof.
  unfold scan_number. destruct s as [|c s]; [done|]. intros Hs. exists c, s. split; [done|].
  cbn [scan_sign] in Hs. destruct (c =? minus); [done|]. cbn in Hs.
  destruct (N.eqb_spec c 48) as [->|]; [done|]. by destruct (is_digit c).
Qed.

(** ** Values *)

Lemma skip_ws_start (c : codepoint) (t : pystr) :
  is_ws c = false -> skip_ws (c :: t) = c :: t.
Proof. intros Hc. cbn. by rewrite Hc. Qed.

Lemma skip_ws_space_start (c : codepoint) (t : pystr) :
  is_ws c = false -> skip_ws (0x20 :: c :: t) = c :: t.
Proof. intros Hc. change (skip_ws (c :: t) = c :: t). by apply skip_ws_start. Qed.

Lemma parse_value_string n s rest :
  valid_str s ->
  parse_value (S n) (encode_basestring_ascii s ++ rest) = Some (JStr (merge_pairs s), rest).
Proof.
  intros Hs. unfold encode_basestring_ascii. rewrite <- !app_assoc.
  cbn [app parse_value]. rewrite N.eqb_refl.
  by rewrite parse_string_encode.
Qed.

Lemma parse_value_number n tok rest :
  json_number tok = true -> stop rest = true ->
  parse_value (S n) (tok ++ rest) = Some (JNum tok, rest).
Proof.
  intros Ht Hr. pose proof (json_number_app _ _ Ht Hr) as Hs.
  destruct (scan_number_start _ _ Hs) as (c & t & Hc & Hd).
  rewrite Hc in *. cbn [parse_value]. rewrite Hs.
  unfold is_digit, minus, quote, lbracket, lbrace in *. char_cases.
Qed.

Lemma parse_value_array_cons n (c : codepoint) (t : pystr) :
  is_ws c = false -> (c =? rbracket) = false ->
  parse_value (S n) (lbracket :: c :: t) = r ← parse_elements n (c :: t); Some (JArr r.1, r.2).
Proof.
  intros Hw Hc. cbn [parse_value]. rewrite skip_ws_start by done. by rewrite Hc.
Qed.

Lemma parse_value_object_cons n t :
  parse_value (S n) (lbrace :: quote :: t) = r ← parse_members n (quote :: t); Some (JObj r.1, r.2).
Proof. reflexivity. Qed.

Lemma parse_elements_fail n s : parse_value n s = None -> parse_elements (S n) s = None.
Proof. intros Hv. cbn [parse_elements]. by rewrite Hv. Qed.

Lemma parse_elements_last n s v rest :
  parse_value n s = Some (v, rbracket :: rest) -> parse_elements (S n) s = Some ([v], rest).
Proof. intros Hv. cbn [parse_elements]. by rewrite Hv. Qed.

Lemma parse_elements_more n s v (c : codepoint) (t : pystr) :
  parse_value n s = Some (v, comma :: 0x20 :: c :: t) -> is_ws c = false ->
  parse_elements (S n) s = vs ← parse_elements n (c :: t); Some (v :: vs.1, vs.2).
Proof.
  intros Hv Hc. cbn [parse_elements]. rewrite Hv. cbn [mbind option_bind fst snd].
  by rewrite (skip_ws_start comma), N.eqb_refl, skip_ws_space_start.
Qed.

(** One member of an object: the key, the colon, the value. *)
Lemma parse_member n t k (c : codepoint) (r : pystr) :
  parse_string t = Some (k, colon :: 0x20 :: c :: r) -> is_ws c = false ->
  parse_members (S n) (quote :: t) =
    v ← parse_value n (c :: r);
    match skip_ws v.2 with
    | [] => None
    | c' :: r2 =>
        if c' =? comma then
          ms ← parse_members n (skip_ws r2); Some ((k, v.1) :: ms.1, ms.2)
        else if c' =? rbrace then Some ([(k, v.1)], r2)
        else None
    end.
Proof.
  intros Hk Hc. cbn [parse_members]. rewrite N.eqb_refl, Hk.
  cbn [mbind option_bind fst snd].
  by rewrite (skip_ws_start colon), N.eqb_refl, skip_ws_space_start.
Qed.

Section Decode.
Context {P : Type} `{FloatJsonLaws P}.

Lemma floatstr_finite (x : P) : float_finite x = true -> floatstr x = float_repr x.
Proof.
  unfold float_finite, floatstr. intros Hx%negb_true_iff.
  apply orb_false_iff in Hx as [[-> ->]%orb_false_iff ->]. reflexivity.
Qed.

(** The text of a float that is not finite is one of three words. *)
Lemma floatstr_nonfinite (x : P) :
  float_finite x = false ->
  floatstr x = py "NaN" \/ floatstr x = py "Infinity" \/ floatstr x = py "-Infinity".
Proof.
  unfold float_finite, floatstr. intros Hx%negb_false_iff.
  destruct (float_is_nan x), (float_is_posinf x), (float_is_neginf x); auto; done.
Qed.

(** None of them is a JSON value. *)
Lemma parse_value_nonfinite fuel (x : P) rest :
  float_finite x = false -> parse_value fuel (floatstr x ++ rest) = None.
Proof.
  intros [->|[->| ->]]%floatstr_nonfinite; by destruct fuel.
Qed.

(** The first character of the text of a value is neither white space nor
    a closing bracket. *)
Lemma dumps_head (v : pyval P) :
  exists c t, dumps v = c :: t /\ is_ws c = false /\ (c =? rbracket) = false.
Proof.
  destruct v as [s|x|items|items]; cbn [dumps]; try by eexists _, _.
  destruct (float_finite x) eqn:Hx.
  - rewrite floatstr_finite by done.
    apply float_repr_number, bool_decide_eq_true in Hx.
    destruct (scan_number_start _ _ Hx) as (c & t & -> & Hc).
    exists c, t. unfold is_ws, is_digit, minus, rbracket in *. split; [done|]. char_cases.
  - apply floatstr_nonfinite in Hx as [->|[->| ->]]; by eexists _, _.
Qed.

Lemma dumps_fuel (v : pyval P) fuel :
  (length (dumps v) <= fuel)%nat -> exists n, fuel = S n.
Proof.
  destruct (dumps_head v) as (c & t & -> & _). cbn. intros Hn.
  exists (pred fuel). lia.
Qed.

Lemma join_head sep (x : pyval P) xs :
  exists c t, join sep (dumps <$> x :: xs) = c :: t /\
    is_ws c = false /\ (c =? rbracket) = false.
Proof.
  destruct (dumps_head x) as (c & t & Hx & Hc). cbn [fmap list_fmap join].
  rewrite Hx. destruct (dumps <$> xs); by eexists _, _.
Qed.

(** The text of two or more items. *)
Lemma join_fmap_cons {A} (f : A -> pystr) x y ys :
  join item_separator (f <$> x :: y :: ys) =
    f x ++ item_separator ++ join item_separator (f <$> y :: ys) /\
  length (join item_separator (f <$> x :: y :: ys)) =
    (length (f x) + 2 + length (join item_separator (f <$> y :: ys)))%nat.
Proof.
  split; [reflexivity|]. cbn [fmap list_fmap join]. rewrite !length_app.
  change (length item_separator) with 2%nat. lia.
Qed.

(** The elements of a non-empty array, up to the closing bracket. *)
Lemma parse_elements_join items :
  items <> [] -> Forall decodes items ->
  forall n rest,
    (length (join item_separator (dumps <$> items)) < n)%nat ->
    parse_elements n (join item_separator (dumps <$> items) ++ rbracket :: rest)
    = if forallb floats_finite items then Some (to_json <$> items, rest) else None.
Proof.
  induction items as [|x xs IH]; [done|].
  intros _ [Hx Hxs]%Forall_cons_1 n rest Hn.
  destruct n as [|n]; [lia|]. cbn [forallb]. destruct xs as [|y ys].
  - cbn [fmap list_fmap join forallb] in *. rewrite andb_true_r.
    specialize (Hx n (rbracket :: rest)). destruct (floats_finite x).
    + apply parse_elements_last, Hx; [lia|done].
    + apply parse_elements_fail, Hx; [lia|done].
  - destruct (join_fmap_cons dumps x y ys) as [Hj1 Hj2].
    rewrite Hj2 in Hn. rewrite Hj1, <- !app_assoc. clear Hj1 Hj2.
    destruct (join_head item_separator y ys) as (c & t & Hj & Hc & _).
    specialize (Hx n (item_separator ++ join item_separator (dumps <$> y :: ys)
                        ++ rbracket :: rest)).
    destruct (floats_finite x); cbn [andb].
    + rewrite (parse_elements_more n _ (to_json x) c (t ++ rbracket :: rest));
        [|rewrite app_comm_cons, <- Hj; apply Hx; [lia|done]|done].
      rewrite app_comm_cons, <- Hj, IH; [|done..|lia].
      by destruct (forallb _ _).
    + apply parse_elements_fail, Hx; [lia|done].
Qed.

Lemma parse_member_text n kv rest :
  member_ok kv -> (length (member_text kv) <= n)%nat -> stop rest = true ->
  parse_members (S n) (member_text kv ++ rest) =
    if floats_finite kv.2 then
      match skip_ws rest with
      | [] => None
      | c' :: r2 =>
          if c' =? comma then
            ms ← parse_members n (skip_ws r2);
            Some ((merge_pairs kv.1, to_json kv.2) :: ms.1, ms.2)
          else if c' =? rbrace then Some ([(merge_pairs kv.1, to_json kv.2)], r2)
          else None
      end
    else None.
Proof.
  destruct kv as [k v]. intros (Hk & Hd) Hn Hr. cbn [fst snd] in *.
  destruct (dumps_head v) as (c & t & Hs & Hc & _).
  unfold member_text, encode_basestring_ascii in *. cbn [fst snd] in *.
  rewrite !length_app in Hn. rewrite <- !app_assoc. cbn [app].
  rewrite (parse_member n _ (merge_pairs k) c (t ++ rest));
    [|rewrite Hs; by apply parse_string_encode|done].
  rewrite app_comm_cons, <- Hs, Hd by (done || lia).
  by destruct (floats_finite v).
Qed.

Lemma parse_member_last n kv rest :
  member_ok kv -> (length (member_text kv) <= n)%nat ->
  parse_members (S n) (member_text kv ++ rbrace :: rest) =
    if floats_finite kv.2 then Some ([(merge_pairs kv.1, to_json kv.2)], rest) else None.
Proof. intros Hkv Hn. by rewrite parse_member_text. Qed.

Lemma parse_member_more n kv t :
  member_ok kv -> (length (member_text kv) <= n)%nat ->
  parse_members (S n) (member_text kv ++ item_separator ++ quote :: t) =
    if floats_finite kv.2 then
      ms ← parse_members n (quote :: t);
      Some ((merge_pairs kv.1, to_json kv.2) :: ms.1, ms.2)
    else None.
Proof. intros Hkv Hn. by rewrite parse_member_text. Qed.

Lemma join_member_head sep kv kvs :
  exists t, join sep (member_text <$> kv :: kvs) = quote :: t.
Proof. cbn [fmap list_fmap join]. destruct (member_text <$> kvs); by eexists. Qed.

(** The members of a non-empty object, up to the closing brace. *)
Lemma parse_members_join items :
  items <> [] -> Forall member_ok items ->
  forall n rest,
    (length (join item_separator (member_text <$> items)) < n)%nat ->
    parse_members n (join item_separator (member_text <$> items) ++ rbrace :: rest)
    = if forallb (fun kv => floats_finite kv.2) items
      then Some ((fun kv => (merge_pairs kv.1, to_json kv.2)) <$> items, rest)
      else None.
Proof.
  induction items as [|x xs IH]; [done|].
  intros _ [Hx Hxs]%Forall_cons_1 n rest Hn.
  destruct n as [|n]; [lia|]. cbn [forallb]. destruct xs as [|y ys].
  - cbn [fmap list_fmap join forallb] in *.
    by rewrite parse_member_last, andb_true_r by (done || lia).
  - destruct (join_fmap_cons member_text x y ys) as [Hj1 Hj2].
    rewrite Hj2 in Hn. rewrite Hj1, <- !app_assoc. clear Hj1 Hj2.
    destruct (join_member_head item_separator y ys) as (t & Hj).
    rewrite Hj. cbn [app]. rewrite parse_member_more by (done || lia).
    destruct (floats_finite x.2); [|done].
    rewrite app_comm_cons, <- Hj, IH; [|done..|lia].
    by destruct (forallb _ _).
Qed.

Lemma dumps_list (items : list (pyval P)) :
  dumps (VList items) = lbracket :: join item_separator (dumps <$> items) ++ [rbracket].
Proof. reflexivity. Qed.

Lemma dumps_dict (items : list (pystr * pyval P)) :
  dumps (VDict items) = lbrace :: join item_separator (member_text <$> items) ++ [rbrace].
Proof. reflexivity. Qed.

Lemma members_ok items :
  forallb (fun kv : pystr * pyval P => bool_decide (valid_str kv.1) && strings_valid kv.2)
    items = true ->
  Forall (fun kv => strings_valid kv.2 = true -> decodes kv.2) items ->
  Forall member_ok items.
Proof.
  induction items as [|[k v] items IH]; [constructor|]. cbn [forallb fst snd].
  intros [[Hk%bool_decide_eq_true Hv]%andb_true_iff Hl]%andb_true_iff [Hd Hdl]%Forall_cons_1.
  constructor; [by split; auto|auto].
Qed.

(** The decoder follows the encoder through every value with valid
    strings. *)
Lemma strings_valid_decodes (v : pyval P) : strings_valid v = true -> decodes v.
Proof.
  induction v as [s|x|items IH|items IH] using pyval_ind;
    intros Hv fuel rest Hn Hr; destruct (dumps_fuel _ _ Hn) as [n ->];
    cbn [strings_valid floats_finite] in *.
  - apply bool_decide_eq_true in Hv. by apply parse_value_string.
  - cbn [dumps]. destruct (float_finite x) eqn:Hx; [|by apply parse_value_nonfinite].
    rewrite floatstr_finite by done.
    apply parse_value_number; [by apply float_repr_number|done].
  - rewrite dumps_list in *. destruct items as [|x xs]; [done|].
    pose proof (forallb_Forall_and _ _ _ Hv IH) as Hall.
    apply (list.Forall_impl _ decodes) in Hall; [|by intros ? []].
    destruct (join_head item_separator x xs) as (c & t & Hj & Hw & Hc).
    cbn [length] in Hn. rewrite length_app in Hn. cbn [length] in Hn.
    rewrite <- app_comm_cons, <- app_assoc, Hj. cbn [app].
    rewrite parse_value_array_cons by done.
    rewrite app_comm_cons, <- Hj, parse_elements_join; [|done..|lia].
    by destruct (forallb floats_finite _).
  - rewrite dumps_dict in *. destruct items as [|x xs]; [done|].
    pose proof (members_ok _ Hv IH) as Hall.
    destruct (join_member_head item_separator x xs) as (t & Hj).
    cbn [length] in Hn. rewrite length_app in Hn. cbn [length] in Hn.
    rewrite <- app_comm_cons, <- app_assoc, Hj. cbn [app].
    rewrite parse_value_object_cons.
    rewrite app_comm_cons, <- Hj, parse_members_join; [|done..|lia].
    by destruct (forallb (fun kv => floats_finite kv.2) _).
Qed.

(** What [loads] makes of the text of a value with valid strings. *)
Lemma loads_dumps_spec (v : pyval P) :
  strings_valid v = true ->
  loads (dumps v) = if floats_finite v then Some (to_json v) else None.
Proof.
  intros Hv. unfold loads.
  destruct (dumps_head v) as (c & t & Hs & Hc & _).
  rewrite Hs at 2. rewrite skip_ws_start, <- Hs by done.
  rewrite <- (app_nil_r (dumps v)) at 2.
  rewrite (strings_valid_decodes v Hv) by done.
  by destruct (floats_finite v).
Qed.

(** The same for a line: the text followed by a line break. *)
Lemma loads_dumps_line (v : pyval P) :
  strings_valid v = true ->
  loads (dumps v ++ [newline]) = if floats_finite v then Some (to_json v) else None.
Proof.
  intros Hv. unfold loads.
  destruct (dumps_head v) as (c & t & Hs & Hc & _).
  rewrite Hs at 2. cbn [app]. rewrite skip_ws_start, app_comm_cons, <- Hs by done.
  rewrite (strings_valid_decodes v Hv) by (rewrite ?length_app; cbn; done || lia).
  by destruct (floats_finite v).
Qed.

(** Without surrogate pairs the decoder returns the strings as they are. *)
Lemma to_json_plain (v : pyval P) :
  strings_valid v = true -> pairs_free v = true -> to_json v = plain v.
Proof.
  unfold to_json, plain.
  induction v as [s|x|items IH|items IH] using pyval_ind;
    cbn [strings_valid pairs_free to_json_with]; intros Hv Hp.
  - by rewrite merge_pairs_id.
  - done.
  - f_equal. apply Forall_fmap_ext.
    induction items as [|w items IHi]; [constructor|]. cbn [forallb] in *.
    apply andb_true_iff in Hv as [Hw Hv]. apply andb_true_iff in Hp as [Hwp Hp].
    apply Forall_cons_1 in IH as [IHw IH]. constructor; [by apply IHw|by apply IHi].
  - f_equal. apply Forall_fmap_ext.
    induction items as [|[k w] items IHi]; [constructor|].
    cbn [forallb fst snd] in *.
    apply andb_true_iff in Hv as [[Hk%bool_decide_eq_true Hw]%andb_true_iff Hv].
    apply andb_true_iff in Hp as [[Hkp Hwp]%andb_true_iff Hp].
    apply Forall_cons_1 in IH as [IHw IH].
    constructor; [|by apply IHi]. cbn [fst snd] in *.
    by rewrite merge_pairs_id, IHw.
Qed.

(** ** [loads] after [dumps] *)

(** C8: the text [json.dumps] writes for a value whose strings hold valid
    code points and whose floats are finite is accepted by the JSON decoder,
    which returns the value: the same structure, each string with its
    surrogate pairs merged, each float as the number token of its text. *)
Theorem loads_dumps (v : pyval P) :
  strings_valid v = true -> floats_finite v = true ->
  loads (dumps v) = Some (to_json v).
Proof. intros Hv Hf. by rewrite loads_dumps_spec, Hf. Qed.

(** C29: when in addition no string holds a high surrogate directly followed
    by a low one, decoding returns every string exactly as it was. *)
Theorem loads_dumps_exact (v : pyval P) :
  strings_valid v = true -> floats_finite v = true -> pairs_free v = true ->
  loads (dumps v) = Some (plain v).
Proof. intros Hv Hf Hp. by rewrite loads_dumps_spec, Hf, to_json_plain. Qed.

(** C28: the text of a value that holds a NaN or an infinity anywhere is
    refused by the JSON decoder: [json.dumps] writes the words [NaN],
    [Infinity] and [-Infinity], which the JSON grammar does not have. *)
Theorem loads_dumps_nonfinite (v : pyval P) :
  strings_valid v = true -> floats_finite v = false -> loads (dumps v) = None.
Proof. intros Hv Hf. by rewrite loads_dumps_spec, Hf. Qed.

End Decode.
