(* ===== verification/JsonFloat.v ===== *)
(** * The text of a float is a JSON number that rounds back

    [float.__repr__] has four layouts (exponent notation, a leading [0.],
    trailing zeros with [.0], and a decimal point inside the digits).  This
    file shows that each of them, with or without a sign, is a token of the
    JSON number grammar of [JsonDecode], for every finite binary64 value
    (the instance [b64_float_json_laws] that the decoding theorems need),
    and that the decimal the token denotes ([number_value]) lies in the
    interval of reals that a round-to-nearest-even reader maps back to the
    value, has as few significant digits as any decimal of that interval
    and is a nearest one among those; and it holds the witnesses of the
    round trip theorems of [JsonDecode], which need that instance. *)

From Stdlib Require Import Reals ZArith NArith Lia Lra DecimalFacts DecimalPos DecimalN.
From Stdlib Require Import Floats.SpecFloat String.
From stdpp Require Import base tactics list option.
From S2P Require Import Prelude PyStr Scalar PyFloat PyFloatSpec Json JsonDecode.

Local Open Scope N_scope.

(** ** The parts of a number *)

(** A text at whose start a run of digits ends. *)
Definition digit_stop (s : pystr) : bool :=
  match s with
  | [] => true
  | c :: _ => negb (is_digit c)
  end.

Definition digits (ds : pystr) : Prop := Forall (fun c => is_digit c = true) ds.

(** The three parts of a number after its sign. *)
Definition int_ok (ip : pystr) : Prop := ip = [48] \/ digit_string ip.
Definition frac_ok (fr : pystr) : Prop :=
  fr = [] \/ exists fp, fr = dot :: fp /\ fp <> [] /\ digits fp.
Definition exp_ok (ex : pystr) : Prop :=
  ex = [] \/ exists g ds, ex = 0x65 :: g :: ds /\ is_sign g = true /\ ds <> [] /\ digits ds.
Definition sign_ok (sg : pystr) : Prop := sg = [] \/ sg = [minus].

(** ** The decimal a number token denotes *)

Local Open Scope Z_scope.

Definition digit_val (c : codepoint) : Z := Z.of_N c - 48.

Definition digits_acc (acc : Z) (ds : pystr) : Z :=
  foldl (fun a c => 10 * a + digit_val c) acc ds.

(** The integer written by a string of digits. *)
Definition digits_value (ds : pystr) : Z := digits_acc 0 ds.

(** The integer written by an exponent part [e], sign, digits. *)
Definition exp_value (ex : pystr) : Z :=
  match ex with
  | _ :: g :: ds =>
      if (g =? minus)%N then - digits_value ds
      else if (g =? plus)%N then digits_value ds
      else digits_value (g :: ds)
  | _ => 0
  end.

(** A number token denotes [(-1)^s * d * 10^q]: the sign, the digits of the
    integer part and of the fraction read as one integer, and the exponent
    less the number of fraction digits. *)
Definition number_value (tok : pystr) : option (bool * Z * Z) :=
  let sg := scan_sign tok in
  i ← scan_int sg.2;
  let f := scan_frac i.2 in
  let x := scan_exp f.2 in
  if bool_decide (x.2 = []) then
    Some (bool_decide (sg.1 <> []),
          digits_value (i.1 ++ drop 1 f.1),
          exp_value x.1 - Z.of_nat (length (drop 1 f.1)))
  else None.

(** The integer part, the fraction and the exponent of [format_repr]. *)
Definition repr_layout (ds : pystr) (decpt : Z) : pystr * pystr * pystr :=
  let n := Z.of_nat (length ds) in
  if (decpt <=? -4) || (16 <? decpt) then
    (take 1 ds, if 1 <? n then py "." ++ drop 1 ds else [],
     py "e" ++ exp_digits (decpt - 1))
  else if decpt <=? 0 then (py "0", py "." ++ zeros (- decpt) ++ ds, [])
  else if n <=? decpt then (ds ++ zeros (decpt - n), py ".0", [])
  else (take (Z.to_nat decpt) ds, py "." ++ drop (Z.to_nat decpt) ds, []).

(** A token from which a reader that rounds to nearest, ties to even, gets
    the float [x] back: the sign of [x], and a decimal that is zero for a
    zero and lies in the rounding interval of [m * 2^e] otherwise. *)
Definition reads_back (x : binary64) (tok : pystr) : Prop :=
  match x with
  | S754_zero s => exists q, number_value tok = Some (s, 0, q)
  | S754_finite s m e =>
      exists d q, number_value tok = Some (s, d, q) /\
        rounds_to (Z.pos m) e (boundary_of (Z.pos m) e) (dval d q)
  | _ => False
  end.

(** ** Scanning the parts *)

Local Open Scope N_scope.

Lemma digits_prefix_digits ds rest :
  digits ds -> digit_stop rest = true -> digits_prefix (ds ++ rest) = (ds, rest).
Proof.
  intros Hds Hr. induction Hds as [|c ds Hc _ IH]; cbn [app digits_prefix].
  - destruct rest as [|c rest]; [done|]. cbn in *. by destruct (is_digit c).
  - by rewrite Hc, IH.
Qed.

Lemma frac_ok_stop fr ex : frac_ok fr -> exp_ok ex -> digit_stop (fr ++ ex) = true.
Proof. intros [->|(fp & -> & _)] [->|(g & ds & -> & _)]; done. Qed.

Lemma exp_ok_stop ex : exp_ok ex -> digit_stop ex = true.
Proof. by intros [->|(g & ds & -> & _)]. Qed.

Lemma scan_int_ok ip rest :
  int_ok ip -> digit_stop rest = true -> scan_int (ip ++ rest) = Some (ip, rest).
Proof.
  intros [->|[Hd (c & t & -> & Hc)]] Hr; [done|].
  apply Forall_cons_1 in Hd as [Hd Ht]. cbn [app scan_int].
  rewrite (proj2 (N.eqb_neq c 48)), Hd by done.
  by rewrite digits_prefix_digits.
Qed.

Lemma scan_frac_ok fr ex :
  frac_ok fr -> exp_ok ex -> scan_frac (fr ++ ex) = (fr, ex).
Proof.
  intros [->|(fp & -> & Hn & Hd)] Hex.
  - by destruct Hex as [->|(g & ds & -> & _)].
  - cbn [app scan_frac].
    rewrite N.eqb_refl, digits_prefix_digits by (done || by apply exp_ok_stop).
    by destruct fp.
Qed.

Lemma scan_exp_ok ex : exp_ok ex -> scan_exp ex = (ex, []).
Proof.
  intros [->|(g & ds & -> & Hg & Hn & Hd)]; [done|]. cbn [scan_exp].
  change (is_e 101) with true. cbv iota. rewrite Hg.
  rewrite <- (app_nil_r ds) at 1. rewrite digits_prefix_digits by done.
  by destruct ds.
Qed.

Lemma int_ok_head ip : int_ok ip -> exists c t, ip = c :: t /\ (c =? minus) = false.
Proof.
  intros [->|[Hd (c & t & -> & Hc)]]; [by eexists _, _|].
  apply Forall_cons_1 in Hd as [Hd _]. exists c, t. split; [done|].
  unfold is_digit, minus in *. char_cases.
Qed.

Local Open Scope Z_scope.

Lemma scan_sign_ok sg ip rest :
  sign_ok sg -> int_ok ip -> scan_sign (sg ++ ip ++ rest) = (sg, ip ++ rest).
Proof.
  intros [-> | ->] Hip; [|done].
  destruct (int_ok_head ip Hip) as (c & t & -> & Hc). cbn. by rewrite Hc.
Qed.

(** A sign, an integer part, a fraction and an exponent make a number. *)
Lemma json_number_parts sg ip fr ex :
  sign_ok sg -> int_ok ip -> frac_ok fr -> exp_ok ex ->
  json_number (sg ++ ip ++ fr ++ ex) = true.
Proof.
  intros Hsg Hip Hfr Hex. apply bool_decide_eq_true. unfold scan_number.
  rewrite scan_sign_ok by done. cbn [fst snd].
  rewrite scan_int_ok by (done || by apply frac_ok_stop).
  cbn [mbind option_bind fst snd]. rewrite scan_frac_ok by done. cbn [fst snd].
  by rewrite scan_exp_ok.
Qed.

(** The value of a number given by its parts. *)
Lemma number_value_parts sg ip fr ex :
  sign_ok sg -> int_ok ip -> frac_ok fr -> exp_ok ex ->
  number_value (sg ++ ip ++ fr ++ ex) =
    Some (bool_decide (sg <> []), digits_value (ip ++ drop 1 fr),
          exp_value ex - Z.of_nat (length (drop 1 fr))).
Proof.
  intros Hsg Hip Hfr Hex. unfold number_value.
  rewrite scan_sign_ok by done. cbn [fst snd].
  rewrite scan_int_ok by (done || by apply frac_ok_stop).
  cbn [mbind option_bind fst snd]. rewrite scan_frac_ok by done. cbn [fst snd].
  by rewrite scan_exp_ok.
Qed.

(** ** Digit strings and their value *)

Lemma digits_zeros k : digits (zeros k).
Proof. by apply Forall_replicate. Qed.

Lemma Z_digits_digits z : digits (Z_digits z).
Proof. apply uint_digits_digits. Qed.

Lemma Z_digits_nonempty z : Z_digits z <> [].
Proof.
  unfold Z_digits. destruct (Z.to_N z) as [|p]; [done|].
  change (N.to_uint (N.pos p)) with (Pos.to_uint p).
  pose proof (Unsigned.to_uint_nonnil p). by destruct (Pos.to_uint p).
Qed.

Lemma digit_string_digits ds : digit_string ds -> digits ds /\ ds <> [].
Proof. by intros [Hd (c & t & -> & _)]. Qed.

Lemma digit_string_app ds t : digit_string ds -> digits t -> digit_string (ds ++ t).
Proof.
  intros [Hd (c & u & -> & Hc)] Ht. split; [by apply Forall_app|].
  by exists c, (u ++ t).
Qed.

Lemma digit_string_take k ds : (0 < k)%nat -> digit_string ds -> digit_string (take k ds).
Proof.
  intros Hk [Hd (c & u & -> & Hc)]. split; [by apply Forall_take|].
  destruct k; [lia|]. by exists c, (take k u).
Qed.

Lemma exp_digits_ok x : exp_ok (py "e" ++ exp_digits x).
Proof.
  right. unfold exp_digits.
  pose proof (Z_digits_digits (Z.abs x)). pose proof (Z_digits_nonempty (Z.abs x)).
  destruct (x <? 0); eexists _, _; (split; [reflexivity|]); (split; [done|]);
    destruct (Z.abs x <? 10); split; try done; by constructor.
Qed.

Lemma digits_acc_app acc a b : digits_acc acc (a ++ b) = digits_acc (digits_acc acc a) b.
Proof. apply foldl_app. Qed.

Lemma digits_acc_shift acc ds :
  digits_acc acc ds = acc * 10 ^ Z.of_nat (length ds) + digits_value ds.
Proof.
  unfold digits_value. revert acc. induction ds as [|c ds IH]; intros acc.
  - cbn. lia.
  - cbn [digits_acc foldl length]. fold (digits_acc (10 * acc + digit_val c) ds).
    fold (digits_acc (10 * 0 + digit_val c) ds).
    rewrite IH, (IH (10 * 0 + digit_val c)), Nat2Z.inj_succ, Z.pow_succ_r by lia. lia.
Qed.

Lemma digits_value_app a b :
  digits_value (a ++ b) = digits_value a * 10 ^ Z.of_nat (length b) + digits_value b.
Proof. unfold digits_value at 1. by rewrite digits_acc_app, digits_acc_shift. Qed.

Lemma digits_value_zeros k : digits_value (zeros k) = 0.
Proof.
  unfold zeros, digits_value. induction (Z.to_nat k) as [|n IH]; [done|].
  cbn [replicate digits_acc foldl]. exact IH.
Qed.

Lemma of_uint_acc_spec u acc :
  Z.pos (Pos.of_uint_acc u acc) = digits_acc (Z.pos acc) (uint_digits u).
Proof.
  revert acc. induction u; intros acc; cbn [Pos.of_uint_acc uint_digits digits_acc foldl];
    [done|..]; fold (digits_acc); rewrite IHu; f_equal; unfold digit_val, digit_char; lia.
Qed.

Lemma of_uint_spec u : Z.of_N (Pos.of_uint u) = digits_value (uint_digits u).
Proof.
  unfold digits_value.
  induction u; cbn [Pos.of_uint uint_digits digits_acc foldl]; [done|exact IHu|..];
    cbn [Z.of_N]; rewrite of_uint_acc_spec; f_equal.
Qed.

Lemma digits_value_Z_digits z : 0 <= z -> digits_value (Z_digits z) = z.
Proof.
  intros Hz. unfold Z_digits.
  rewrite <- of_uint_spec. change (Pos.of_uint ?u) with (N.of_uint u).
  rewrite DecimalN.Unsigned.of_to. lia.
Qed.

(** ** The layouts of [float.__repr__] *)

Lemma format_repr_layout ds decpt :
  format_repr ds decpt =
    (repr_layout ds decpt).1.1 ++ (repr_layout ds decpt).1.2 ++ (repr_layout ds decpt).2.
Proof.
  unfold format_repr, repr_layout. repeat case_match; cbn [fst snd];
    rewrite ?app_nil_r, <- ?app_assoc; reflexivity.
Qed.

Lemma digits_value_zero_head ds : digits_value (48%N :: ds) = digits_value ds.
Proof. reflexivity. Qed.

Lemma exp_value_digits x : exp_value (py "e" ++ exp_digits x) = x.
Proof.
  unfold exp_digits.
  assert (digits_value (if Z.abs x <? 10 then digit_char 0 :: Z_digits (Z.abs x)
                        else Z_digits (Z.abs x)) = Z.abs x) as Hd.
  { destruct (Z.abs x <? 10); rewrite ?digits_value_zero_head;
      apply digits_value_Z_digits; lia. }
  change (py "e") with [101%N]. change (py "-") with [minus]. change (py "+") with [plus].
  destruct (Z.ltb_spec x 0); cbn [app exp_value];
    rewrite ?N.eqb_refl; change (plus =? minus)%N with false; cbv iota.
  - transitivity (- Z.abs x); [f_equal; exact Hd|lia].
  - transitivity (Z.abs x); [exact Hd|lia].
Qed.

Lemma length_zeros k : length (zeros k) = Z.to_nat k.
Proof. apply length_replicate. Qed.

(** Each layout denotes the digits scaled by the decimal point position. *)
Lemma repr_layout_value ds decpt :
  ds <> [] ->
  let '(ip, fr, ex) := repr_layout ds decpt in
  dval (digits_value (ip ++ drop 1 fr)) (exp_value ex - Z.of_nat (length (drop 1 fr)))
  = dval (digits_value ds) (decpt - Z.of_nat (length ds)).
Proof.
  intros Hn. unfold repr_layout.
  change (py ".") with [46%N]. change (py ".0") with [46%N; 48%N].
  change (py "0") with [48%N].
  destruct ((decpt <=? -4) || (16 <? decpt)); [|destruct (Z.leb_spec decpt 0);
    [|destruct (Z.leb_spec (Z.of_nat (length ds)) decpt)]].
  - rewrite exp_value_digits. destruct (Z.ltb_spec 1 (Z.of_nat (length ds))).
    + cbn [app drop]. rewrite ?drop_0, take_drop, length_drop. f_equal. lia.
    + cbn [drop length]. rewrite app_nil_r.
      destruct ds as [|c [|c' ds]]; [done| |cbn in *; lia].
      cbn [take length]. f_equal. lia.
  - cbn [app drop exp_value]. rewrite ?drop_0, digits_value_zero_head, digits_value_app.
    rewrite digits_value_zeros, length_app, length_zeros. cbn [Z.mul Z.add].
    f_equal. lia.
  - cbn [app drop exp_value length]. rewrite ?drop_0, !digits_value_app, digits_value_zeros.
    rewrite length_zeros. cbn [length]. change (digits_value [48%N]) with 0.
    rewrite !Z.add_0_r, <- Z.mul_assoc, <- Z.pow_add_r, dval_shift by lia.
    f_equal. lia.
  - cbn [app drop exp_value]. rewrite ?drop_0, take_drop, length_drop. f_equal. lia.
Qed.

Lemma repr_layout_ok ds decpt :
  digit_string ds ->
  int_ok (repr_layout ds decpt).1.1 /\ frac_ok (repr_layout ds decpt).1.2 /\
  exp_ok (repr_layout ds decpt).2.
Proof.
  intros Hds. destruct (digit_string_digits ds Hds) as [Hd Hn]. unfold repr_layout.
  destruct ((decpt <=? -4) || (16 <? decpt)); [|destruct (Z.leb_spec decpt 0);
    [|destruct (Z.leb_spec (Z.of_nat (length ds)) decpt)]]; cbn [fst snd].
  - split; [right; apply digit_string_take; [lia|done]|].
    split; [|apply exp_digits_ok].
    destruct (Z.ltb_spec 1 (Z.of_nat (length ds))); [|by left].
    right. exists (drop 1 ds). split; [done|]. split; [|by apply Forall_drop].
    intros Hnil%(f_equal length). rewrite length_drop in Hnil. cbn in Hnil. lia.
  - split; [by left|]. split; [|by left].
    right. eexists. split; [reflexivity|].
    split; [|by apply Forall_app; split; [apply digits_zeros|]].
    by destruct (zeros (- decpt)), ds.
  - split; [right; apply digit_string_app; [done|apply digits_zeros]|].
    split; [|by left]. right. exists [48%N]. by repeat constructor.
  - split; [right; apply digit_string_take; [lia|done]|]. split; [|by left].
    right. eexists. split; [reflexivity|]. split; [|by apply Forall_drop].
    intros Hnil%(f_equal length). rewrite length_drop in Hnil. cbn in Hnil. lia.
Qed.

Lemma sign_str_ok s : sign_ok (sign_str s).
Proof. destruct s; [by right|by left]. Qed.

Lemma dtoa_digit_string m e : digit_string (dtoa m e).1.
Proof.
  unfold dtoa. pose proof (shortest_decimal_pos (Z.pos m) e ltac:(lia)) as Hpos.
  destruct (shortest_decimal _ _) as [d q]. by apply Z_digits_pos.
Qed.

(** The token written for digits [ds] and decimal point position [decpt]
    after the sign [s] denotes [ds * 10^(decpt - length ds)]. *)
Lemma format_repr_value s ds decpt :
  digit_string ds ->
  exists d q, number_value (sign_str s ++ format_repr ds decpt) = Some (s, d, q) /\
    dval d q = dval (digits_value ds) (decpt - Z.of_nat (length ds)).
Proof.
  intros Hds. destruct (repr_layout_ok ds decpt Hds) as (Hip & Hfr & Hex).
  pose proof (repr_layout_value ds decpt (proj2 (digit_string_digits ds Hds))) as Hv.
  rewrite format_repr_layout. destruct (repr_layout ds decpt) as [[ip fr] ex].
  cbn [fst snd] in *. eexists _, _. split; [|exact Hv].
  rewrite number_value_parts by (done || apply sign_str_ok). by destruct s.
Qed.

(** Every layout is a number. *)
Lemma format_repr_number s ds decpt :
  digit_string ds -> json_number (sign_str s ++ format_repr ds decpt) = true.
Proof.
  intros Hds. destruct (repr_layout_ok ds decpt Hds) as (Hip & Hfr & Hex).
  rewrite format_repr_layout. by apply json_number_parts; [apply sign_str_ok|..].
Qed.

(** The text of a finite binary64 value is a JSON number. *)
Lemma b64_repr_number (x : binary64) :
  float_finite x = true -> json_number (b64_repr x) = true.
Proof.
  destruct x as [s|s| |s m e]; try done; intros Hx; cbn [b64_repr].
  - by destruct s.
  - by destruct s.
  - pose proof (dtoa_digit_string m e) as Hds. destruct (dtoa m e) as [ds decpt].
    by apply format_repr_number.
Qed.

#[export] Instance b64_float_json_laws : FloatJsonLaws binary64.
Proof. constructor. apply b64_repr_number. Qed.

(** ** The value of the text *)

(** The mantissa of a binary64 value has at most 53 bits. *)
Lemma digits2_pos_spec m : (Z.pos m < 2 ^ Z.pos (digits2_pos m))%Z.
Proof.
  induction m as [m IH|m IH|]; cbn [digits2_pos]; [| |done];
    rewrite Pos2Z.inj_succ, Z.pow_succ_r by lia; lia.
Qed.

Lemma valid_b64_mantissa s m e :
  valid_binary prec64 emax64 (S754_finite s m e) = true -> (0 < Z.pos m < 2 ^ 53)%Z.
Proof.
  cbn [valid_binary]. unfold bounded, canonical_mantissa, fexp, emin, prec64, emax64.
  intros [Hc _]%andb_true_iff. apply Z.eqb_eq in Hc. split; [lia|].
  pose proof (digits2_pos_spec m).
  assert (Z.pos (digits2_pos m) <= 53)%Z by lia.
  eapply Z.lt_le_trans; [eassumption|]. apply Z.pow_le_mono_r; lia.
Qed.

(** The text of a finite binary64 value denotes a decimal that a
    round-to-nearest-even reader maps back to the value. *)
Lemma b64_repr_rounds s m e :
  valid_binary prec64 emax64 (S754_finite s m e) = true ->
  exists d q, number_value (b64_repr (S754_finite s m e)) = Some (s, d, q) /\
    rounds_to (Z.pos m) e (boundary_of (Z.pos m) e) (dval d q).
Proof.
  intros Hm%valid_b64_mantissa. cbn [b64_repr]. unfold dtoa.
  pose proof (shortest_decimal_rounds (Z.pos m) e Hm) as Hr.
  pose proof (shortest_decimal_pos (Z.pos m) e ltac:(lia)) as Hpos.
  destruct (shortest_decimal (Z.pos m) e) as [d0 q0]. cbn [fst snd] in *.
  destruct (format_repr_value s (Z_digits d0) (Z.of_nat (length (Z_digits d0)) + q0)
              (Z_digits_pos d0 Hpos)) as (d & q & Hnv & Hv).
  exists d, q. split; [done|]. rewrite Hv, digits_value_Z_digits by lia.
  by replace (Z.of_nat (length (Z_digits d0)) + q0 - Z.of_nat (length (Z_digits d0)))%Z
    with q0 by lia.
Qed.

(** The decimal the text denotes is the one [shortest_decimal] found. *)
Lemma b64_repr_decimal s m e :
  exists d q, number_value (b64_repr (S754_finite s m e)) = Some (s, d, q) /\
    dval d q = dval (shortest_decimal (Z.pos m) e).1 (shortest_decimal (Z.pos m) e).2.
Proof.
  cbn [b64_repr]. unfold dtoa.
  pose proof (shortest_decimal_pos (Z.pos m) e ltac:(lia)) as Hpos.
  destruct (shortest_decimal (Z.pos m) e) as [d0 q0]. cbn [fst snd] in *.
  destruct (format_repr_value s (Z_digits d0) (Z.of_nat (length (Z_digits d0)) + q0)
              (Z_digits_pos d0 Hpos)) as (d & q & Hnv & Hv).
  exists d, q. split; [done|]. rewrite Hv, digits_value_Z_digits by lia.
  by replace (Z.of_nat (length (Z_digits d0)) + q0 - Z.of_nat (length (Z_digits d0)))%Z
    with q0 by lia.
Qed.

(** The text of a finite binary64 value denotes a decimal. *)
Lemma b64_repr_value (x : binary64) :
  float_finite x = true -> is_Some (number_value (b64_repr x)).
Proof.
  destruct x as [s|s| |s m e]; try done; intros Hx.
  - by destruct s.
  - by destruct s.
  - cbn [b64_repr]. pose proof (dtoa_digit_string m e) as Hds.
    destruct (dtoa m e) as [ds decpt].
    by destruct (format_repr_value s ds decpt Hds) as (d & q & -> & _).
Qed.

(** The text of a valid finite binary64 value reads back as the value. *)
Lemma b64_repr_reads_back (x : binary64) :
  float_finite x = true -> valid_binary prec64 emax64 x = true ->
  reads_back x (b64_repr x).
Proof.
  destruct x as [s|s| |s m e]; try done; intros Hf Hv.
  - exists (-1). by destruct s.
  - by destruct s.
  - by apply b64_repr_rounds.
Qed.

(** ** The number [dumps] writes *)

Local Open Scope N_scope.

(** C30: [json.dumps] writes every finite binary64 value, whatever its
    mantissa and exponent, as a token of the JSON number grammar, and that
    token denotes a decimal. *)
Theorem dumps_float_number (x : binary64) :
  float_finite x = true ->
  json_number (dumps (VFloat x)) = true /\ is_Some (number_value (dumps (VFloat x))).
Proof.
  intros Hx. cbn [dumps]. rewrite floatstr_finite by done.
  split; [by apply b64_repr_number|by apply b64_repr_value].
Qed.

(** C31: The number [json.dumps] writes for a finite binary64 value denotes a
    decimal [(-1)^s * d * 10^q] with the sign of the value whose magnitude
    lies in the interval of reals that round to nearest, ties to even, to
    [m * 2^e]: a reader that rounds correctly gets the float back. *)
Theorem dumps_float_rounds s m e :
  valid_binary prec64 emax64 (S754_finite s m e) = true ->
  exists d q,
    number_value (dumps (VFloat (S754_finite s m e : binary64))) = Some (s, d, q) /\
    rounds_to (Z.pos m) e (boundary_of (Z.pos m) e) (dval d q).
Proof.
  intros Hv. cbn [dumps]. rewrite floatstr_finite by done. by apply b64_repr_rounds.
Qed.

(** C32: the number [json.dumps] writes for a float is as short as can be:
    whenever a decimal of [j] significant digits rounds to nearest, ties to
    even, to [m * 2^e], the decimal written can itself be given with [j]
    digits. *)
Theorem dumps_float_shortest s m e d' q' j :
  (0 < d' < 10 ^ j)%Z ->
  rounds_to (Z.pos m) e (boundary_of (Z.pos m) e) (dval d' q') ->
  exists d q d0 q0,
    number_value (dumps (VFloat (S754_finite s m e : binary64))) = Some (s, d, q) /\
    dval d q = dval d0 q0 /\ (0 < d0 < 10 ^ j)%Z.
Proof.
  intros Hd Hr. cbn [dumps]. rewrite floatstr_finite by done.
  destruct (b64_repr_decimal s m e) as (d & q & Hnv & Hv).
  exists d, q, (shortest_decimal (Z.pos m) e).1, (shortest_decimal (Z.pos m) e).2.
  split; [done|]. split; [done|]. split; [by apply shortest_decimal_pos|].
  by apply (shortest_decimal_minimal _ _ d' q').
Qed.

(** C33: among the shortest decimals the number written is a nearest one:
    for every decimal [d'] of [k] significant digits that rounds to nearest,
    ties to even, to [m * 2^e], the decimal written either can be given with
    fewer than [k] digits or is at least as near to [m * 2^e] as [d'] is. *)
Theorem dumps_float_nearest s m e d' q' k :
  (0 < d' < 10 ^ k)%Z ->
  rounds_to (Z.pos m) e (boundary_of (Z.pos m) e) (dval d' q') ->
  exists d q,
    number_value (dumps (VFloat (S754_finite s m e : binary64))) = Some (s, d, q) /\
    ((exists d0 q0, dval d q = dval d0 q0 /\ (0 < d0 < 10 ^ (k - 1))%Z) \/
     (Rabs (dval d q - bval (Z.pos m) e) <= Rabs (dval d' q' - bval (Z.pos m) e))%R).
Proof.
  intros Hd Hr. cbn [dumps]. rewrite floatstr_finite by done.
  destruct (b64_repr_decimal s m e) as (d & q & Hnv & Hv).
  exists d, q. split; [done|]. rewrite Hv.
  destruct (Z.le_gt_cases (10 ^ (k - 1)) (shortest_decimal (Z.pos m) e).1) as [Hk|Hk].
  - right. by apply (shortest_decimal_nearest _ _ d' q' k).
  - left. exists (shortest_decimal (Z.pos m) e).1, (shortest_decimal (Z.pos m) e).2.
    split; [done|]. split; [by apply shortest_decimal_pos|done].
Qed.

(** One third is written with sixteen digits. *)
Example number_value_third :
  number_value (dumps (VFloat (b64_div (b64_of_Z 1) (b64_of_Z 3))))
  = Some (false, 3333333333333333%Z, (-16)%Z).
Proof. reflexivity. Qed.

(** A surrogate pair written as two code points comes back as one. *)
Example loads_merges_pair :
  loads (dumps (VStr [0xd83d; 0xde00] : pyval binary64)) = Some (JStr [0x1f600]).
Proof. reflexivity. Qed.

(** ** Witnesses *)

Lemma loads_dumps_witness :
  loads (dumps (VDict [(py "caption", VStr [0x0a; 0x22; 0xe9; 0x1f600; 0xdc80]);
                       (py "embedding",
                        VList [VFloat b64_zero;
                               VFloat (b64_div (b64_of_Z 1) (b64_of_Z 3))])]))
  = Some (JObj [(py "caption", JStr [0x0a; 0x22; 0xe9; 0x1f600; 0xdc80]);
                (py "embedding", JArr [JNum (py "0.0"); JNum (py "0.3333333333333333")])]).
Proof. by rewrite (loads_dumps (P:=binary64)). Defined.

Lemma loads_dumps_exact_witness :
  loads (dumps (VList [VStr (py "cat.png"); VFloat (b64_of_Z 1)]))
  = Some (JArr [JStr (py "cat.png"); JNum (py "1.0")]).
Proof. by rewrite (loads_dumps_exact (P:=binary64)). Defined.

Lemma loads_dumps_nonfinite_witness :
  loads (dumps (VList [VFloat b64_zero; VFloat (S754_infinity true)])) = None.
Proof. by rewrite (loads_dumps_nonfinite (P:=binary64)). Defined.

Lemma dumps_float_number_witness :
  json_number (dumps (VFloat (S754_finite true 9007199254740991 971))) = true /\
  is_Some (number_value (dumps (VFloat (S754_finite true 9007199254740991 971)))).
Proof. by apply dumps_float_number. Defined.

Lemma dumps_float_rounds_witness :
  exists d q,
    number_value (dumps (VFloat (S754_finite true 7205759403792794 (-56) : binary64)))
      = Some (true, d, q) /\
    rounds_to 7205759403792794 (-56) (boundary_of 7205759403792794 (-56)) (dval d q).
Proof. apply dumps_float_rounds. reflexivity. Defined.

Lemma dumps_float_shortest_witness :
  exists d q d0 q0,
    number_value (dumps (VFloat (S754_finite false 7205759403792794 (-56) : binary64)))
      = Some (false, d, q) /\
    dval d q = dval d0 q0 /\ (0 < d0 < 10 ^ 1)%Z.
Proof.
  apply (dumps_float_shortest false 7205759403792794 (-56) 1 (-1) 1); [lia|].
  apply in_interval_spec. reflexivity.
Defined.

Lemma dumps_float_nearest_witness :
  exists d q,
    number_value (dumps (VFloat (S754_finite false 1 (-1074) : binary64)))
      = Some (false, d, q) /\
    ((exists d0 q0, dval d q = dval d0 q0 /\ (0 < d0 < 10 ^ (1 - 1))%Z) \/
     (Rabs (dval d q - bval 1 (-1074)) <= Rabs (dval 4 (-324) - bval 1 (-1074)))%R).
Proof.
  apply (dumps_float_nearest false 1 (-1074) 4 (-324) 1); [lia|].
  apply in_interval_spec. vm_compute. reflexivity.
Defined.
