(* ===== verification/Process.v ===== *)
(** * [process_image] (lines 19-59)

    The function has three branches: the fallback when the import of
    [transformers] failed ([HAS_CLIP] false), the [try] block, and the
    handler of [except Exception].  The six library calls of the [try]
    block are the fields of the oracle [Libs]; their answers are arbitrary.
    [process_image] is a [traced] computation: it yields the library calls
    made, in order, and either the result document or the exception that
    left the function. *)

From Stdlib Require Import Reals Lra ZArith Lia String.
From Stdlib Require Import Floats.SpecFloat.
From stdpp Require Import base tactics list.
From S2P Require Import Prelude PyStr Scalar Tensor.

(** ** Definitions *)

(** One executed library call. *)
Inductive event : Type :=
  | EvLoadModel (model_name : pystr)
  | EvLoadProcessor (model_name : pystr)
  | EvOpen (image_path : pystr)
  | EvConvert (mode : pystr)
  | EvPreprocess
  | EvInfer.

#[export] Instance event_eq_dec : EqDecision event.
Proof. solve_decision. Defined.

(** Computations of the script: the calls made and a value or an
    exception. *)
Abbreviation proc := (traced event exn).

Section Process.
Context {F P : Type} `{Scalar F} `{PyNum F P}.
Context {Model Processor Image Inputs : Type}.

(** The library calls of the [try] block, lines 32-41. *)
Record Libs : Type := {
  CLIPModel_from_pretrained : pystr -> pyresult Model;
  CLIPProcessor_from_pretrained : pystr -> pyresult Processor;
  Image_open : pystr -> pyresult Image;
  Image_convert : Image -> pystr -> pyresult Image;
  processor_call : Processor -> Image -> pyresult Inputs;
  get_image_features : Model -> Inputs -> pyresult (tensor F);
}.

(** The dictionary [{"caption": ..., "embedding": ...}]. *)
Record result_doc : Type := {
  caption : pystr;
  embedding : list P;
}.

(** Line 31. *)
Definition model_name : pystr := py "openai/clip-vit-base-patch32".

(** [[0.0] * 512], lines 25 and 58. *)
Definition zero_embedding : list P := replicate 512 zero_float.

(** Lines 23-26. *)
Definition fallback_doc (image_path : pystr) : result_doc :=
  {| caption := py "Image: " ++ image_path; embedding := zero_embedding |}.

(** Lines 56-59. *)
Definition error_doc (e : exn) : result_doc :=
  {| caption := py "Error processing image: " ++ exn_str e;
     embedding := zero_embedding |}.

Local Open Scope traced_scope.

(** The body of the [try] statement, lines 29-54. *)
Definition try_body (libs : Libs) (image_path : pystr) : proc result_doc :=
  model <- tcall (EvLoadModel model_name)
             (CLIPModel_from_pretrained libs model_name) ;;
  processor <- tcall (EvLoadProcessor model_name)
                 (CLIPProcessor_from_pretrained libs model_name) ;;
  opened <- tcall (EvOpen image_path) (Image_open libs image_path) ;;
  image <- tcall (EvConvert (py "RGB")) (Image_convert libs opened (py "RGB")) ;;
  inputs <- tcall EvPreprocess (processor_call libs processor image) ;;
  image_features <- tcall EvInfer (get_image_features libs model inputs) ;;
  image_features <- tlift (normalize image_features) ;;
  row <- tlift (getitem0 image_features) ;;
  let embedding := tolist row in
  let caption := py "Image from " ++ image_path in
  tret {| caption := caption; embedding := embedding |}.

(** [try: body except Exception as e: return handler(e)] *)
Definition except_Exception {A} (body : proc A) (handler : exn -> A) : proc A :=
  match body with
  | (t, Err e) => if is_Exception e then (t, Ok (handler e)) else (t, Err e)
  | (t, Ok a) => (t, Ok a)
  end.

(** Lines 19-59. *)
Definition process_image (HAS_CLIP : bool) (libs : Libs) (image_path : pystr)
    : proc result_doc :=
  if negb HAS_CLIP then tret (fallback_doc image_path)
  else except_Exception (try_body libs image_path) error_doc.

(** The calls of a run of the [try] block in which nothing raises. *)
Definition full_trace (image_path : pystr) : list event :=
  [EvLoadModel model_name; EvLoadProcessor model_name; EvOpen image_path;
   EvConvert (py "RGB"); EvPreprocess; EvInfer].

(** Every error an oracle call reports derives from [Exception]. *)
Definition raises_only_Exception (libs : Libs) : Prop :=
  (forall n e, CLIPModel_from_pretrained libs n = Err e -> is_Exception e = true) /\
  (forall n e, CLIPProcessor_from_pretrained libs n = Err e -> is_Exception e = true) /\
  (forall n e, Image_open libs n = Err e -> is_Exception e = true) /\
  (forall i m e, Image_convert libs i m = Err e -> is_Exception e = true) /\
  (forall pr i e, processor_call libs pr i = Err e -> is_Exception e = true) /\
  (forall m i e, get_image_features libs m i = Err e -> is_Exception e = true).

(** Every batch the model returns has rows of width [n]. *)
Definition features_width (libs : Libs) (n : nat) : Prop :=
  forall m i b, get_image_features libs m i = Ok b -> rect n b.

End Process.

Arguments Libs F Model Processor Image Inputs : clear implicits.
Arguments result_doc P : clear implicits.

(** ** Oracles for the examples *)

(** What [Image.open] raises for a path that does not exist. *)
Definition no_such_file : exn :=
  Exn OtherException (py "[Errno 2] No such file or directory: 'missing.png'").

(** [KeyboardInterrupt] derives from [BaseException] only. *)
Definition keyboard_interrupt : exn := Exn BaseOnly [].

(** Libraries whose handles carry no information: loading succeeds,
    [Image.open] and the model answer as given. *)
Definition demo_libs {F : Type} (opened : pyresult unit)
    (features : pyresult (tensor F)) : Libs F unit unit unit unit :=
  {| CLIPModel_from_pretrained := fun _ => Ok tt;
     CLIPProcessor_from_pretrained := fun _ => Ok tt;
     Image_open := fun _ => opened;
     Image_convert := fun _ _ => Ok tt;
     processor_call := fun _ _ => Ok tt;
     get_image_features := fun _ _ => features |}.

(** Libraries whose model cannot be loaded. *)
Definition broken_libs {F : Type} (e : exn) : Libs F unit unit unit unit :=
  {| CLIPModel_from_pretrained := fun _ => Err e;
     CLIPProcessor_from_pretrained := fun _ => Ok tt;
     Image_open := fun _ => Ok tt;
     Image_convert := fun _ _ => Ok tt;
     processor_call := fun _ _ => Ok tt;
     get_image_features := fun _ _ => Ok [] |}.

(** ** Theorems for every element type *)

(** Case analysis on the next library call of the goal. *)
Ltac next_call :=
  match goal with
  | |- context [tbind (tcall ?ev ?r) _] =>
      let E := fresh "Ecall" in
      destruct r eqn:E; rewrite ?tbind_call_ok, ?tbind_call_err; cbn [fst snd]
  end.

(** Case analysis on the batch returned by the model, after the calls. *)
Ltac case_batch :=
  rewrite normalize_rows, tbind_lift_ok;
  match goal with
  | H : get_image_features _ _ _ = Ok ?b |- _ => destruct b as [|?r ?rest]
  end;
  rewrite ?fmap_cons; cbn [getitem0 fmap list_fmap];
  rewrite ?tbind_lift_ok, ?tbind_lift_err; unfold tret; cbn [fst snd].

(** Discharge [raises_only_Exception] and [features_width] for a concrete
    oracle. *)
Ltac solve_oracle :=
  unfold raises_only_Exception, features_width, rect;
  repeat split; intros; simplify_eq/=; try reflexivity;
  repeat constructor; rewrite ?length_replicate; reflexivity.

Section ProcessTheorems.
Context {F P : Type} `{Scalar F} `{PyNum F P}.
Context {Model Processor Image Inputs : Type}.
Implicit Types (libs : Libs F Model Processor Image Inputs) (p : pystr)
  (d : result_doc P) (t : list event) (e : exn).

Lemma zero_embedding_length : length (zero_embedding (P:=P)) = 512%nat.
Proof. apply length_replicate. Qed.

(** What a run of the [try] block that returns has done. *)
Lemma try_body_ok libs p t d :
  try_body libs p = (t, Ok d) ->
  exists model processor opened image inputs r rest,
    CLIPModel_from_pretrained libs model_name = Ok model /\
    CLIPProcessor_from_pretrained libs model_name = Ok processor /\
    Image_open libs p = Ok opened /\
    Image_convert libs opened (py "RGB") = Ok image /\
    processor_call libs processor image = Ok inputs /\
    get_image_features libs model inputs = Ok (r :: rest) /\
    t = full_trace p /\
    d = {| caption := py "Image from " ++ p; embedding := tolist (normalize_row r) |}.
Proof.
  unfold try_body. repeat next_call; try done. case_batch; [done|].
  intros [= <- <-]. by repeat eexists.
Qed.

Lemma try_body_success libs p model processor opened image inputs r rest :
  CLIPModel_from_pretrained libs model_name = Ok model ->
  CLIPProcessor_from_pretrained libs model_name = Ok processor ->
  Image_open libs p = Ok opened ->
  Image_convert libs opened (py "RGB") = Ok image ->
  processor_call libs processor image = Ok inputs ->
  get_image_features libs model inputs = Ok (r :: rest) ->
  try_body libs p =
    (full_trace p,
     Ok {| caption := py "Image from " ++ p; embedding := tolist (normalize_row r) |}).
Proof.
  intros Hm Hp Ho Hc Hi Hf. unfold try_body.
  rewrite Hm, tbind_call_ok, Hp, tbind_call_ok, Ho, tbind_call_ok, Hc,
    tbind_call_ok, Hi, tbind_call_ok, Hf, tbind_call_ok. cbn [fst snd].
  by rewrite normalize_rows, tbind_lift_ok.
Qed.

(** [Image.open] raises: two calls went before, none comes after. *)
Lemma try_body_open_fails libs p model processor e :
  CLIPModel_from_pretrained libs model_name = Ok model ->
  CLIPProcessor_from_pretrained libs model_name = Ok processor ->
  Image_open libs p = Err e ->
  try_body libs p =
    ([EvLoadModel model_name; EvLoadProcessor model_name; EvOpen p], Err e).
Proof.
  intros Hm Hp Ho. unfold try_body.
  by rewrite Hm, tbind_call_ok, Hp, tbind_call_ok, Ho, tbind_call_err.
Qed.

Lemma try_body_trace libs p : (try_body libs p).1 `prefix_of` full_trace p.
Proof.
  unfold try_body, full_trace. repeat next_call;
    try (case_batch; cbn [fst snd]);
    repeat (apply prefix_cons); try apply prefix_nil; done.
Qed.

(** An exception leaving the [try] block was raised by a library call, or
    is the [IndexError] of [image_features[0]] on an empty batch. *)
Lemma try_body_err libs p t e :
  try_body libs p = (t, Err e) ->
  e = index_error \/
  (exists n, CLIPModel_from_pretrained libs n = Err e) \/
  (exists n, CLIPProcessor_from_pretrained libs n = Err e) \/
  (exists n, Image_open libs n = Err e) \/
  (exists i m, Image_convert libs i m = Err e) \/
  (exists pr i, processor_call libs pr i = Err e) \/
  (exists m i, get_image_features libs m i = Err e).
Proof.
  unfold try_body. repeat next_call; try (intros [= <- <-]; eauto 10).
  case_batch; intros [= <- <-]; eauto.
Qed.

Lemma except_Exception_ok {A} (body : proc A) handler t a :
  except_Exception body handler = (t, Ok a) <->
  body = (t, Ok a) \/ exists e, body = (t, Err e) /\ is_Exception e = true /\ a = handler e.
Proof.
  destruct body as [t' [a'|e]]; simpl.
  - split; [intros [= <- <-]; auto|]. by intros [[= <- <-]|(? & ? & _)].
  - destruct (is_Exception e) eqn:E; split.
    + intros [= <- <-]. eauto.
    + by intros [?|(? & [= <- <-] & _ & ->)].
    + done.
    + intros [?|(? & [= <- <-] & ? & _)]; congruence.
Qed.

Lemma except_Exception_err {A} (body : proc A) handler t e :
  except_Exception body handler = (t, Err e) <->
  body = (t, Err e) /\ is_Exception e = false.
Proof.
  destruct body as [t' [a'|e']]; simpl; [by split; [|intros []]|].
  destruct (is_Exception e') eqn:E; split.
  - done.
  - intros [[= <- <-] ?]. congruence.
  - by intros [= <- <-].
  - by intros [[= <- <-] _].
Qed.

Lemma process_image_inv HAS_CLIP libs p t d :
  process_image HAS_CLIP libs p = (t, Ok d) <->
  (HAS_CLIP = false /\ t = [] /\ d = fallback_doc p) \/
  (HAS_CLIP = true /\ try_body libs p = (t, Ok d)) \/
  (HAS_CLIP = true /\ exists e,
     try_body libs p = (t, Err e) /\ is_Exception e = true /\ d = error_doc e).
Proof.
  destruct HAS_CLIP; unfold process_image; cbn [negb].
  - rewrite except_Exception_ok. split.
    + intros [?|?]; eauto.
    + intros [(? & _)|[(_ & ?)|(_ & ?)]]; [done|auto..].
  - split; [intros [= <- <-]; auto|].
    by intros [(_ & -> & ->)|[(? & _)|(? & _)]].
Qed.

Lemma process_image_err_inv HAS_CLIP libs p t e :
  process_image HAS_CLIP libs p = (t, Err e) <->
  HAS_CLIP = true /\ try_body libs p = (t, Err e) /\ is_Exception e = false.
Proof.
  destruct HAS_CLIP; unfold process_image; cbn [negb].
  - rewrite except_Exception_err. split; [by intros [??]|by intros (_ & ? & ?)].
  - split; [done|]. by intros [? _].
Qed.

Lemma process_image_total HAS_CLIP libs p :
  raises_only_Exception libs ->
  exists d, (process_image HAS_CLIP libs p).2 = Ok d.
Proof.
  intros (Hm & Hp & Ho & Hc & Hi & Hf).
  destruct (process_image HAS_CLIP libs p) as [t [d|e]] eqn:E; [by eexists|].
  apply process_image_err_inv in E as (_ & E & Hne).
  exfalso. apply try_body_err in E
    as [->|[[? E]|[[? E]|[[? E]|[(? & ? & E)|[(? & ? & E)|(? & ? & E)]]]]]];
    [done|apply Hm in E|apply Hp in E|apply Ho in E|apply Hc in E
    |apply Hi in E|apply Hf in E]; congruence.
Qed.

Lemma embedding_length_512 HAS_CLIP libs p t d :
  features_width libs 512 ->
  process_image HAS_CLIP libs p = (t, Ok d) ->
  length (embedding d) = 512%nat.
Proof.
  intros Hw [(_ & _ & ->)|[(_ & E)|(_ & e & _ & _ & ->)]]%process_image_inv;
    [apply zero_embedding_length| |apply zero_embedding_length].
  apply try_body_ok in E as (m & pr & o & i & inp & r & rest & _ & _ & _ & _ & _ & Hf & _ & ->).
  cbn [embedding]. rewrite tolist_length, normalize_row_length.
  apply Hw in Hf. by apply Forall_cons_1 in Hf as [-> _].
Qed.

(** C2: the documents [process_image] can return, branch by branch: the
    placeholder without any library call when [HAS_CLIP] is false, the result
    of the [try] block when it returns, and the error document built from
    [str(e)] when the [try] block raises an exception [e] deriving from
    [Exception]; nothing else. *)
Theorem process_image_ok HAS_CLIP libs p t d :
  process_image HAS_CLIP libs p = (t, Ok d) <->
  (HAS_CLIP = false /\ t = [] /\ d = fallback_doc p) \/
  (HAS_CLIP = true /\ try_body libs p = (t, Ok d)) \/
  (HAS_CLIP = true /\ exists e,
     try_body libs p = (t, Err e) /\ is_Exception e = true /\ d = error_doc e).
Proof. apply process_image_inv. Qed.

(** C3: [process_image] returns a document, never an exception, when the
    libraries raise nothing but exceptions deriving from [Exception]. *)
Theorem process_image_returns HAS_CLIP libs p :
  raises_only_Exception libs ->
  exists d, (process_image HAS_CLIP libs p).2 = Ok d.
Proof. apply process_image_total. Qed.

(** C6: whichever branch is taken, the embedding of the returned document
    has 512 entries, provided the model's feature rows have 512. *)
Theorem process_image_embedding_length HAS_CLIP libs p t d :
  features_width libs 512 ->
  process_image HAS_CLIP libs p = (t, Ok d) ->
  length (embedding d) = 512%nat.
Proof. apply embedding_length_512. Qed.

(** C10: an exception leaves [process_image] exactly when the [try] block
    raised it and it does not derive from [Exception]
    ([KeyboardInterrupt], [SystemExit]); the fallback branch never raises. *)
Theorem process_image_err HAS_CLIP libs p t e :
  process_image HAS_CLIP libs p = (t, Err e) <->
  HAS_CLIP = true /\ try_body libs p = (t, Err e) /\ is_Exception e = false.
Proof. apply process_image_err_inv. Qed.

(** C11: the library calls made by [process_image] are an initial segment of
    load model, load processor, open the given path, convert to RGB,
    preprocess, infer, in this order; in particular the path passed to
    [Image.open] is the argument, and nothing is called twice. *)
Theorem process_image_trace HAS_CLIP libs p :
  (process_image HAS_CLIP libs p).1 `prefix_of` full_trace p.
Proof.
  destruct HAS_CLIP; [|apply prefix_nil].
  unfold process_image, except_Exception; cbn [negb].
  pose proof (try_body_trace libs p) as Ht.
  destruct (try_body libs p) as [t [d|e]]; [done|].
  by destruct (is_Exception e).
Qed.

(** C15: when [Image.open] raises (for instance on a path that does not
    exist), the model and the processor have been loaded before, nothing is
    called afterwards, and the document carries the message and 512 zeros. *)
Theorem process_image_open_error libs p model processor e :
  CLIPModel_from_pretrained libs model_name = Ok model ->
  CLIPProcessor_from_pretrained libs model_name = Ok processor ->
  Image_open libs p = Err e ->
  is_Exception e = true ->
  process_image true libs p =
    ([EvLoadModel model_name; EvLoadProcessor model_name; EvOpen p],
     Ok {| caption := py "Error processing image: " ++ exn_str e;
           embedding := replicate 512 zero_float |}).
Proof.
  intros Hm Hp Ho He. unfold process_image. cbn [negb].
  rewrite (try_body_open_fails libs p model processor e Hm Hp Ho).
  cbn [fst snd except_Exception]. by rewrite He.
Qed.

(** C16: when the six library calls succeed and the batch is not empty, the
    document carries the caption [Image from <path>] and the first row of
    the batch divided by its norm, converted element by element. *)
Theorem process_image_success libs p model processor opened image inputs r rest :
  CLIPModel_from_pretrained libs model_name = Ok model ->
  CLIPProcessor_from_pretrained libs model_name = Ok processor ->
  Image_open libs p = Ok opened ->
  Image_convert libs opened (py "RGB") = Ok image ->
  processor_call libs processor image = Ok inputs ->
  get_image_features libs model inputs = Ok (r :: rest) ->
  process_image true libs p =
    (full_trace p,
     Ok {| caption := py "Image from " ++ p;
           embedding := item <$> ((fun x => fdiv x (norm_row r)) <$> r) |}).
Proof.
  intros. unfold process_image. cbn [negb].
  by erewrite try_body_success.
Qed.

End ProcessTheorems.

(** ** Witnesses on concrete oracles *)

Lemma process_image_returns_witness :
  exists d : result_doc binary64,
    (process_image true (demo_libs (Err no_such_file) (Ok [[b32_of_Z 3; b32_of_Z 4]]))
       (py "missing.png")).2 = Ok d.
Proof. apply process_image_returns. solve_oracle. Defined.

Lemma process_image_embedding_length_witness :
  length (embedding (P:=binary64)
            {| caption := py "Image from cat.png";
               embedding := tolist (normalize_row (replicate 512 (b32_of_Z 1))) |})
  = 512%nat.
Proof.
  apply (process_image_embedding_length true
           (demo_libs (Ok tt) (Ok [replicate 512 (b32_of_Z 1)])) (py "cat.png")
           (full_trace (py "cat.png"))).
  - solve_oracle.
  - reflexivity.
Defined.

Lemma process_image_open_error_witness :
  process_image (P:=binary64) true
    (demo_libs (F:=binary32) (Err no_such_file) (Ok [])) (py "missing.png") =
  ([EvLoadModel model_name; EvLoadProcessor model_name; EvOpen (py "missing.png")],
   Ok {| caption := py "Error processing image: " ++ exn_str no_such_file;
         embedding := replicate 512 zero_float |}).
Proof. by apply (process_image_open_error _ _ tt tt). Defined.

Lemma process_image_success_witness :
  process_image (P:=binary64) true
    (demo_libs (Ok tt) (Ok [[b32_of_Z 3; b32_of_Z 4]])) (py "cat.png") =
  (full_trace (py "cat.png"),
   Ok {| caption := py "Image from cat.png";
         embedding := [b32_to_b64 (S754_finite false 10066330 (-24));
                       b32_to_b64 (S754_finite false 13421773 (-24))] |}).
Proof.
  by rewrite (process_image_success _ (py "cat.png") tt tt tt tt tt
                [b32_of_Z 3; b32_of_Z 4] []).
Defined.

(** ** The real model: the embedding has norm 1 *)

Section RealProcess.
Context {Model Processor Image Inputs : Type}.
Implicit Types (libs : Libs R Model Processor Image Inputs) (p : pystr).

Lemma R_tolist (r : list R) : tolist (P:=R) r = r.
Proof. unfold tolist. apply list_fmap_id. Qed.

(** C37: over the reals, the embedding produced by the [try] block has
    Euclidean norm exactly 1 whenever the feature vector is not zero. *)
Theorem process_image_unit_norm libs p t d :
  (forall m i r rest, get_image_features libs m i = Ok (r :: rest) ->
     Exists (fun x => x <> 0%R) r) ->
  process_image true libs p = (t, Ok d) ->
  caption d = py "Image from " ++ p ->
  norm_row (embedding d) = 1%R.
Proof.
  intros Hnz [(? & _)|[(_ & E)|(_ & e & _ & _ & ->)]]%process_image_inv Hc; [done| |].
  - apply try_body_ok in E
      as (m & pr & o & i & inp & r & rest & _ & _ & _ & _ & _ & Hf & _ & ->).
    cbn [embedding]. rewrite R_tolist. apply norm_normalize_row. eauto.
  - cbn [caption error_doc] in Hc. apply (f_equal (take 7)) in Hc.
    by vm_compute in Hc.
Qed.

End RealProcess.

Lemma process_image_unit_norm_witness :
  norm_row (embedding (P:=R)
    {| caption := py "Image from cat.png";
       embedding := tolist (normalize_row [3%R; 4%R]) |}) = 1%R.
Proof.
  apply (process_image_unit_norm (demo_libs (Ok tt) (Ok [[3%R; 4%R]])) (py "cat.png")
           (full_trace (py "cat.png"))).
  - intros m i r rest [= <-]. left. lra.
  - reflexivity.
  - reflexivity.
Defined.

(** ** The binary32 model: a zero feature vector yields NaNs *)

Section Binary32Process.
Context {Model Processor Image Inputs : Type}.
Implicit Types (libs : Libs binary32 Model Processor Image Inputs) (p : pystr).

Lemma b32_tolist_nan n :
  tolist (P:=binary64) (replicate n (S754_nan : binary32)) = replicate n S754_nan.
Proof. unfold tolist. by rewrite fmap_replicate. Qed.

Lemma zero_features_nan libs p t d :
  (forall m i b, get_image_features libs m i = Ok b ->
     Forall (Forall (fun x => is_zero x = true)) b) ->
  try_body libs p = (t, Ok d) ->
  exists n, embedding d = replicate n S754_nan.
Proof.
  intros Hz (m & pr & o & i & inp & r & rest & _ & _ & _ & _ & _ & Hf & _ & ->)%try_body_ok.
  apply Hz, Forall_cons_1 in Hf as [Hr _]. exists (length r).
  cbn [embedding]. by rewrite normalize_row_zeros, b32_tolist_nan.
Qed.

End Binary32Process.
