(* ===== verification/Main.v ===== *)
(** * The script as a whole: imports and [__main__] (lines 7-17, 61-68)

    [import_phase] is the module-level code executed before [__main__]:
    the unguarded imports of [torch] and [PIL.Image] and the guarded import
    of [transformers] that sets [HAS_CLIP].  [main] is the [__main__] block.
    [run] composes them and yields an [outcome]: what the script wrote on
    each stream, the library calls made and how the process ended.  The
    traceback the interpreter prints for an uncaught exception is not part
    of [out_stderr]; the exception itself is the [Uncaught] status.

    [contract] is the behaviour promised by the specification's external
    interface, as a predicate on outcomes, and the refinement theorems state
    when [run] meets it.  The last sections read standard output back with
    the reference decoder of [JsonDecode]: what a consumer of the script
    obtains on each branch, and when it obtains nothing. *)

From Stdlib Require Import ZArith Lia String.
From Stdlib Require Import Floats.SpecFloat.
From stdpp Require Import base tactics list.
From S2P Require Import Prelude PyStr Scalar Tensor PyFloat FloatValid.
From S2P Require Import Json JsonDecode JsonFloat Process.

(** ** Definitions *)

(** The outcome of the three third-party imports, lines 9, 10 and 13. *)
Record Imports : Type := {
  import_torch : pyresult unit;
  import_PIL_Image : pyresult unit;
  import_transformers : pyresult unit;
}.

(** How the process ends: [sys.exit(code)] or falling off the end of the
    script ([Exit]), or an exception nobody caught. *)
Inductive exit_status : Type :=
  | Exit (code : Z)
  | Uncaught (e : exn).

Record outcome : Type := {
  out_stdout : pystr;
  out_stderr : pystr;
  out_calls : list event;
  out_status : exit_status;
}.

(** [print(text, file=f)]: the text followed by a newline. *)
Definition print (text : pystr) : pystr := text ++ [newline].

(** A text that is one printable line with its line end. *)
Definition one_line (s : pystr) : Prop :=
  exists line, s = line ++ [newline] /\ printable_str line.

(** Line 17. *)
Definition import_warning : pystr :=
  py "Warning: transformers not installed. Install with: pip install transformers torch pillow".

(** Line 63. *)
Definition usage_message : pystr := py "Usage: clip2_process.py <image_path>".

(** Lines 9-17: what is written on standard error, and [HAS_CLIP] or the
    exception that ends the process. *)
Definition import_phase (imp : Imports) : pystr * pyresult bool :=
  match import_torch imp with
  | Err e => ([], Err e)
  | Ok _ =>
      match import_PIL_Image imp with
      | Err e => ([], Err e)
      | Ok _ =>
          match import_transformers imp with
          | Ok _ => ([], Ok true)
          | Err e =>
              if is_ImportError e then (print import_warning, Ok false)
              else ([], Err e)
          end
      end
  end.

(** Import outcomes for the examples. *)
Definition imports_all_ok : Imports :=
  {| import_torch := Ok tt; import_PIL_Image := Ok tt; import_transformers := Ok tt |}.

Definition no_module (name : pystr) : exn :=
  Exn ImportError (py "No module named '" ++ name ++ py "'").

Definition imports_no_transformers : Imports :=
  {| import_torch := Ok tt; import_PIL_Image := Ok tt;
     import_transformers := Err (no_module (py "transformers")) |}.

Definition imports_no_torch : Imports :=
  {| import_torch := Err (no_module (py "torch")); import_PIL_Image := Ok tt;
     import_transformers := Ok tt |}.

(** The decoded form of a result document: the caption and the number
    tokens of the embedding. *)
Definition doc_json (caption : pystr) (numbers : list pystr) : jval :=
  JObj [(py "caption", JStr caption); (py "embedding", JArr (JNum <$> numbers))].

(** The least positive binary32 value, [2^-149]: its square underflows. *)
Definition b32_tiny : binary32 := S754_finite false 1 (-149).

Section Main.
Context {F P : Type} `{Scalar F} `{PyNum F P} `{FloatRepr P}.
Context {Model Processor Image Inputs : Type}.

(** The dictionary of lines 23-26, 51-54 and 56-59 as a Python value, keys in
    insertion order. *)
Definition doc_value (d : result_doc P) : pyval P :=
  VDict [(py "caption", VStr (caption d));
         (py "embedding", VList (VFloat <$> embedding d))].

(** The dictionary of line 63. *)
Definition usage_value : pyval P := VDict [(py "error", VStr usage_message)].

(** Raised by [sys.argv[1]] on a list that is too short. *)
Definition argv_index_error : exn := Exn OtherException (py "list index out of range").

(** Lines 61-68. *)
Definition main (HAS_CLIP : bool) (libs : Libs F Model Processor Image Inputs)
    (argv : list pystr) : outcome :=
  if (length argv <? 2)%nat then
    {| out_stdout := []; out_stderr := print (dumps usage_value);
       out_calls := []; out_status := Exit 1 |}
  else
    match argv !! 1%nat with
    | None =>
        {| out_stdout := []; out_stderr := []; out_calls := [];
           out_status := Uncaught argv_index_error |}
    | Some image_path =>
        match process_image HAS_CLIP libs image_path with
        | (t, Ok result) =>
            {| out_stdout := print (dumps (doc_value result)); out_stderr := [];
               out_calls := t; out_status := Exit 0 |}
        | (t, Err e) =>
            {| out_stdout := []; out_stderr := []; out_calls := t;
               out_status := Uncaught e |}
        end
    end.

(** The whole script. *)
Definition run (imp : Imports) (libs : Libs F Model Processor Image Inputs)
    (argv : list pystr) : outcome :=
  match import_phase imp with
  | (err, Err e) =>
      {| out_stdout := []; out_stderr := err; out_calls := [];
         out_status := Uncaught e |}
  | (err, Ok HAS_CLIP) =>
      let o := main HAS_CLIP libs argv in
      {| out_stdout := out_stdout o; out_stderr := err ++ out_stderr o;
         out_calls := out_calls o; out_status := out_status o |}
  end.

(** *** The contract of the specification *)

(** The three forms of caption. *)
Definition caption_ok (image_path caption : pystr) : Prop :=
  caption = py "Image: " ++ image_path \/
  caption = py "Image from " ++ image_path \/
  exists message, caption = py "Error processing image: " ++ message.

(** Section 6 and 7 of the specification: without an argument, exit status
    1, nothing on standard output and a JSON object with the key [error] at
    the end of standard error; with an argument, exit status 0 and exactly
    one line on standard output, the JSON text of a document with a caption
    of one of the three forms and 512 embedding entries. *)
Definition contract (argv : list pystr) (o : outcome) : Prop :=
  match argv with
  | _ :: image_path :: _ =>
      out_status o = Exit 0 /\
      exists d : result_doc P,
        out_stdout o = dumps (doc_value d) ++ [newline] /\
        (newline ∉ dumps (doc_value d)) /\
        caption_ok image_path (caption d) /\
        length (embedding d) = 512%nat
  | _ =>
      out_status o = Exit 1 /\
      out_stdout o = [] /\
      exists before message,
        out_stderr o = before ++ dumps (VDict [(py "error", VStr message)] : pyval P)
                         ++ [newline]
  end.

(** The imports on which the script does not guard succeed. *)
Definition imports_ok (imp : Imports) : Prop :=
  import_torch imp = Ok tt /\ import_PIL_Image imp = Ok tt /\
  forall e, import_transformers imp = Err e -> is_ImportError e = true.

End Main.

(** ** The import phase *)

Lemma import_phase_ok imp :
  imports_ok imp ->
  import_phase imp = ([], Ok true) \/ import_phase imp = (print import_warning, Ok false).
Proof.
  intros (Ht & Hp & Htr). unfold import_phase. rewrite Ht, Hp.
  destruct (import_transformers imp) as [[]|e]; [by left|].
  rewrite (Htr e eq_refl). by right.
Qed.

Lemma import_phase_torch_missing imp e :
  import_torch imp = Err e -> import_phase imp = ([], Err e).
Proof. intros Ht. unfold import_phase. by rewrite Ht. Qed.

Lemma import_phase_has_clip imp err b :
  import_phase imp = (err, Ok b) ->
  b = is_ok (import_transformers imp).
Proof.
  unfold import_phase. repeat case_match; intros [= <- <-]; done.
Qed.

Lemma import_phase_no_transformers imp e :
  import_torch imp = Ok tt -> import_PIL_Image imp = Ok tt ->
  import_transformers imp = Err e -> is_ImportError e = true ->
  import_phase imp = (print import_warning, Ok false).
Proof. intros Ht Hp Htr He. unfold import_phase. by rewrite Ht, Hp, Htr, He. Qed.

(** ** [main] on each branch and the text of a document *)

Section MainLemmas.
Context {F P : Type} `{Scalar F} `{PyNum F P} `{FloatReprLaws P}.
Context {Model Processor Image Inputs : Type}.
Implicit Types (libs : Libs F Model Processor Image Inputs) (p : pystr)
  (argv : list pystr) (imp : Imports).

Lemma main_usage b libs argv :
  (length argv < 2)%nat ->
  main b libs argv =
    {| out_stdout := []; out_stderr := print (dumps usage_value);
       out_calls := []; out_status := Exit 1 |}.
Proof.
  intros Hlen. unfold main. by rewrite (proj2 (Nat.ltb_lt _ _) Hlen).
Qed.

Lemma main_path b libs prog p rest :
  main b libs (prog :: p :: rest) =
    match process_image b libs p with
    | (t, Ok result) =>
        {| out_stdout := print (dumps (doc_value result)); out_stderr := [];
           out_calls := t; out_status := Exit 0 |}
    | (t, Err e) =>
        {| out_stdout := []; out_stderr := []; out_calls := t;
           out_status := Uncaught e |}
    end.
Proof. reflexivity. Qed.

(** [sys.argv[1]] never raises: the length test guards it. *)
Lemma main_argv_guarded argv :
  (length argv <? 2)%nat = false -> is_Some (argv !! 1%nat).
Proof. destruct argv as [|prog [|p rest]]; simpl; by eauto. Qed.

Lemma dumps_floats (xs : list P) :
  dumps (VList (VFloat <$> xs)) = py "[" ++ join (py ", ") (floatstr <$> xs) ++ py "]".
Proof. cbn [dumps]. by rewrite <- list_fmap_compose. Qed.

(** The text of a result document. *)
Lemma dumps_doc_value (d : result_doc P) :
  dumps (doc_value d) =
  py "{" ++ quoted (py "caption") ++ py ": " ++ encode_basestring_ascii (caption d)
  ++ py ", " ++ quoted (py "embedding") ++ py ": [" ++
  join (py ", ") (floatstr <$> embedding d) ++ py "]}".
Proof.
  unfold doc_value.
  change (dumps (VDict ?l)) with
    (py "{" ++ join item_separator
       ((fun kv => encode_basestring_ascii kv.1 ++ key_separator ++ dumps kv.2) <$> l)
     ++ py "}").
  cbn [fmap list_fmap join fst snd]. rewrite dumps_floats.
  change (dumps (VStr ?s)) with (encode_basestring_ascii s).
  change (encode_basestring_ascii (py "caption")) with (quoted (py "caption")).
  change (encode_basestring_ascii (py "embedding")) with (quoted (py "embedding")).
  rewrite <- !app_assoc. reflexivity.
Qed.

End MainLemmas.

(** ** The IEEE model: the text written *)

Section Binary32Main.
Context {Model Processor Image Inputs : Type}.
Implicit Types (libs : Libs binary32 Model Processor Image Inputs) (p : pystr)
  (argv : list pystr) (imp : Imports).

Lemma floatstr_zero : floatstr b64_zero = py "0.0".
Proof. reflexivity. Qed.

Lemma floatstr_nan : floatstr (S754_nan : binary64) = py "NaN".
Proof. reflexivity. Qed.

(** C7: when [transformers] cannot be imported, the script prints the
    warning on standard error, calls no library (the file is not read),
    exits with status 0 and prints the placeholder document: the caption
    [Image: <path>] as a JSON string and 512 times [0.0]. *)
Theorem run_fallback_text imp libs prog p rest e :
  import_torch imp = Ok tt -> import_PIL_Image imp = Ok tt ->
  import_transformers imp = Err e -> is_ImportError e = true ->
  run (P:=binary64) imp libs (prog :: p :: rest) =
    {| out_stdout :=
         py "{" ++ quoted (py "caption") ++ py ": "
         ++ encode_basestring_ascii (py "Image: " ++ p) ++ py ", "
         ++ quoted (py "embedding") ++ py ": ["
         ++ join (py ", ") (replicate 512 (py "0.0")) ++ py "]}" ++ [newline];
       out_stderr := import_warning ++ [newline];
       out_calls := [];
       out_status := Exit 0 |}.
Proof.
  intros Ht Hp Htr He. unfold run.
  rewrite (import_phase_no_transformers imp e Ht Hp Htr He), main_path.
  cbn [process_image negb tret out_stdout out_stderr out_calls out_status].
  unfold print. rewrite dumps_doc_value. cbn [caption embedding fallback_doc].
  unfold zero_embedding. rewrite fmap_replicate, app_nil_r.
  change zero_float with b64_zero. rewrite floatstr_zero.
  by rewrite <- !app_assoc.
Qed.

(** C24: when the model returns a feature vector of zeros, the script exits
    with status 0 and prints a document whose embedding consists of the
    token [NaN], which is not a JSON number. *)
Theorem run_nan_text libs prog p rest model processor opened image inputs r batch :
  CLIPModel_from_pretrained libs model_name = Ok model ->
  CLIPProcessor_from_pretrained libs model_name = Ok processor ->
  Image_open libs p = Ok opened ->
  Image_convert libs opened (py "RGB") = Ok image ->
  processor_call libs processor image = Ok inputs ->
  get_image_features libs model inputs = Ok (r :: batch) ->
  Forall (fun x => is_zero x = true) r ->
  run (P:=binary64) imports_all_ok libs (prog :: p :: rest) =
    {| out_stdout :=
         py "{" ++ quoted (py "caption") ++ py ": "
         ++ encode_basestring_ascii (py "Image from " ++ p) ++ py ", "
         ++ quoted (py "embedding") ++ py ": ["
         ++ join (py ", ") (replicate (length r) (py "NaN")) ++ py "]}" ++ [newline];
       out_stderr := [];
       out_calls := full_trace p;
       out_status := Exit 0 |}.
Proof.
  intros Hm Hp Ho Hc Hi Hf Hz. unfold run.
  cbn [import_phase imports_all_ok import_torch import_PIL_Image import_transformers].
  rewrite main_path. unfold process_image. cbn [negb].
  rewrite (try_body_success libs p _ _ _ _ _ _ _ Hm Hp Ho Hc Hi Hf).
  cbn [except_Exception out_stdout out_stderr out_calls out_status].
  unfold print. rewrite dumps_doc_value. cbn [caption embedding].
  rewrite normalize_row_zeros, b32_tolist_nan, fmap_replicate, floatstr_nan by done.
  by rewrite <- !app_assoc.
Qed.

End Binary32Main.

(** ** [run] for every element type *)

Section MainTheorems.
Context {F P : Type} `{Scalar F} `{PyNum F P} `{FloatReprLaws P}.
Context {Model Processor Image Inputs : Type}.
Implicit Types (libs : Libs F Model Processor Image Inputs) (p : pystr)
  (argv : list pystr) (imp : Imports).

Lemma print_one_line (v : pyval P) : one_line (print (dumps v)).
Proof. exists (dumps v). split; [done|apply dumps_chars]. Qed.

Lemma main_stdout b libs argv :
  out_stdout (main b libs argv) = [] \/ one_line (out_stdout (main b libs argv)).
Proof.
  unfold main. repeat case_match; cbn [out_stdout]; auto using print_one_line.
Qed.

Lemma run_no_args imp libs argv :
  imports_ok imp -> (length argv < 2)%nat ->
  out_status (run imp libs argv) = Exit 1 /\
  out_stdout (run imp libs argv) = [] /\
  out_calls (run imp libs argv) = [] /\
  out_stderr (run imp libs argv) =
    (if is_ok (import_transformers imp) then [] else print import_warning)
    ++ print (dumps (usage_value (P:=P))).
Proof.
  intros Himp Hlen. unfold run.
  destruct (import_phase_ok imp Himp) as [E|E]; rewrite E;
    pose proof (import_phase_has_clip _ _ _ E) as <-; by rewrite main_usage.
Qed.

Lemma process_image_caption b libs p t d :
  process_image b libs p = (t, Ok d) -> caption_ok p (caption d).
Proof.
  intros [(_ & _ & ->)|[(_ & E)|(_ & e & _ & _ & ->)]]%process_image_inv.
  - by left.
  - apply try_body_ok in E as (? & ? & ? & ? & ? & ? & ? & _ & _ & _ & _ & _ & _ & _ & ->).
    right. by left.
  - right. right. by eexists.
Qed.

(** C1: the script meets the contract of the specification (exit status 1
    and a JSON error object on standard error without an argument; exit
    status 0 and one line on standard output holding a document with one of
    the three captions and 512 embedding entries with an argument) whenever
    the unguarded imports succeed, the libraries raise only exceptions
    deriving from [Exception] and the model's features have width 512. *)
Theorem run_refines_contract imp libs argv :
  imports_ok imp -> raises_only_Exception libs -> features_width libs 512 ->
  contract (P:=P) argv (run imp libs argv).
Proof.
  intros Himp Hexc Hw. unfold contract, run.
  destruct (import_phase_ok imp Himp) as [E|E]; rewrite E;
    destruct argv as [|prog [|p rest]];
    cbn [main length Nat.ltb Nat.leb lookup list_lookup
         out_status out_stdout out_stderr].
  1,2,4,5: by repeat split; eexists _, usage_message.
  all: match goal with |- context [process_image ?b ?l ?q] =>
         destruct (process_image_total b l q Hexc) as [d Hd];
         destruct (process_image b l q) as [t r] eqn:Ep end.
  all: simpl in Hd; subst r; cbn [out_status out_stdout]; split; [done|].
  all: exists d; repeat split;
    [apply printable_str_no_newline, dumps_chars
    |by eapply process_image_caption
    |by eapply embedding_length_512].
Qed.

(** C12: without an argument, and with the unguarded imports succeeding,
    the script exits with status 1, calls no library, writes nothing on
    standard output, and writes on standard error the import warning (if
    [transformers] is missing) followed by the line
    [{"error": "Usage: clip2_process.py <image_path>"}]. *)
Theorem run_usage imp libs argv :
  imports_ok imp -> (length argv < 2)%nat ->
  out_status (run imp libs argv) = Exit 1 /\
  out_stdout (run imp libs argv) = [] /\
  out_calls (run imp libs argv) = [] /\
  out_stderr (run imp libs argv) =
    (if is_ok (import_transformers imp) then [] else import_warning ++ [newline])
    ++ py "{" ++ quoted (py "error") ++ py ": "
    ++ quoted (py "Usage: clip2_process.py <image_path>") ++ py "}" ++ [newline].
Proof. apply run_no_args. Qed.

(** C13: in every run, whatever the imports, the libraries and the
    arguments do, standard output is either empty or exactly one line of
    printable ASCII characters followed by a line end. *)
Theorem run_stdout imp libs argv :
  out_stdout (run imp libs argv) = [] \/
  exists line, out_stdout (run imp libs argv) = line ++ [newline] /\
               Forall (fun c => printable c = true) line.
Proof.
  unfold run. destruct (import_phase imp) as [err [b|e]]; simpl; [|by left].
  apply main_stdout.
Qed.

(** C14: a failing import of [torch] (or of a module it imports) ends the
    process with that exception before anything is written or called, with
    or without arguments: the placeholder document is not produced. *)
Theorem run_torch_missing imp libs argv e :
  import_torch imp = Err e ->
  run imp libs argv =
    {| out_stdout := []; out_stderr := []; out_calls := []; out_status := Uncaught e |}.
Proof. intros Ht. unfold run. by rewrite (import_phase_torch_missing _ _ Ht). Qed.

(** C38: the exit status is 0 exactly when a result document was printed
    on standard output. *)
Theorem run_exit_0 imp libs argv :
  out_status (run imp libs argv) = Exit 0 <->
  exists d, out_stdout (run imp libs argv) = print (dumps (doc_value d)).
Proof.
  unfold run. destruct (import_phase imp) as [err [b|e]]; simpl.
  - unfold main. repeat case_match; simpl; split; try done; eauto.
    all: intros [d Hd]; by destruct (dumps (doc_value d)).
  - split; [done|]. intros [d Hd]. by destruct (dumps (doc_value d)).
Qed.

(** C39: arguments after the image path are ignored. *)
Theorem main_extra_args b libs prog p rest :
  main b libs (prog :: p :: rest) = main b libs [prog; p].
Proof. by rewrite !main_path. Qed.

End MainTheorems.

(** ** Standard output read back by a JSON decoder *)

Section JsonMain.
Context {F P : Type} `{Scalar F} `{PyNum F P} `{FloatReprLaws P} `{!FloatJsonLaws P}.
Context {Model Processor Image Inputs : Type}.
Implicit Types (libs : Libs F Model Processor Image Inputs) (p : pystr)
  (argv : list pystr) (imp : Imports).

Lemma doc_value_valid (d : result_doc P) :
  valid_str (caption d) -> strings_valid (doc_value d) = true.
Proof.
  intros Hc. unfold doc_value. cbn [strings_valid forallb fst snd].
  rewrite !(bool_decide_eq_true_2 _ (py_valid _)), (bool_decide_eq_true_2 _ Hc).
  rewrite forallb_fmap. cbn [strings_valid andb]. rewrite andb_true_r.
  by induction (embedding d).
Qed.

Lemma doc_value_finite (d : result_doc P) :
  floats_finite (doc_value d) = forallb float_finite (embedding d).
Proof.
  unfold doc_value. cbn [floats_finite forallb fst snd andb].
  by rewrite forallb_fmap, andb_true_r.
Qed.

Lemma to_json_doc_value (d : result_doc P) :
  to_json (doc_value d) = doc_json (merge_pairs (caption d)) (float_repr <$> embedding d).
Proof.
  unfold to_json, doc_value, doc_json. cbn [to_json_with fmap list_fmap fst snd].
  by rewrite <- !list_fmap_compose.
Qed.

(** What a JSON decoder makes of the line printed for a document. *)
Lemma print_doc_loads (d : result_doc P) :
  valid_str (caption d) ->
  loads (print (dumps (doc_value d))) =
    if forallb float_finite (embedding d)
    then Some (doc_json (merge_pairs (caption d)) (float_repr <$> embedding d))
    else None.
Proof.
  intros Hc. unfold print.
  by rewrite loads_dumps_line, doc_value_finite, to_json_doc_value
    by by apply doc_value_valid.
Qed.

End JsonMain.

Section Binary32Json.
Context {Model Processor Image Inputs : Type}.
Implicit Types (libs : Libs binary32 Model Processor Image Inputs) (p : pystr)
  (argv : list pystr) (imp : Imports).

Lemma zero_embedding_finite : forallb float_finite (zero_embedding (P:=binary64)) = true.
Proof. reflexivity. Qed.

Lemma zero_embedding_repr :
  float_repr <$> zero_embedding (P:=binary64) = replicate 512 (py "0.0").
Proof. unfold zero_embedding. by rewrite fmap_replicate. Qed.

(** C9: when [transformers] cannot be imported, a JSON decoder reads from
    standard output an object with the caption [Image: <path>] and an
    embedding of 512 numbers [0.0], for every path of valid code points
    without a surrogate pair. *)
Theorem run_fallback_json imp libs prog p rest e :
  import_torch imp = Ok tt -> import_PIL_Image imp = Ok tt ->
  import_transformers imp = Err e -> is_ImportError e = true ->
  valid_str p -> no_surrogate_pair p = true ->
  loads (out_stdout (run (P:=binary64) imp libs (prog :: p :: rest))) =
    Some (doc_json (py "Image: " ++ p) (replicate 512 (py "0.0"))).
Proof.
  intros Ht Hp Htr He Hv Hn. unfold run.
  rewrite (import_phase_no_transformers imp e Ht Hp Htr He), main_path.
  cbn [process_image negb tret out_stdout].
  rewrite print_doc_loads by (apply Forall_app; split; [apply py_valid|done]).
  cbn [caption embedding fallback_doc].
  by rewrite zero_embedding_finite, zero_embedding_repr, merge_pairs_literal.
Qed.

(** C17: when [Image.open] raises an [Exception] (a path that does not
    exist), the script still exits with status 0, and a JSON decoder reads
    from the line it prints an object whose caption is
    [Error processing image: ] followed by the message of the exception, and
    whose embedding is 512 numbers [0.0]. *)
Theorem run_error_json libs prog p rest model processor e :
  CLIPModel_from_pretrained libs model_name = Ok model ->
  CLIPProcessor_from_pretrained libs model_name = Ok processor ->
  Image_open libs p = Err e ->
  is_Exception e = true ->
  valid_str (exn_str e) -> no_surrogate_pair (exn_str e) = true ->
  run (P:=binary64) imports_all_ok libs (prog :: p :: rest) =
    {| out_stdout := print (dumps (doc_value (error_doc e)));
       out_stderr := [];
       out_calls := [EvLoadModel model_name; EvLoadProcessor model_name; EvOpen p];
       out_status := Exit 0 |} /\
  loads (print (dumps (doc_value (error_doc (P:=binary64) e)))) =
    Some (doc_json (py "Error processing image: " ++ exn_str e) (replicate 512 (py "0.0"))).
Proof.
  intros Hm Hp Ho He Hv Hn. split.
  - unfold run.
    cbn [import_phase imports_all_ok import_torch import_PIL_Image import_transformers].
    rewrite main_path. unfold process_image. cbn [negb].
    rewrite (try_body_open_fails libs p model processor e Hm Hp Ho).
    cbn [except_Exception]. by rewrite He.
  - rewrite print_doc_loads by (apply Forall_app; split; [apply py_valid|done]).
    cbn [caption embedding error_doc].
    by rewrite zero_embedding_finite, zero_embedding_repr, merge_pairs_literal.
Qed.

(** What a decoder reads when the libraries succeed. *)
Lemma run_success_loads libs prog p rest model processor opened image inputs r batch :
  CLIPModel_from_pretrained libs model_name = Ok model ->
  CLIPProcessor_from_pretrained libs model_name = Ok processor ->
  Image_open libs p = Ok opened ->
  Image_convert libs opened (py "RGB") = Ok image ->
  processor_call libs processor image = Ok inputs ->
  get_image_features libs model inputs = Ok (r :: batch) ->
  valid_str p -> no_surrogate_pair p = true ->
  loads (out_stdout (run (P:=binary64) imports_all_ok libs (prog :: p :: rest))) =
    if forallb float_finite (tolist (P:=binary64) (normalize_row r))
    then Some (doc_json (py "Image from " ++ p)
                 (b64_repr <$> tolist (normalize_row r)))
    else None.
Proof.
  intros Hm Hp Ho Hc Hi Hf Hv Hn. unfold run.
  cbn [import_phase imports_all_ok import_torch import_PIL_Image import_transformers].
  rewrite main_path. unfold process_image. cbn [negb].
  rewrite (try_body_success libs p _ _ _ _ _ _ _ Hm Hp Ho Hc Hi Hf).
  cbn [except_Exception out_stdout].
  rewrite print_doc_loads by (apply Forall_app; split; [apply py_valid|done]).
  cbn [caption embedding]. by rewrite merge_pairs_literal.
Qed.

(** C18: when the libraries succeed and the normalised features are finite,
    a JSON decoder reads from standard output an object with the caption
    [Image from <path>] and, for each feature, the text of its binary64
    value. *)
Theorem run_success_json libs prog p rest model processor opened image inputs r batch :
  CLIPModel_from_pretrained libs model_name = Ok model ->
  CLIPProcessor_from_pretrained libs model_name = Ok processor ->
  Image_open libs p = Ok opened ->
  Image_convert libs opened (py "RGB") = Ok image ->
  processor_call libs processor image = Ok inputs ->
  get_image_features libs model inputs = Ok (r :: batch) ->
  valid_str p -> no_surrogate_pair p = true ->
  forallb float_finite (tolist (P:=binary64) (normalize_row r)) = true ->
  loads (out_stdout (run (P:=binary64) imports_all_ok libs (prog :: p :: rest))) =
    Some (doc_json (py "Image from " ++ p) (b64_repr <$> tolist (normalize_row r))).
Proof.
  intros Hm Hp Ho Hc Hi Hf Hv Hn Hfin.
  by rewrite (run_success_loads libs prog p rest _ _ _ _ _ _ _ Hm Hp Ho Hc Hi Hf Hv Hn), Hfin.
Qed.

(** C25: when the model returns a feature vector of zeros (at least one),
    standard output is not JSON: the decoder refuses the line, although the
    script exits with status 0. *)
Theorem run_nan_not_json libs prog p rest model processor opened image inputs x r batch :
  CLIPModel_from_pretrained libs model_name = Ok model ->
  CLIPProcessor_from_pretrained libs model_name = Ok processor ->
  Image_open libs p = Ok opened ->
  Image_convert libs opened (py "RGB") = Ok image ->
  processor_call libs processor image = Ok inputs ->
  get_image_features libs model inputs = Ok ((x :: r) :: batch) ->
  Forall (fun x => is_zero x = true) (x :: r) ->
  valid_str p -> no_surrogate_pair p = true ->
  loads (out_stdout (run (P:=binary64) imports_all_ok libs (prog :: p :: rest))) = None.
Proof.
  intros Hm Hp Ho Hc Hi Hf Hz Hv Hn.
  rewrite (run_success_loads libs prog p rest _ _ _ _ _ _ _ Hm Hp Ho Hc Hi Hf Hv Hn).
  by rewrite normalize_row_zeros, b32_tolist_nan by done.
Qed.

Lemma b64_float_finite (x : binary64) : float_finite x = is_finite x.
Proof. by destruct x as [s|[]| |s m e]. Qed.

(** When the norm of the row comes out as zero no entry of the embedding is
    finite, and the decoder refuses the line. *)
Lemma run_zero_norm_loads libs prog p rest model processor opened image inputs x r batch :
  CLIPModel_from_pretrained libs model_name = Ok model ->
  CLIPProcessor_from_pretrained libs model_name = Ok processor ->
  Image_open libs p = Ok opened ->
  Image_convert libs opened (py "RGB") = Ok image ->
  processor_call libs processor image = Ok inputs ->
  get_image_features libs model inputs = Ok ((x :: r) :: batch) ->
  is_zero (norm_row (x :: r)) = true ->
  valid_str p -> no_surrogate_pair p = true ->
  Forall (fun y => is_finite y = false) (tolist (P:=binary64) (normalize_row (x :: r))) /\
  loads (out_stdout (run (P:=binary64) imports_all_ok libs (prog :: p :: rest))) = None.
Proof.
  intros Hm Hp Ho Hc Hi Hf Hz Hv Hn.
  pose proof (normalize_row_zero_norm (x :: r) Hz) as Hinf. split; [done|].
  rewrite (run_success_loads libs prog p rest _ _ _ _ _ _ _ Hm Hp Ho Hc Hi Hf Hv Hn).
  apply Forall_cons_1 in Hinf as [Hx _].
  cbn [normalize_row div_row tolist fmap list_fmap forallb] in *.
  by rewrite b64_float_finite, Hx.
Qed.

(** C26: whenever the norm that line 44 computes for the first row is zero,
    the division has no guard: every entry of the embedding is a NaN or an
    infinity, and standard output is not JSON, for every path of valid code
    points without a surrogate pair. *)
Theorem run_zero_norm_not_json libs prog p rest model processor opened image inputs x r batch :
  CLIPModel_from_pretrained libs model_name = Ok model ->
  CLIPProcessor_from_pretrained libs model_name = Ok processor ->
  Image_open libs p = Ok opened ->
  Image_convert libs opened (py "RGB") = Ok image ->
  processor_call libs processor image = Ok inputs ->
  get_image_features libs model inputs = Ok ((x :: r) :: batch) ->
  is_zero (norm_row (x :: r)) = true ->
  valid_str p -> no_surrogate_pair p = true ->
  Forall (fun y => is_finite y = false) (tolist (P:=binary64) (normalize_row (x :: r))) /\
  loads (out_stdout (run (P:=binary64) imports_all_ok libs (prog :: p :: rest))) = None.
Proof. apply run_zero_norm_loads. Qed.

(** C27: features that are not zero do not help when they are small: if every
    feature of the first row is zero or of magnitude below [2^-75], the
    squares underflow in binary32, the norm is zero, no entry of the
    embedding is finite and standard output is not JSON, for every path of
    valid code points without a surrogate pair. *)
Theorem run_underflow_not_json libs prog p rest model processor opened image inputs x r batch :
  CLIPModel_from_pretrained libs model_name = Ok model ->
  CLIPProcessor_from_pretrained libs model_name = Ok processor ->
  Image_open libs p = Ok opened ->
  Image_convert libs opened (py "RGB") = Ok image ->
  processor_call libs processor image = Ok inputs ->
  get_image_features libs model inputs = Ok ((x :: r) :: batch) ->
  Forall (fun y => tiny y = true) (x :: r) ->
  valid_str p -> no_surrogate_pair p = true ->
  Forall (fun y => is_finite y = false) (tolist (P:=binary64) (normalize_row (x :: r))) /\
  loads (out_stdout (run (P:=binary64) imports_all_ok libs (prog :: p :: rest))) = None.
Proof.
  intros Hm Hp Ho Hc Hi Hf Ht Hv Hn.
  eapply run_zero_norm_loads; try eassumption. by rewrite tiny_norm_zero.
Qed.

(** C19: on the success branch with finite entries a JSON reader finds under
    the key [embedding] one number for each entry of the normalised row, and
    each number, read with rounding to nearest, ties to even, is the float
    [tolist()] made of that entry: the embedding crosses the pipe without
    loss. *)
Theorem run_success_numbers libs prog p rest model processor opened image inputs r batch :
  CLIPModel_from_pretrained libs model_name = Ok model ->
  CLIPProcessor_from_pretrained libs model_name = Ok processor ->
  Image_open libs p = Ok opened ->
  Image_convert libs opened (py "RGB") = Ok image ->
  processor_call libs processor image = Ok inputs ->
  get_image_features libs model inputs = Ok (r :: batch) ->
  valid_str p -> no_surrogate_pair p = true ->
  forallb float_finite (tolist (P:=binary64) (normalize_row r)) = true ->
  exists numbers,
    loads (out_stdout (run (P:=binary64) imports_all_ok libs (prog :: p :: rest))) =
      Some (doc_json (py "Image from " ++ p) numbers) /\
    Forall2 reads_back (tolist (normalize_row r)) numbers.
Proof.
  intros Hm Hp Ho Hc Hi Hf Hv Hn Hfin. eexists. split.
  - by rewrite (run_success_loads libs prog p rest _ _ _ _ _ _ _ Hm Hp Ho Hc Hi Hf Hv Hn),
      Hfin.
  - apply Forall2_fmap_r, Forall_Forall2_diag.
    eapply list.Forall_impl.
    + apply (forallb_Forall_and _ valid64 _ Hfin).
      eapply list.Forall_impl; [apply tolist_valid_all|done].
    + intros x [Hx Hvx]. by apply b64_repr_reads_back.
Qed.

End Binary32Json.


(** ** Witnesses *)

Lemma run_refines_contract_witness :
  contract (P:=binary64) [py "clip2_process.py"; py "cat.png"]
    (run imports_all_ok (demo_libs (Ok tt) (Ok [replicate 512 (b32_of_Z 1)]))
       [py "clip2_process.py"; py "cat.png"]).
Proof.
  apply run_refines_contract; [by repeat split|solve_oracle..].
Defined.

Lemma run_usage_witness :
  run (P:=binary64) imports_no_transformers
    (demo_libs (F:=binary32) (Ok tt) (Ok [])) [py "clip2_process.py"] =
  {| out_stdout := [];
     out_stderr := import_warning ++ [newline] ++ py "{" ++ quoted (py "error") ++ py ": "
                   ++ quoted (py "Usage: clip2_process.py <image_path>") ++ py "}"
                   ++ [newline];
     out_calls := [];
     out_status := Exit 1 |}.
Proof.
  destruct (run_usage (P:=binary64) imports_no_transformers
              (demo_libs (F:=binary32) (Ok tt) (Ok [])) [py "clip2_process.py"])
    as (Hs & Ho & Hc & He); [by repeat split; intros e [= <-]|simpl; lia|].
  destruct (run _ _ _) as [so se sc st]. cbn [out_status out_stdout out_calls out_stderr] in *.
  by subst.
Defined.

Lemma run_stdout_witness :
  out_stdout (run (P:=binary64) imports_all_ok
                (demo_libs (Ok tt) (Ok [[b32_of_Z 3; b32_of_Z 4]]))
                [py "clip2_process.py"; py "cat.png"]) = [] \/
  exists line,
    out_stdout (run (P:=binary64) imports_all_ok
                  (demo_libs (Ok tt) (Ok [[b32_of_Z 3; b32_of_Z 4]]))
                  [py "clip2_process.py"; py "cat.png"])
    = line ++ [newline] /\ Forall (fun c => printable c = true) line.
Proof. apply run_stdout. Defined.

Lemma run_torch_missing_witness :
  run (P:=binary64) imports_no_torch (demo_libs (F:=binary32) (Ok tt) (Ok []))
    [py "clip2_process.py"; py "cat.png"] =
  {| out_stdout := []; out_stderr := []; out_calls := [];
     out_status := Uncaught (no_module (py "torch")) |}.
Proof. by apply run_torch_missing. Defined.

Lemma run_fallback_text_witness :
  out_status (run (P:=binary64) imports_no_transformers
                (demo_libs (F:=binary32) (Ok tt) (Ok []))
                [py "clip2_process.py"; py "cat.png"]) = Exit 0.
Proof.
  by rewrite (run_fallback_text imports_no_transformers _ _ _ []
                (no_module (py "transformers"))).
Defined.

Lemma run_nan_text_witness :
  out_status (run (P:=binary64) imports_all_ok
                (demo_libs (Ok tt) (Ok [[S754_zero false; S754_zero true]]))
                [py "clip2_process.py"; py "cat.png"]) = Exit 0.
Proof.
  by rewrite (run_nan_text _ _ _ [] tt tt tt tt tt [S754_zero false; S754_zero true] []);
    repeat constructor.
Defined.

Lemma run_fallback_json_witness :
  loads (out_stdout (run (P:=binary64) imports_no_transformers
           (demo_libs (F:=binary32) (Ok tt) (Ok []))
           [py "clip2_process.py"; py "cat.png"])) =
  Some (doc_json (py "Image: cat.png") (replicate 512 (py "0.0"))).
Proof.
  by rewrite (run_fallback_json imports_no_transformers _ _ (py "cat.png") []
                (no_module (py "transformers")));
    try apply py_valid.
Defined.

Lemma run_error_json_witness :
  run (P:=binary64) imports_all_ok (demo_libs (F:=binary32) (Err no_such_file) (Ok []))
    [py "clip2_process.py"; py "missing.png"] =
    {| out_stdout := print (dumps (doc_value (error_doc no_such_file)));
       out_stderr := [];
       out_calls := [EvLoadModel model_name; EvLoadProcessor model_name;
                     EvOpen (py "missing.png")];
       out_status := Exit 0 |} /\
  loads (print (dumps (doc_value (error_doc (P:=binary64) no_such_file)))) =
  Some (doc_json (py "Error processing image: " ++ exn_str no_such_file)
          (replicate 512 (py "0.0"))).
Proof.
  apply (run_error_json (demo_libs (F:=binary32) (Err no_such_file) (Ok []))
           (py "clip2_process.py") (py "missing.png") [] tt tt no_such_file);
    try reflexivity.
  apply (bool_decide_unpack _). vm_compute. exact I.
Defined.

Lemma run_success_json_witness :
  loads (out_stdout (run (P:=binary64) imports_all_ok
           (demo_libs (Ok tt) (Ok [[b32_of_Z 3; b32_of_Z 4]]))
           [py "clip2_process.py"; py "cat.png"])) =
  Some (doc_json (py "Image from cat.png")
          [py "0.6000000238418579"; py "0.800000011920929"]).
Proof.
  rewrite (run_success_json _ _ (py "cat.png") [] tt tt tt tt tt
             [b32_of_Z 3; b32_of_Z 4] []); try reflexivity.
  apply py_valid.
Defined.

Lemma run_nan_not_json_witness :
  loads (out_stdout (run (P:=binary64) imports_all_ok
           (demo_libs (Ok tt) (Ok [[S754_zero false; S754_zero true]]))
           [py "clip2_process.py"; py "cat.png"])) = None.
Proof.
  rewrite (run_nan_not_json _ _ (py "cat.png") [] tt tt tt tt tt
             (S754_zero false) [S754_zero true] []); try reflexivity.
  - by repeat constructor.
  - apply py_valid.
Defined.

Lemma run_success_numbers_witness :
  exists numbers,
    loads (out_stdout (run (P:=binary64) imports_all_ok
             (demo_libs (Ok tt) (Ok [[b32_of_Z 3; b32_of_Z 4]]))
             [py "clip2_process.py"; py "cat.png"])) =
      Some (doc_json (py "Image from cat.png") numbers) /\
    Forall2 reads_back (tolist (normalize_row [b32_of_Z 3; b32_of_Z 4])) numbers.
Proof.
  apply (run_success_numbers _ _ (py "cat.png") [] tt tt tt tt tt
           [b32_of_Z 3; b32_of_Z 4] []); try reflexivity.
  apply py_valid.
Defined.

Lemma run_zero_norm_not_json_witness :
  Forall (fun y => is_finite y = false)
    (tolist (P:=binary64) (normalize_row [S754_zero true; b32_of_Z 0])) /\
  loads (out_stdout (run (P:=binary64) imports_all_ok
           (demo_libs (Ok tt) (Ok [[S754_zero true; b32_of_Z 0]]))
           [py "clip2_process.py"; py "cat.png"])) = None.
Proof.
  apply (run_zero_norm_not_json _ _ (py "cat.png") [] tt tt tt tt tt
           (S754_zero true) [b32_of_Z 0] []); try reflexivity.
  apply py_valid.
Defined.

Lemma run_underflow_not_json_witness :
  Forall (fun y => is_finite y = false)
    (tolist (P:=binary64) (normalize_row [b32_tiny; S754_finite true 12582912 (-99)])) /\
  loads (out_stdout (run (P:=binary64) imports_all_ok
           (demo_libs (Ok tt) (Ok [[b32_tiny; S754_finite true 12582912 (-99)]]))
           [py "clip2_process.py"; py "cat.png"])) = None.
Proof.
  apply (run_underflow_not_json _ _ (py "cat.png") [] tt tt tt tt tt
           b32_tiny [S754_finite true 12582912 (-99)] []); try reflexivity.
  - by repeat constructor.
  - apply py_valid.
Defined.
